(** * validate_packages_config: filter and re-serialize PACKAGES_CONFIG

    A shallow embedding of [.github/scripts/validate_packages_config.py]
    and of the part of CPython's [tomllib] that reads back what the script
    writes, followed by the properties of the script.

    Python [str] is modelled by [string]: a character is an [ascii], i.e. a
    code point below 256.  Every character class the script or the parser
    tests (letters, digits, quote, backslash, control characters) lies in
    that range.

    Exceptions are outcomes: a built-in or a function of the script either
    returns or raises, and what [main] does not catch ends the run.  Two
    limits of the interpreter bear on the script.  The conversion between
    [int] and decimal text refuses more than [int_max_str_digits] digits,
    in [str] as in [int]: that limit is a parameter of the embedding.  The
    depth of the call stack is not: the interpreter raises [RecursionError]
    where [_toml_value] or the parser would call itself too deep, at a
    depth that depends on the caller, and the embedding leaves that
    exception out.  So a theorem that a call on a nested value returns
    takes a bound on the nesting ([max_nesting], far from the limit); the
    theorems about [main] take the document from [tomllib.loads], which
    has then parsed it within the limit, by calls nested deeper than those
    of [_toml_value] on the same value. *)

From Stdlib Require Import String Ascii List ZArith Lia Bool Arith.
From Stdlib Require Import Decimal DecimalString DecimalZ DecimalPos.
From Stdlib Require DecimalFacts.
Import ListNotations.

Set Warnings "-register-all".

Open Scope list_scope.
Open Scope string_scope.

(** ** Characters the code names *)

Definition dquote : ascii := "034"%char.
Definition backslash : ascii := "\"%char.
Definition newline : ascii := "010"%char.
Definition tab : ascii := "009"%char.
Definition carriage_return : ascii := "013"%char.

(** The one-character strings the script spells with an escape. *)
Definition s_dquote : string := String dquote "".
Definition s_backslash : string := String backslash "".
Definition s_newline : string := String newline "".

(** ** The interpreter *)

(** [sys.get_int_max_str_digits()]: the largest number of digits [str]
    writes for an [int] and [int] reads from a decimal text; 0 means no
    limit.  CPython starts with 4300 unless the environment or the command
    line sets another value, which is 0 or at least 640. *)
Class Interpreter : Type := { int_max_str_digits : nat }.

Definition cpython_default : Interpreter := {| int_max_str_digits := 4300 |}.

Definition no_digit_limit : Interpreter := {| int_max_str_digits := 0 |}.

(** What a call gives: the value it returns, or the class of the exception
    it raises. *)
Inductive result (A : Type) : Type :=
| Returns (a : A)
| Raises (exc : string).
Arguments Returns {A} a.
Arguments Raises {A} exc.

Definition rbind {A B} (m : result A) (k : A -> result B) : result B :=
  match m with
  | Returns a => k a
  | Raises exc => Raises exc
  end.

Declare Scope result_scope.
Delimit Scope result_scope with result.
Notation "x <- m ;; k" := (rbind m (fun x => k))
  (at level 61, m at next level, right associativity) : result_scope.

(** ** Python built-ins used by the script *)

Module Py.

(** [s.replace(old, new)] for a pattern [old] of one character, which is
    the only way the script calls it. *)
Fixpoint replace (old : ascii) (new : string) (s : string) : string :=
  match s with
  | EmptyString => EmptyString
  | String c rest =>
      if Ascii.eqb c old then new ++ replace old new rest
      else String c (replace old new rest)
  end.

(** [sep.join(parts)] *)
Fixpoint join (sep : string) (parts : list string) : string :=
  match parts with
  | [] => EmptyString
  | [p] => p
  | p :: rest => p ++ sep ++ join sep rest
  end.

(** The decimal text of an [int]: a minus sign for negative numbers, no
    leading zeros. *)
Definition decimal_text (n : Z) : string := NilZero.string_of_int (Z.to_int n).

(** The digits of [n], the sign not counted. *)
Definition digits (n : Z) : nat := String.length (decimal_text (Z.abs n)).

(** Whether the conversion limit lets [count] digits through. *)
Definition digits_allowed {I : Interpreter} (count : nat) : bool :=
  (int_max_str_digits =? 0)%nat || (count <=? int_max_str_digits)%nat.

(** [str(n)] for an [int]: its decimal text, or [ValueError] when it has
    more digits than the limit. *)
Definition str_int {I : Interpreter} (n : Z) : result string :=
  if digits_allowed (digits n) then Returns (decimal_text n)
  else Raises "ValueError".

(** What a generator expression hands to its consumer: the items in order,
    up to the first one whose computation raises. *)
Fixpoint collect {A} (items : list (result A)) : result (list A) :=
  match items with
  | [] => Returns []
  | Returns a :: rest =>
      match collect rest with
      | Returns l => Returns (a :: l)
      | Raises exc => Raises exc
      end
  | Raises exc :: _ => Raises exc
  end.

(** Ordered dictionaries: an association list in insertion order.  The
    keys of a Python dict are unique, which is [wf]. *)
Section Dict.
Context {V : Type}.

Definition dict_keys (d : list (string * V)) : list string := map fst d.

Definition wf (d : list (string * V)) : Prop := NoDup (dict_keys d).

Fixpoint dict_get (k : string) (d : list (string * V)) : option V :=
  match d with
  | [] => None
  | (k', v) :: rest => if String.eqb k k' then Some v else dict_get k rest
  end.

(** [k in d] *)
Definition dict_contains (k : string) (d : list (string * V)) : bool :=
  match dict_get k d with Some _ => true | None => false end.

(** [d[k] = v]: an existing key keeps its place, a new key goes last. *)
Fixpoint dict_set (k : string) (v : V) (d : list (string * V))
  : list (string * V) :=
  match d with
  | [] => [(k, v)]
  | (k', v') :: rest =>
      if String.eqb k k' then (k', v) :: rest
      else (k', v') :: dict_set k v rest
  end.

(** [{k: v for k, v in items if keep k v}] *)
Definition dict_comprehension (keep : string -> V -> bool)
    (items : list (string * V)) : list (string * V) :=
  fold_left
    (fun acc kv => if keep (fst kv) (snd kv)
                   then dict_set (fst kv) (snd kv) acc else acc)
    items [].
End Dict.

End Py.

(** ** Values

    The objects [tomllib] produces and [value_text] renders.  A float is
    carried by the text [repr] gives for it, and an object of any other
    class (tomllib makes [datetime], [date] and [time] objects) by the text
    [str] gives for it: the script does nothing else with them. *)

Inductive pyobj : Type :=
| PyBool (b : bool)
| PyInt (n : Z)
| PyFloat (repr : string)
| PyStr (s : string)
| PyList (items : list pyobj)
| PyDict (items : list (string * pyobj))
| PyOther (str : string).

Definition dict : Type := list (string * pyobj).

(** [isinstance] with the downcast it licenses.  [bool] is a subclass of
    [int] in Python, so a boolean is an instance of [int] too, with value 1
    or 0. *)
Definition as_bool (value : pyobj) : option bool :=
  match value with PyBool b => Some b | _ => None end.

Definition as_int (value : pyobj) : option Z :=
  match value with
  | PyBool b => Some (if b then 1%Z else 0%Z)
  | PyInt n => Some n
  | _ => None
  end.

Definition as_float (value : pyobj) : option string :=
  match value with PyFloat r => Some r | _ => None end.

Definition as_str (value : pyobj) : option string :=
  match value with PyStr s => Some s | _ => None end.

Definition isinstance_dict (value : pyobj) : bool :=
  match value with PyDict _ => true | _ => false end.

(** ** The serializer *)

Definition is_bare_key_char (c : ascii) : bool :=
  let n := nat_of_ascii c in
  ((65 <=? n)%nat && (n <=? 90)%nat) || ((97 <=? n)%nat && (n <=? 122)%nat)
  || ((48 <=? n)%nat && (n <=? 57)%nat) || Ascii.eqb c "_" || Ascii.eqb c "-".

(** What is left of [s] after the longest run of characters of the class
    [A-Za-z0-9_-]. *)
Fixpoint skip_bare_key_chars (s : string) : string :=
  match s with
  | String c rest => if is_bare_key_char c then skip_bare_key_chars rest else s
  | EmptyString => s
  end.

(** [_BARE_KEY_RE.match(key)] for [_BARE_KEY_RE = ^[A-Za-z0-9_-]+$]: one
    character of the class, then as many as there are, then [$].  Without
    the MULTILINE flag, Python's [$] matches at the end of the string and
    also just before a newline that is the last character.  Giving back
    characters of the run cannot help [$], which would then stand before a
    character of the class. *)
Definition _BARE_KEY_RE_match (key : string) : bool :=
  match key with
  | String c rest =>
      is_bare_key_char c
      && (let tail := skip_bare_key_chars rest in
          String.eqb tail "" || String.eqb tail s_newline)
  | EmptyString => false
  end.

Definition _toml_key (key : string) : string :=
  if _BARE_KEY_RE_match key then key
  else
    s_dquote
    ++ Py.replace dquote (s_backslash ++ s_dquote)
         (Py.replace backslash (s_backslash ++ s_backslash) key)
    ++ s_dquote.

(** The [isinstance] tests in the order of the source.  [str(value)] of an
    [int] is the one call that can raise; an exception raised for an item
    of a list or for a value of a mapping leaves the generator expression
    and [join], and then [_toml_value] itself. *)
Fixpoint _toml_value {I : Interpreter} (value : pyobj) : result string :=
  match as_bool value with
  | Some b => Returns (if b then "true" else "false")
  | None =>
  match as_int value with
  | Some n => Py.str_int n
  | None =>
  match as_float value with
  | Some r => Returns r
  | None =>
  match as_str value with
  | Some s =>
      let escaped :=
        Py.replace newline (s_backslash ++ "n")
          (Py.replace dquote (s_backslash ++ s_dquote)
             (Py.replace backslash (s_backslash ++ s_backslash) s)) in
      Returns (s_dquote ++ escaped ++ s_dquote)
  | None =>
  match value with
  | PyList items =>
      (parts <- Py.collect (map _toml_value items) ;;
       Returns ("[" ++ Py.join ", " parts ++ "]"))%result
  | PyDict items =>
      (pairs <-
         Py.collect
           (map (fun kv => let '(k, v) := kv in
                           text <- _toml_value v ;;
                           Returns (_toml_key k ++ " = " ++ text)) items) ;;
       Returns ("{" ++ Py.join ", " pairs ++ "}"))%result
  | PyOther str => Returns str
  | PyBool _ | PyInt _ | PyFloat _ | PyStr _ =>
      Returns EmptyString  (* taken above *)
  end end end end end.

(** ** The process: streams, files and exit

    Standard input holds text, and the two output streams take every
    [print]: input that cannot be decoded and a closed or full stream are
    not modelled.  The output file is: [open] can fail, and the device can
    be full. *)

(** What [open(path, "w")] does with a path.  It opens a file, named here
    by what the path resolves to, so that two paths can name one file; the
    device of the file takes what is written, or is full and takes nothing
    (a disk with no room left, [/dev/full]).  Or it raises a subclass of
    [OSError]: [FileNotFoundError] for an empty path or a missing directory,
    [PermissionError], [IsADirectoryError]. *)
Inductive open_result : Type :=
| Opened (file : string) (full : bool)
| OpenFails (exc : string).

Record world : Type := mkWorld {
  stdin : string;            (* what standard input holds *)
  stdin_consumed : bool;     (* whether [sys.stdin.read()] ran *)
  stdout : list string;      (* the text of each [print] to standard output *)
  stderr : list string;      (* the text of each [print] to the error stream *)
  files : list (string * string);   (* file and content *)
  fs_open : string -> open_result   (* the file system, as [open] sees it *)
}.

Inductive outcome (A : Type) : Type :=
| Returned (a : A)
| SystemExit (code : Z)
| Uncaught (exc : string).
Arguments Returned {A} a.
Arguments SystemExit {A} code.
Arguments Uncaught {A} exc.

Definition proc (A : Type) : Type := world -> outcome A * world.

Definition ret {A} (a : A) : proc A := fun w => (Returned a, w).

Definition bind {A B} (m : proc A) (k : A -> proc B) : proc B :=
  fun w =>
    match m w with
    | (Returned a, w') => k a w'
    | (SystemExit c, w') => (SystemExit c, w')
    | (Uncaught e, w') => (Uncaught e, w')
    end.

Declare Scope proc_scope.
Delimit Scope proc_scope with proc.
Notation "x <- m ;; k" := (bind m (fun x => k))
  (at level 61, m at next level, right associativity) : proc_scope.
Notation "m ;; k" := (bind m (fun _ => k))
  (at level 61, right associativity) : proc_scope.
Open Scope proc_scope.

Definition sys_exit {A} (code : Z) : proc A := fun w => (SystemExit code, w).

Definition raise {A} (exc : string) : proc A := fun w => (Uncaught exc, w).

Definition print (line : string) : proc unit :=
  fun w => (Returned tt,
            mkWorld (stdin w) (stdin_consumed w) (stdout w ++ [line])
                    (stderr w) (files w) (fs_open w)).

Definition print_stderr (line : string) : proc unit :=
  fun w => (Returned tt,
            mkWorld (stdin w) (stdin_consumed w) (stdout w)
                    (stderr w ++ [line]) (files w) (fs_open w)).

Definition stdin_read : proc string :=
  fun w => (Returned (stdin w),
            mkWorld (stdin w) true (stdout w) (stderr w) (files w)
                    (fs_open w)).

(** A file object open for writing: the file, and whether its device is
    full. *)
Definition handle : Type := (string * bool)%type.

(** [open(path, "w")]: the file is created, or emptied when it exists. *)
Definition open_w (path : string) : proc handle :=
  fun w =>
    match fs_open w path with
    | Opened file full =>
        (Returned (file, full),
         mkWorld (stdin w) (stdin_consumed w) (stdout w) (stderr w)
                 (Py.dict_set file "" (files w)) (fs_open w))
    | OpenFails exc => (Uncaught exc, w)
    end.

(** [fh.write(text)]: the text goes after what was written. *)
Definition fh_write (fh : handle) (text : string) : proc unit :=
  fun w =>
    let old := match Py.dict_get (fst fh) (files w) with
               | Some c => c | None => EmptyString end in
    (Returned tt,
     mkWorld (stdin w) (stdin_consumed w) (stdout w) (stderr w)
             (Py.dict_set (fst fh) (old ++ text) (files w)) (fs_open w)).

(** [fh.close()]: what was written is handed to the device.  A full device
    takes none of it: when there is something to hand over, [close] raises
    [OSError] and the file stays empty.  (When the text outgrows the buffer
    of the file object, the same error is raised by a [write] already; the
    run ends the same way.) *)
Definition fh_close (fh : handle) : proc unit :=
  fun w =>
    let written := match Py.dict_get (fst fh) (files w) with
                   | Some c => c | None => EmptyString end in
    if snd fh && negb (String.eqb written "") then
      (Uncaught "OSError",
       mkWorld (stdin w) (stdin_consumed w) (stdout w) (stderr w)
               (Py.dict_set (fst fh) "" (files w)) (fs_open w))
    else (Returned tt, w).

(** [with open(path, "w") as fh: body]: the file is closed when the body
    returns and when it raises, and an exception of [close] takes the
    place of the one of the body. *)
Definition with_open_w (path : string) (body : handle -> proc unit)
  : proc unit :=
  fun w =>
    match open_w path w with
    | (Returned fh, w1) =>
        let '(o, w2) := body fh w1 in
        match fh_close fh w2 with
        | (Returned _, w3) => (o, w3)
        | (SystemExit c, w3) => (SystemExit c, w3)
        | (Uncaught e, w3) => (Uncaught e, w3)
        end
    | (SystemExit c, w1) => (SystemExit c, w1)
    | (Uncaught e, w1) => (Uncaught e, w1)
    end.

(** [for x in xs: body] *)
Fixpoint for_each {A} (xs : list A) (body : A -> proc unit) : proc unit :=
  match xs with
  | [] => ret tt
  | x :: rest => body x ;; for_each rest body
  end.

(** The status the process ends with: 0 when [main] returns, the argument
    of [sys.exit], 1 after an exception nobody caught (the interpreter then
    prints a traceback, which is no [print] of the script and is not in
    [stderr]). *)
Definition exit_status {A} (o : outcome A) : Z :=
  match o with
  | Returned _ => 0
  | SystemExit code => code
  | Uncaught _ => 1
  end.

(** ** The script *)

(** [_write_packages], with the bodies of its two loops named.  The value
    of a pair is rendered before its line is written, so an exception of
    [_toml_value] leaves the line out; [table.items()] raises
    [AttributeError] for a table that is not a mapping, after the header
    was written. *)
Definition write_pair {I : Interpreter} (fh : handle)
    (kv : string * pyobj) : proc unit :=
  let '(key, val) := kv in
  match _toml_value val with
  | Returns text => fh_write fh (_toml_key key ++ " = " ++ text ++ s_newline)
  | Raises exc => raise exc
  end.

Definition write_section {I : Interpreter} (fh : handle)
    (entry : string * pyobj) : proc unit :=
  let '(name, table) := entry in
  fh_write fh ("[" ++ _toml_key name ++ "]" ++ s_newline) ;;
  match table with
  | PyDict items => for_each items (write_pair fh)
  | _ => raise "AttributeError"
  end ;;
  fh_write fh s_newline.

Definition _write_packages {I : Interpreter} (packages : dict)
    (path : string) : proc unit :=
  with_open_w path (fun fh => for_each packages (write_section fh)).

Definition reserved_key : string := "__config__".

(** [[k for k, v in data.items() if not isinstance(v, dict)]] *)
Definition non_table_keys (data : dict) : list string :=
  map fst (filter (fun kv => negb (isinstance_dict (snd kv))) data).

(** [{k: v for k, v in data.items()
      if k != "__config__" and isinstance(v, dict)}] *)
Definition filter_packages (data : dict) : dict :=
  Py.dict_comprehension
    (fun k v => negb (String.eqb k reserved_key) && isinstance_dict v) data.

Definition usage_message (argv0 : string) : string :=
  "Usage: " ++ argv0 ++ " <outfile>".

Definition invalid_toml_error (exc : string) : string :=
  "::error::PACKAGES_CONFIG is not valid TOML: " ++ exc.

Definition reserved_warning : string :=
  "::warning::PACKAGES_CONFIG contains [__config__]; "
  ++ "ignoring (auto-generated)".

Definition non_table_warning (non_table : list string) : string :=
  "::warning::Ignoring non-table top-level keys in PACKAGES_CONFIG: "
  ++ Py.join ", " non_table.

Definition no_packages_error : string :=
  "::error::PACKAGES_CONFIG contains no package sections".

(** What a call of [tomllib.loads] gives: the parsed document, the text of
    the [TOMLDecodeError] it raises, or the class of another exception it
    raises ([ValueError] for an integer past the conversion limit,
    [RecursionError] for a value nested too deep). *)
Inductive loads_result : Type :=
| Loaded (data : dict)
| DecodeError (msg : string)
| OtherError (exc : string).

Section Script.

Context {I : Interpreter}.

Variable tomllib_loads : string -> loads_result.

(** [sys.argv] is the program name [argv0] followed by the arguments.
    [main] catches [TOMLDecodeError] and nothing else. *)
Definition main (argv0 : string) (args : list string) : proc unit :=
  match args with
  | [outfile] =>
      text <- stdin_read ;;
      match tomllib_loads text with
      | OtherError exc => raise exc
      | DecodeError exc =>
          print_stderr (invalid_toml_error exc) ;;
          sys_exit 1
      | Loaded data =>
          (if Py.dict_contains reserved_key data
           then print_stderr reserved_warning else ret tt) ;;
          let non_table := non_table_keys data in
          (match non_table with
           | [] => ret tt
           | _ :: _ => print_stderr (non_table_warning non_table)
           end) ;;
          let packages := filter_packages data in
          match packages with
          | [] =>
              print_stderr no_packages_error ;;
              sys_exit 1
          | _ :: _ =>
              _write_packages packages outfile ;;
              print (Py.join " " (Py.dict_keys packages))
          end
      end
  | _ =>
      print_stderr (usage_message argv0) ;;
      sys_exit 2
  end.

End Script.

(** ** The parser the script reads its input with

    [tomllib.loads] of CPython 3.11 ([Lib/tomllib/_parser.py] and [_re.py]),
    embedded function by function for the documents the script writes: table
    headers [[key]], [key = value] lines, bare and basic-quoted keys, basic
    strings, booleans, decimal integers, arrays and inline tables.

    A position [pos] in [src] is modelled by the text from [pos] on.  The
    message of a [TOMLDecodeError] is kept without the line and column that
    [suffixed_err] appends.  [Raised] is an exception of another class
    that leaves the parser: [ValueError], when [int] is given more digits
    than the conversion limit.  Whatever this embedding does not cover
    (dotted keys, array-of-table headers, comments, literal and multi-line
    strings, unicode escapes, floats, dates, times, other integer
    notations) gives [OutOfModel]: an answer [Ok], [TOMLDecodeError] or
    [Raised] is the parser's, [OutOfModel] says nothing about it.  The call
    stack is not modelled: the parser calls itself for each array and
    inline table inside another, and the embedding speaks for the texts
    that nest them at most [max_nesting] deep, far from where the
    interpreter raises [RecursionError]. *)

Module Tomllib.

Inductive parsed (A : Type) : Type :=
| Ok (a : A)
| TOMLDecodeError (msg : string)
| Raised (exc : string)
| OutOfModel.
Arguments Ok {A} a.
Arguments TOMLDecodeError {A} msg.
Arguments Raised {A} exc.
Arguments OutOfModel {A}.

Definition pbind {A B} (m : parsed A) (k : A -> parsed B) : parsed B :=
  match m with
  | Ok a => k a
  | TOMLDecodeError msg => TOMLDecodeError msg
  | Raised exc => Raised exc
  | OutOfModel => OutOfModel
  end.

(** The nesting the embedding speaks for. *)
Definition max_nesting : nat := 100.

Declare Scope parsed_scope.
Delimit Scope parsed_scope with parsed.
Notation "x <- m ;; k" := (pbind m (fun x => k))
  (at level 61, m at next level, right associativity) : parsed_scope.
Notation "' pat <- m ;; k" := (pbind m (fun x => match x with pat => k end))
  (at level 61, pat pattern, m at next level, right associativity)
  : parsed_scope.
Local Open Scope parsed_scope.

Definition Key : Type := list string.

(** *** Character sets *)

Definition ASCII_CTRL (c : ascii) : bool :=
  (nat_of_ascii c <? 32)%nat || (nat_of_ascii c =? 127)%nat.

Definition ILLEGAL_BASIC_STR_CHARS (c : ascii) : bool :=
  ASCII_CTRL c && negb (Ascii.eqb c tab).

Definition TOML_WS (c : ascii) : bool :=
  Ascii.eqb c " " || Ascii.eqb c tab.

Definition TOML_WS_AND_NEWLINE (c : ascii) : bool :=
  TOML_WS c || Ascii.eqb c newline.

(** [string.ascii_letters + string.digits + "-_"]: the class of the
    script's [_BARE_KEY_RE]. *)
Definition BARE_KEY_CHARS (c : ascii) : bool := is_bare_key_char c.

Definition KEY_INITIAL_CHARS (c : ascii) : bool :=
  BARE_KEY_CHARS c || Ascii.eqb c dquote || Ascii.eqb c "'".

Definition is_digit (c : ascii) : bool :=
  (48 <=? nat_of_ascii c)%nat && (nat_of_ascii c <=? 57)%nat.

(** [BASIC_STR_ESCAPE_REPLACEMENTS], by the character after the
    backslash. *)
Definition BASIC_STR_ESCAPE_REPLACEMENTS (c : ascii) : option ascii :=
  if Ascii.eqb c "b" then Some "008"%char
  else if Ascii.eqb c "t" then Some tab
  else if Ascii.eqb c "n" then Some newline
  else if Ascii.eqb c "f" then Some "012"%char
  else if Ascii.eqb c "r" then Some carriage_return
  else if Ascii.eqb c dquote then Some dquote
  else if Ascii.eqb c backslash then Some backslash
  else None.

(** *** Scanning *)

(** [skip_chars(src, pos, chars)]: the text from the new position on. *)
Fixpoint skip_chars (chars : ascii -> bool) (src : string) : string :=
  match src with
  | String c rest => if chars c then skip_chars chars rest else src
  | EmptyString => src
  end.

(** [src[start_pos:pos]] for the [pos] that [skip_chars] returns. *)
Fixpoint take_chars (chars : ascii -> bool) (src : string) : string :=
  match src with
  | String c rest =>
      if chars c then String c (take_chars chars rest) else EmptyString
  | EmptyString => EmptyString
  end.

(** [src.startswith(prefix, pos)] *)
Definition startswith (prefix src : string) : bool := String.prefix prefix src.

(** [src[n:]] *)
Fixpoint drop (n : nat) (src : string) : string :=
  match n, src with
  | S n', String _ rest => drop n' rest
  | _, _ => src
  end.

Definition three_quotes : string :=
  String dquote (String dquote (String dquote "")).

(** [src.startswith(c, pos)] for one character [c]: the text after it. *)
Definition after_char (c : ascii) (src : string) : option string :=
  match src with
  | String c' rest => if Ascii.eqb c' c then Some rest else None
  | EmptyString => None
  end.

Definition next_char_in (chars : ascii -> bool) (src : string) : bool :=
  match src with String c _ => chars c | EmptyString => false end.

(** [skip_comments_and_array_ws]: white space and newlines are skipped; a
    comment is not covered. *)
Definition skip_comments_and_array_ws (src : string) : parsed string :=
  let src := skip_chars TOML_WS_AND_NEWLINE src in
  if next_char_in (Ascii.eqb "#") src then OutOfModel else Ok src.

(** [s.replace(CR LF, LF)], the first thing [loads] does. *)
Fixpoint replace_crlf (s : string) : string :=
  match s with
  | EmptyString => EmptyString
  | String c rest =>
      match rest with
      | String c' rest' =>
          if Ascii.eqb c carriage_return && Ascii.eqb c' newline
          then String newline (replace_crlf rest')
          else String c (replace_crlf rest)
      | EmptyString => String c EmptyString
      end
  end.

(** *** Strings and keys *)

(** [parse_basic_str(src, pos, multiline=False)].  [result] is what the
    source holds in [result + src[start_pos:pos]]. *)
Fixpoint parse_basic_str (src : string) (result : string)
  : parsed (string * string) :=
  match src with
  | EmptyString => TOMLDecodeError "Unterminated string"
  | String char rest =>
      if Ascii.eqb char dquote then Ok (result, rest)
      else if Ascii.eqb char backslash then
        (* parse_basic_str_escape on escape_id = src[pos:pos+2] *)
        match rest with
        | String e rest' =>
            if Ascii.eqb e "u" || Ascii.eqb e "U" then OutOfModel
            else
              match BASIC_STR_ESCAPE_REPLACEMENTS e with
              | Some c => parse_basic_str rest' (result ++ String c "")
              | None => TOMLDecodeError "Unescaped '\' in a string"
              end
        | EmptyString => TOMLDecodeError "Unescaped '\' in a string"
        end
      else if ILLEGAL_BASIC_STR_CHARS char
      then TOMLDecodeError "Illegal character"
      else parse_basic_str rest (result ++ String char "")
  end.

(** [parse_one_line_basic_str], called at the opening quote. *)
Definition parse_one_line_basic_str (src : string)
  : parsed (string * string) :=
  match src with
  | String _ rest => parse_basic_str rest ""
  | EmptyString => OutOfModel
  end.

Definition parse_key_part (src : string) : parsed (string * string) :=
  if next_char_in BARE_KEY_CHARS src then
    Ok (take_chars BARE_KEY_CHARS src, skip_chars BARE_KEY_CHARS src)
  else if next_char_in (Ascii.eqb "'") src then OutOfModel
  else if next_char_in (Ascii.eqb dquote) src
  then parse_one_line_basic_str src
  else TOMLDecodeError "Invalid initial character for a key part".

(** [parse_key]: a key of one part; a dot after it starts a dotted key,
    which is not covered. *)
Definition parse_key (src : string) : parsed (Key * string) :=
  '(key_part, src) <- parse_key_part src ;;
  let src := skip_chars TOML_WS src in
  if next_char_in (Ascii.eqb ".") src then OutOfModel
  else Ok ([key_part], src).

(** *** Numbers *)

Section Parser.

Context {I : Interpreter}.

(** The number a run of decimal digits stands for. *)
Definition int_of_digits (digits : string) : Z :=
  match NilEmpty.uint_of_string digits with
  | Some d => Z.of_uint d
  | None => 0
  end.

(** [int(text, 0)] in [match_to_number], for an optional sign and a run
    of decimal digits: [ValueError] when there are more digits than the
    conversion limit. *)
Definition int_of_text (negative : bool) (digits : string) : parsed Z :=
  if Py.digits_allowed (String.length digits)
  then Ok (if negative then (- int_of_digits digits)%Z
           else int_of_digits digits)
  else Raised "ValueError".

(** The tail of [parse_value]: [RE_DATETIME], [RE_LOCALTIME], [RE_NUMBER]
    and the special floats, in that order.  Only a decimal integer
    (an optional sign, then 0 or a digit from 1 to 9 followed by digits)
    with no fractional part and no exponent is covered.  The date and
    time patterns start with unsigned digits followed by [-] or [:]. *)
Definition parse_number (src : string) : parsed (pyobj * string) :=
  let '(negative, signed, body) :=
    match src with
    | String c rest =>
        if Ascii.eqb c "-" then (true, true, rest)
        else if Ascii.eqb c "+" then (false, true, rest)
        else (false, false, src)
    | EmptyString => (false, false, src)
    end in
  let digits := take_chars is_digit body in
  let after := skip_chars is_digit body in
  match digits, body with
  | String d0 _, String _ after0 =>
      if negb signed
         && next_char_in (fun c => Ascii.eqb c "-" || Ascii.eqb c ":") after
      then OutOfModel
      else if Ascii.eqb d0 "0" then
        if next_char_in
             (fun c => Ascii.eqb c "x" || Ascii.eqb c "b" || Ascii.eqb c "o"
                       || Ascii.eqb c "." || Ascii.eqb c "e"
                       || Ascii.eqb c "E") after0
        then OutOfModel
        else Ok (PyInt 0, after0)
      else
        if next_char_in
             (fun c => Ascii.eqb c "_" || Ascii.eqb c "." || Ascii.eqb c "e"
                       || Ascii.eqb c "E") after
        then OutOfModel
        else
          n <- int_of_text negative digits ;;
          Ok (PyInt n, after)
  | _, _ =>
      if startswith "inf" body || startswith "nan" body then OutOfModel
      else TOMLDecodeError "Invalid value"
  end.

(** *** Flags and nested dictionaries *)

Inductive flag : Type := FROZEN | EXPLICIT_NEST.

Definition flag_eqb (a b : flag) : bool :=
  match a, b with
  | FROZEN, FROZEN | EXPLICIT_NEST, EXPLICIT_NEST => true
  | _, _ => false
  end.

(** [Flags] keeps, in a tree indexed by key, the flags of each key and its
    recursive flags.  Here it is the list of the [set] calls made:
    [is_(key, flag)] holds exactly when [flag] was set on [key], or set
    recursively on a proper prefix of [key].  ([unset_all] and the pending
    flags serve array-of-table headers and dotted keys only.) *)
Definition Flags : Type := list (Key * flag * bool).

Definition flags_set (key : Key) (fl : flag) (recursive : bool)
    (flags : Flags) : Flags :=
  (key, fl, recursive) :: flags.

Fixpoint key_eqb (a b : Key) : bool :=
  match a, b with
  | [], [] => true
  | x :: a', y :: b' => String.eqb x y && key_eqb a' b'
  | _, _ => false
  end.

Fixpoint proper_prefix (a b : Key) : bool :=
  match a, b with
  | [], _ :: _ => true
  | x :: a', y :: b' => String.eqb x y && proper_prefix a' b'
  | _, _ => false
  end.

Definition flags_is_ (flags : Flags) (key : Key) (fl : flag) : bool :=
  match key with
  | [] => false
  | _ :: _ =>
      existsb
        (fun entry =>
           let '(k, f, recursive) := entry in
           flag_eqb f fl
           && (key_eqb k key || (recursive && proper_prefix k key)))
        flags
  end.

(** [NestedDict.get_or_create_nest(key)] together with the update [f] the
    caller then makes on the dictionary it returns.  A [KeyError] is the
    [TOMLDecodeError] every caller turns it into. *)
Fixpoint with_nest (key : Key) (f : dict -> parsed dict) (cont : dict)
  : parsed dict :=
  match key with
  | [] => f cont
  | k :: key' =>
      match Py.dict_get k cont with
      | None =>
          nest <- with_nest key' f [] ;;
          Ok (Py.dict_set k (PyDict nest) cont)
      | Some (PyDict d) =>
          nest <- with_nest key' f d ;;
          Ok (Py.dict_set k (PyDict nest) cont)
      | Some (PyList _) => OutOfModel
      | Some _ => TOMLDecodeError "Cannot overwrite a value"
      end
  end.

Definition is_dict_or_list (value : pyobj) : bool :=
  match value with PyDict _ | PyList _ => true | _ => false end.

(** *** Values *)

Definition parse_key_value_pair
    (parse_value : string -> parsed (pyobj * string)) (src : string)
  : parsed (Key * pyobj * string) :=
  '(key, src) <- parse_key src ;;
  match after_char "=" src with
  | None => TOMLDecodeError "Expected '=' after a key in a key/value pair"
  | Some rest =>
      let src := skip_chars TOML_WS rest in
      '(value, src) <- parse_value src ;;
      Ok (key, value, src)
  end.

(** [parse_value], with the loops of [parse_array] and
    [parse_inline_table].  [fuel] bounds the calls and the turns of the
    loops; each consumes a character, so the length of [src] is enough
    ([loads] below). *)
Fixpoint parse_value (fuel : nat) (src : string) {struct fuel}
  : parsed (pyobj * string) :=
  match fuel with
  | O => OutOfModel
  | S fuel =>
      match src with
      | EmptyString => TOMLDecodeError "Invalid value"
      | String char rest =>
          if Ascii.eqb char dquote then
            if startswith three_quotes src then OutOfModel
            else
              '(s, src) <- parse_one_line_basic_str src ;;
              Ok (PyStr s, src)
          else if Ascii.eqb char "'" then OutOfModel
          else if startswith "true" src then Ok (PyBool true, drop 4 src)
          else if startswith "false" src
          then Ok (PyBool false, drop 5 src)
          else if Ascii.eqb char "[" then
            (* parse_array *)
            src <- skip_comments_and_array_ws rest ;;
            match after_char "]" src with
            | Some rest => Ok (PyList [], rest)
            | None => parse_array_loop fuel src []
            end
          else if Ascii.eqb char "{" then
            (* parse_inline_table *)
            let src := skip_chars TOML_WS rest in
            match after_char "}" src with
            | Some rest => Ok (PyDict [], rest)
            | None => parse_inline_table_loop fuel src [] []
            end
          else parse_number src
      end
  end

with parse_array_loop (fuel : nat) (src : string) (array : list pyobj)
    {struct fuel} : parsed (pyobj * string) :=
  match fuel with
  | O => OutOfModel
  | S fuel =>
      '(val, src) <- parse_value fuel src ;;
      let array := (array ++ [val])%list in
      src <- skip_comments_and_array_ws src ;;
      match after_char "]" src with
      | Some rest => Ok (PyList array, rest)
      | None =>
          match after_char "," src with
          | None => TOMLDecodeError "Unclosed array"
          | Some rest =>
              src <- skip_comments_and_array_ws rest ;;
              match after_char "]" src with
              | Some rest => Ok (PyList array, rest)
              | None => parse_array_loop fuel src array
              end
          end
      end
  end

with parse_inline_table_loop (fuel : nat) (src : string)
    (nested_dict : dict) (flags : Flags) {struct fuel}
  : parsed (pyobj * string) :=
  match fuel with
  | O => OutOfModel
  | S fuel =>
      '(key, value, src) <-
        parse_key_value_pair (parse_value fuel) src ;;
      let key_parent := removelast key in
      let key_stem := last key EmptyString in
      if flags_is_ flags key FROZEN
      then TOMLDecodeError "Cannot mutate immutable namespace"
      else
        nested_dict <-
          with_nest key_parent
            (fun nest =>
               if Py.dict_contains key_stem nest
               then TOMLDecodeError "Duplicate inline table key"
               else Ok (Py.dict_set key_stem value nest))
            nested_dict ;;
        let src := skip_chars TOML_WS src in
        match after_char "}" src with
        | Some rest => Ok (PyDict nested_dict, rest)
        | None =>
            match after_char "," src with
            | None => TOMLDecodeError "Unclosed inline table"
            | Some rest =>
                let flags :=
                  if is_dict_or_list value
                  then flags_set key FROZEN true flags else flags in
                let src := skip_chars TOML_WS rest in
                parse_inline_table_loop fuel src nested_dict flags
            end
        end
  end.

(** *** Statements *)

Record Output : Type := mkOutput { data : dict; flags : Flags }.

(** [create_dict_rule], called at the opening bracket of a header. *)
Definition create_dict_rule (src : string) (out : Output)
  : parsed (string * Key * Output) :=
  let src := skip_chars TOML_WS (drop 1 src) in
  '(key, src) <- parse_key src ;;
  if flags_is_ (flags out) key EXPLICIT_NEST
     || flags_is_ (flags out) key FROZEN
  then TOMLDecodeError "Cannot declare a table twice"
  else
    let flags := flags_set key EXPLICIT_NEST false (flags out) in
    data <- with_nest key (fun nest => Ok nest) (data out) ;;
    match after_char "]" src with
    | Some rest => Ok (rest, key, mkOutput data flags)
    | None =>
        TOMLDecodeError "Expected ']' at the end of a table declaration"
    end.

(** [key_value_rule].  The keys it gets have one part, so there is no
    container key on the relative path to check or to flag. *)
Definition key_value_rule
    (parse_value : string -> parsed (pyobj * string)) (src : string)
    (out : Output) (header : Key) : parsed (string * Output) :=
  '(key, value, src) <- parse_key_value_pair parse_value src ;;
  let key_parent := removelast key in
  let key_stem := last key EmptyString in
  let abs_key_parent := (header ++ key_parent)%list in
  if flags_is_ (flags out) abs_key_parent FROZEN
  then TOMLDecodeError "Cannot mutate immutable namespace"
  else
    data <-
      with_nest abs_key_parent
        (fun nest =>
           if Py.dict_contains key_stem nest
           then TOMLDecodeError "Cannot overwrite a value"
           else Ok (Py.dict_set key_stem value nest))
        (data out) ;;
    let flags :=
      if is_dict_or_list value
      then flags_set (header ++ key)%list FROZEN true (flags out)
      else flags out in
    Ok (src, mkOutput data flags).

(** The statement loop of [loads]: one turn per statement or empty line.
    Each turn but the last consumes a newline, so [fuel] above the length
    of [src] is enough. *)
Fixpoint loads_loop (fuel : nat)
    (parse_value : string -> parsed (pyobj * string)) (src : string)
    (out : Output) (header : Key) {struct fuel} : parsed dict :=
  match fuel with
  | O => OutOfModel
  | S fuel =>
      (* 1. skip line leading whitespace *)
      let src := skip_chars TOML_WS src in
      match src with
      | EmptyString => Ok (data out)
      | String char rest =>
          if Ascii.eqb char newline
          then loads_loop fuel parse_value rest out header
          else
            (* 2. parse rules *)
            '(src, out, header) <-
              (if KEY_INITIAL_CHARS char then
                 '(src, out) <- key_value_rule parse_value src out header ;;
                 Ok (skip_chars TOML_WS src, out, header)
               else if Ascii.eqb char "[" then
                 if next_char_in (Ascii.eqb "[") rest then OutOfModel
                 else
                   '(src, header, out) <- create_dict_rule src out ;;
                   Ok (skip_chars TOML_WS src, out, header)
               else if Ascii.eqb char "#" then OutOfModel
               else TOMLDecodeError "Invalid statement") ;;
            (* 3. skip comment, 4. expect end of line or end of file *)
            match src with
            | EmptyString => Ok (data out)
            | String char rest =>
                if Ascii.eqb char "#" then OutOfModel
                else if Ascii.eqb char newline
                then loads_loop fuel parse_value rest out header
                else
                  TOMLDecodeError
                    "Expected newline or end of document after a statement"
            end
      end
  end.

Definition loads (s : string) : parsed dict :=
  let src := replace_crlf s in
  let fuel := S (String.length src) in
  loads_loop fuel (parse_value fuel) src (mkOutput [] []) [].

End Parser.

End Tomllib.


(** ** Vocabulary of the specification *)

Fixpoint string_forallb (p : ascii -> bool) (s : string) : bool :=
  match s with
  | EmptyString => true
  | String c rest => p c && string_forallb p rest
  end.

(** One or more characters, each an ASCII letter, a digit, an underscore
    or a hyphen. *)
Definition bare_key (key : string) : bool :=
  negb (String.eqb key "") && string_forallb is_bare_key_char key.

(** The escape of one character of a string value: backslash, double quote
    and newline are escaped, every other character stands for itself. *)
Definition escape_value_char (c : ascii) : string :=
  if Ascii.eqb c backslash then s_backslash ++ s_backslash
  else if Ascii.eqb c dquote then s_backslash ++ s_dquote
  else if Ascii.eqb c newline then s_backslash ++ "n"
  else String c "".

(** The escape of one character of a quoted key: backslash and double
    quote only. *)
Definition escape_key_char (c : ascii) : string :=
  if Ascii.eqb c backslash then s_backslash ++ s_backslash
  else if Ascii.eqb c dquote then s_backslash ++ s_dquote
  else String c "".

Fixpoint escape_with (esc : ascii -> string) (s : string) : string :=
  match s with
  | EmptyString => EmptyString
  | String c rest => esc c ++ escape_with esc rest
  end.

(** The Filtered Set in the words of the specification: the top-level
    entries, minus the reserved key, minus the keys whose value is not a
    mapping, in the order of the document. *)
Definition without_reserved (data : dict) : dict :=
  filter (fun kv => negb (String.eqb (fst kv) reserved_key)) data.

Definition without_non_tables (data : dict) : dict :=
  filter (fun kv => isinstance_dict (snd kv)) data.

Definition filtered_set (data : dict) : dict :=
  without_non_tables (without_reserved data).

(** The text of a value: what [_toml_value] returns when it returns, that
    is [_toml_value] with no limit on the digits of an integer (lemmas
    [_toml_value_within_limit] and [_toml_value_no_digit_limit]). *)
Fixpoint value_text (value : pyobj) : string :=
  match as_bool value with
  | Some b => if b then "true" else "false"
  | None =>
  match as_int value with
  | Some n => Py.decimal_text n
  | None =>
  match as_float value with
  | Some r => r
  | None =>
  match as_str value with
  | Some s =>
      let escaped :=
        Py.replace newline (s_backslash ++ "n")
          (Py.replace dquote (s_backslash ++ s_dquote)
             (Py.replace backslash (s_backslash ++ s_backslash) s)) in
      s_dquote ++ escaped ++ s_dquote
  | None =>
  match value with
  | PyList items => "[" ++ Py.join ", " (map value_text items) ++ "]"
  | PyDict items =>
      let pairs :=
        Py.join ", "
          (map (fun kv => let '(k, v) := kv in
                          _toml_key k ++ " = " ++ value_text v) items) in
      "{" ++ pairs ++ "}"
  | PyOther str => str
  | PyBool _ | PyInt _ | PyFloat _ | PyStr _ => EmptyString  (* taken above *)
  end end end end end.

(** The text of the output file: one section per entry. *)
Definition table_items (table : pyobj) : dict :=
  match table with PyDict items => items | _ => [] end.

Definition render_line (kv : string * pyobj) : string :=
  _toml_key (fst kv) ++ " = " ++ value_text (snd kv) ++ s_newline.

Fixpoint concat_all (parts : list string) : string :=
  match parts with
  | [] => EmptyString
  | p :: rest => p ++ concat_all rest
  end.

Definition render_section (entry : string * pyobj) : string :=
  "[" ++ _toml_key (fst entry) ++ "]" ++ s_newline
  ++ concat_all (map render_line (table_items (snd entry)))
  ++ s_newline.

Definition render_packages (packages : dict) : string :=
  concat_all (map render_section packages).

(** What a run added to the error stream. *)
Definition is_non_table_warning (line : string) : bool :=
  String.prefix
    "::warning::Ignoring non-table top-level keys in PACKAGES_CONFIG: " line.

Definition reserved_notice (data : dict) : list string :=
  if Py.dict_contains reserved_key data then [reserved_warning] else [].

Definition non_table_notice (data : dict) : list string :=
  match non_table_keys data with
  | [] => []
  | keys => [non_table_warning keys]
  end.

Definition no_packages_notice (data : dict) : list string :=
  match filter_packages data with
  | [] => [no_packages_error]
  | _ => []
  end.

(** The worlds a run goes through. *)
Definition consume_stdin (w : world) : world :=
  mkWorld (stdin w) true (stdout w) (stderr w) (files w) (fs_open w).

Definition add_stderr (lines : list string) (w : world) : world :=
  mkWorld (stdin w) (stdin_consumed w) (stdout w) (stderr w ++ lines)%list
          (files w) (fs_open w).

Definition add_stdout (lines : list string) (w : world) : world :=
  mkWorld (stdin w) (stdin_consumed w) (stdout w ++ lines)%list (stderr w)
          (files w) (fs_open w).

Definition set_file (file content : string) (w : world) : world :=
  mkWorld (stdin w) (stdin_consumed w) (stdout w) (stderr w)
          (Py.dict_set file content (files w)) (fs_open w).

(** The integers of a value that [str] is called on, each within the
    conversion limit.  (A boolean is written as a word.) *)
Fixpoint ints_within_limit {I : Interpreter} (value : pyobj) : bool :=
  match value with
  | PyInt n => Py.digits_allowed (Py.digits n)
  | PyList items => forallb ints_within_limit items
  | PyDict items =>
      forallb (fun kv => let '(_, v) := kv in ints_within_limit v) items
  | PyBool _ | PyFloat _ | PyStr _ | PyOther _ => true
  end.

Definition packages_within_limit {I : Interpreter} (packages : dict)
  : bool :=
  forallb (fun kv => ints_within_limit (snd kv)) packages.

(** How deep lists and mappings nest inside a value. *)
Fixpoint nesting (value : pyobj) : nat :=
  match value with
  | PyList items => S (fold_right (fun v d => Nat.max (nesting v) d) 0 items)
  | PyDict items =>
      S (fold_right (fun kv d => let '(_, v) := kv in Nat.max (nesting v) d)
           0 items)
  | PyBool _ | PyInt _ | PyFloat _ | PyStr _ | PyOther _ => 0
  end.

Definition packages_nesting (packages : dict) : nat :=
  fold_right (fun kv d => Nat.max (nesting (snd kv)) d) 0 packages.

(** The answer of the embedded parser, as [main] takes it. *)
Definition loads_result_of (r : Tomllib.parsed dict) : option loads_result :=
  match r with
  | Tomllib.Ok data => Some (Loaded data)
  | Tomllib.TOMLDecodeError msg => Some (DecodeError msg)
  | Tomllib.Raised exc => Some (OtherError exc)
  | Tomllib.OutOfModel => None
  end.

(** A parser for the example runs: the embedded one, on the texts it
    covers.  For any other text it raises an exception of a class of its
    own, which is no answer of [tomllib.loads]; nothing is stated about a
    run on such a text. *)
Definition loads_model {I : Interpreter} (text : string) : loads_result :=
  match loads_result_of (Tomllib.loads text) with
  | Some r => r
  | None => OtherError "OutOfModel"
  end.

(** ** Example runs *)

(** A file system in which every path names a file of that name, on a
    device with room. *)
Definition plain_files (path : string) : open_result := Opened path false.

(** One in which no path can be opened: no directory exists. *)
Definition no_directory (path : string) : open_result :=
  OpenFails "FileNotFoundError".

(** One in which every path names the one file of a full device. *)
Definition full_device (path : string) : open_result := Opened "full" true.

(** A process that starts on [text] with empty output streams and no
    file. *)
Definition start (text : string) : world :=
  mkWorld text false [] [] [] plain_files.

Definition start_on (fs : string -> open_result) (text : string) : world :=
  mkWorld text false [] [] [] fs.

(** A run under the default limit, with the embedded parser. *)
Definition loads_default : string -> loads_result :=
  loads_model (I := cpython_default).

Definition main_default : string -> list string -> proc unit :=
  main (I := cpython_default) loads_default.

Fixpoint lines (ls : list string) : string :=
  match ls with
  | [] => EmptyString
  | l :: rest => l ++ s_newline ++ lines rest
  end.

(** Scenario A of the specification: a reserved table and a package. *)
Definition scenario_A : string :=
  lines ["[__config__]"; "x=1"; ""; "[foo]";
         "url=" ++ s_dquote ++ "http://a" ++ s_dquote].

(** Scenario B: a top-level key that is not a table, and a package. *)
Definition scenario_B : string := lines ["bare = 1"; ""; "[pkg]"; "v=2"].

(** Scenario C: the reserved table alone. *)
Definition scenario_C : string := lines ["[__config__]"; "a=1"].

(** Scenario D: an unterminated string. *)
Definition scenario_D : string := "k = " ++ s_dquote ++ "abc".

(** The reserved key bound to a number, and a package. *)
Definition scenario_reserved_scalar : string :=
  lines ["__config__ = 1"; ""; "[pkg]"; "v=2"].

(** What [tomllib.loads] gives for them. *)
Definition data_A : dict :=
  [("__config__", PyDict [("x", PyInt 1)]);
   ("foo", PyDict [("url", PyStr "http://a")])].

Definition data_B : dict :=
  [("bare", PyInt 1); ("pkg", PyDict [("v", PyInt 2)])].

Definition data_C : dict := [("__config__", PyDict [("a", PyInt 1)])].

Definition data_reserved_scalar : dict :=
  [("__config__", PyInt 1); ("pkg", PyDict [("v", PyInt 2)])].

(** An integer of 4817 digits, as [tomllib] reads it from the literal
    0x followed by 4000 times the letter F, in a table. *)
Definition hex_number : Z := (16 ^ 4000 - 1)%Z.

Fixpoint repeat_char (c : ascii) (n : nat) : string :=
  match n with
  | O => EmptyString
  | S n' => String c (repeat_char c n')
  end.

Definition hex_document : string :=
  lines ["[p]"; "v = 0x" ++ repeat_char "F" 4000].

Definition hex_packages : dict := [("p", PyDict [("v", PyInt hex_number)])].

(** Keys are unique, as a test. *)
Fixpoint unique_keys (keys : list string) : bool :=
  match keys with
  | [] => true
  | k :: rest => negb (existsb (String.eqb k) rest) && unique_keys rest
  end.

(** ** Vocabulary of the round trip *)

Import Tomllib.

(** A key the serializer writes in a form the parser reads: it holds no
    control character other than a tab.  (A quoted key is written with its
    backslashes and double quotes escaped and nothing else.) *)
Definition clean_key (key : string) : bool :=
  string_forallb (fun c => negb (Tomllib.ILLEGAL_BASIC_STR_CHARS c)) key.

(** A text string the serializer writes in a form the parser reads: it
    holds no control character other than a tab or a newline, the one
    control character [_toml_value] escapes. *)
Definition clean_text (s : string) : bool :=
  string_forallb
    (fun c => negb (Tomllib.ILLEGAL_BASIC_STR_CHARS c) || Ascii.eqb c newline)
    s.

(** A value built from booleans, integers, clean strings, lists and
    dictionaries with clean, distinct keys.  Floats are left out: the
    embedding carries them as text and does not parse them. *)
Fixpoint clean_value (value : pyobj) : bool :=
  match value with
  | PyBool _ | PyInt _ => true
  | PyStr s => clean_text s
  | PyList items => forallb clean_value items
  | PyDict items =>
      unique_keys (map fst items)
      && forallb (fun kv => let '(k, v) := kv in clean_key k && clean_value v)
           items
  | PyFloat _ | PyOther _ => false
  end.

(** A Filtered Set of clean tables under clean, distinct names. *)
Definition clean_packages (packages : dict) : bool :=
  unique_keys (map fst packages)
  && forallb (fun kv => clean_key (fst kv) && isinstance_dict (snd kv)
                        && clean_value (snd kv)) packages.

(** A pair of an inline table, as [_toml_value] writes it. *)
Definition render_pair (kv : string * pyobj) : string :=
  let '(k, v) := kv in _toml_key k ++ " = " ++ value_text v.

(** No carriage return, so that [replace_crlf] changes nothing. *)
Definition no_cr (s : string) : bool :=
  string_forallb (fun c => negb (Ascii.eqb c carriage_return)) s.

(** The kinds of value the serializer is specified for: everything but
    the objects of other classes. *)
Fixpoint serializable (value : pyobj) : bool :=
  match value with
  | PyBool _ | PyInt _ | PyFloat _ | PyStr _ => true
  | PyList items => forallb serializable items
  | PyDict items =>
      forallb (fun kv => let '(_, v) := kv in serializable v) items
  | PyOther _ => false
  end.

(** A package whose one string holds a backspace, which the serializer
    writes as it is. *)
Definition backspace_packages : dict :=
  [("p", PyDict [("k", PyStr (String "008"%char ""))])].

(** A document that holds it, spelled with the escape of TOML. *)
Definition backspace_document : string :=
  lines ["[p]"; "k = " ++ s_dquote ++ s_backslash ++ "b" ++ s_dquote].

(** A Filtered Set with an empty key, a quoted key, escapes, a negative
    number, nested lists and inline tables. *)
Definition sample_packages : dict :=
  [("pkg",
    PyDict
      [("url", PyStr ("http://a/" ++ s_dquote ++ "b" ++ s_backslash
                      ++ s_newline));
       ("count", PyInt (-3));
       ("flags", PyList [PyBool true; PyBool false; PyList []]);
       ("a b", PyDict [("x", PyInt 0); ("", PyList [PyDict []])])]);
   ("", PyDict [])].

(** The key made of the letter a and a newline, which TOML spells with
    the escape [\n] in a quoted key. *)
Definition newline_key : string := "a" ++ s_newline.

(** A document with one empty table under that key. *)
Definition newline_key_document : string :=
  "[" ++ s_dquote ++ "a\n" ++ s_dquote ++ "]" ++ s_newline.

(** The first character of a rendered key. *)
Definition key_initial (c : ascii) : bool :=
  is_bare_key_char c || Ascii.eqb c dquote.

(** What may follow a value in the text the script writes. *)
Definition ends_value (rest : string) : bool :=
  match rest with
  | EmptyString => true
  | String c _ =>
      Ascii.eqb c newline || Ascii.eqb c "," || Ascii.eqb c "]"
      || Ascii.eqb c "}"
  end.

(** The first character of a rendered value. *)
Definition value_initial (c : ascii) : bool :=
  is_digit c || Ascii.eqb c "-" || Ascii.eqb c dquote || Ascii.eqb c "t"
  || Ascii.eqb c "f" || Ascii.eqb c "[" || Ascii.eqb c "{".

(** What the induction gives for a value: it is read back with any fuel
    above the length of its text. *)
Definition reads_back {I : Interpreter} (v : pyobj) : Prop :=
  forall fuel rest,
    ends_value rest = true ->
    String.length (value_text v) < fuel ->
    parse_value fuel (value_text v ++ rest) = Ok (v, rest).

(** The flags [parse_inline_table] holds after it has read the pairs of
    [nested]: the frozen values among them. *)
Definition inline_flags_ok (flags : Flags) (nested : dict) : Prop :=
  Forall (fun e => exists k, e = ([k], FROZEN, true)
                             /\ In k (Py.dict_keys nested)) flags.

(** The flags [loads] holds after it has read the tables of [data]: the
    header of each table, and the frozen values inside the tables. *)
Definition top_flags_ok (flags : Flags) (data : dict) : Prop :=
  Forall (fun e => exists k,
              In k (Py.dict_keys data)
              /\ (e = ([k], EXPLICIT_NEST, false)
                  \/ exists k2, e = ([k; k2], FROZEN, true))) flags.

(** [pv], the value parser with the fuel [loads] gives it, reads [v]
    back. *)
Definition pv_reads (pv : string -> parsed (pyobj * string)) (v : pyobj)
  : Prop :=
  forall rest,
    ends_value rest = true -> pv (value_text v ++ rest) = Ok (v, rest).

(** The turns of the loop over the text of the packages. *)
Definition turns (packages : dict) : nat :=
  list_sum (map (fun entry => S (S (length (table_items (snd entry)))))
              packages).

(** An entry of a clean Filtered Set whose values [pv] reads back. *)
Definition entry_reads (pv : string -> parsed (pyobj * string))
    (entry : string * pyobj) : Prop :=
  clean_key (fst entry) = true
  /\ exists items,
       snd entry = PyDict items
       /\ unique_keys (map fst items) = true
       /\ Forall (fun kv => clean_key (fst kv) = true
                            /\ clean_value (snd kv) = true
                            /\ pv_reads pv (snd kv)) items.

(** ** Vocabulary of the further properties *)

(** Reading an escaped text back: a backslash and the character after it
    stand for [decode] of that character, any other character for itself. *)
Fixpoint unescape_with (decode : ascii -> ascii) (s : string) : string :=
  match s with
  | EmptyString => EmptyString
  | String c rest =>
      if Ascii.eqb c backslash then
        match rest with
        | String e rest' => String (decode e) (unescape_with decode rest')
        | EmptyString => s
        end
      else String c (unescape_with decode rest)
  end.

(** After a backslash in a string value, the letter n is a newline. *)
Definition decode_value (e : ascii) : ascii :=
  if Ascii.eqb e "n" then newline else e.

(** After a backslash in a quoted key, a character is itself. *)
Definition decode_key (e : ascii) : ascii := e.

Definition no_newline (s : string) : bool :=
  string_forallb (fun c => negb (Ascii.eqb c newline)) s.

(** A value in which no key of a mapping, no float text and no text of an
    object of another class holds a newline. *)
Fixpoint one_line_keys (value : pyobj) : bool :=
  match value with
  | PyBool _ | PyInt _ | PyStr _ => true
  | PyFloat r => no_newline r
  | PyOther s => no_newline s
  | PyList items => forallb one_line_keys items
  | PyDict items =>
      forallb (fun kv => let '(k, v) := kv in no_newline k && one_line_keys v)
        items
  end.

(** * Properties *)

(** ** Strings *)

Lemma str_app_assoc (a b c : string) : (a ++ b) ++ c = a ++ (b ++ c).
Proof. induction a as [|x a IH]; simpl; [reflexivity | now rewrite IH]. Qed.

Lemma str_app_nil_r (a : string) : a ++ "" = a.
Proof. induction a as [|x a IH]; simpl; [reflexivity | now rewrite IH]. Qed.

Lemma str_length_app (a b : string) :
  String.length (a ++ b) = String.length a + String.length b.
Proof. induction a as [|x a IH]; simpl; [reflexivity | now rewrite IH]. Qed.

Lemma replace_app (old : ascii) (new a b : string) :
  Py.replace old new (a ++ b) = Py.replace old new a ++ Py.replace old new b.
Proof.
  induction a as [|x a IH]; simpl; [reflexivity |].
  destruct (Ascii.eqb x old); rewrite IH; simpl;
    [now rewrite str_app_assoc | reflexivity].
Qed.

Lemma replace_cons (old : ascii) (new : string) (c : ascii) (s : string) :
  Py.replace old new (String c s)
  = (if Ascii.eqb c old then new else String c "") ++ Py.replace old new s.
Proof. simpl. destruct (Ascii.eqb c old); reflexivity. Qed.

Lemma replace_single (old : ascii) (new : string) (c : ascii) :
  Py.replace old new (String c "")
  = if Ascii.eqb c old then new else String c "".
Proof. rewrite replace_cons. apply str_app_nil_r. Qed.

(** The three replacements of [_toml_value] amount to escaping character by
    character: the backslashes the first one writes are not touched by the
    two that follow. *)
Lemma value_replaces_escape (s : string) :
  Py.replace newline (s_backslash ++ "n")
    (Py.replace dquote (s_backslash ++ s_dquote)
       (Py.replace backslash (s_backslash ++ s_backslash) s))
  = escape_with escape_value_char s.
Proof.
  induction s as [|c s IH]; [reflexivity |].
  change (escape_with escape_value_char (String c s))
    with (escape_value_char c ++ escape_with escape_value_char s).
  rewrite replace_cons, !replace_app, IH. f_equal.
  unfold escape_value_char.
  destruct (Ascii.eqb_spec c backslash) as [->|Hb]; [reflexivity |].
  rewrite replace_single.
  destruct (Ascii.eqb_spec c dquote) as [->|Hq]; [reflexivity |].
  apply replace_single.
Qed.

Lemma key_replaces_escape (s : string) :
  Py.replace dquote (s_backslash ++ s_dquote)
    (Py.replace backslash (s_backslash ++ s_backslash) s)
  = escape_with escape_key_char s.
Proof.
  induction s as [|c s IH]; [reflexivity |].
  change (escape_with escape_key_char (String c s))
    with (escape_key_char c ++ escape_with escape_key_char s).
  rewrite replace_cons, !replace_app, IH. f_equal.
  unfold escape_key_char.
  destruct (Ascii.eqb_spec c backslash) as [->|Hb]; [reflexivity |].
  apply replace_single.
Qed.

(** C4.  The renderer of a text string gives a double-quoted string in
    which every backslash of the original has become two backslashes, every
    double quote a backslash and a double quote, every newline a backslash
    and the letter n, and every other character is unchanged. *)
Theorem toml_value_str_escapes {I : Interpreter} (s : string) :
  _toml_value (PyStr s)
  = Returns (s_dquote ++ escape_with escape_value_char s ++ s_dquote).
Proof.
  change (_toml_value (PyStr s))
    with (Returns
            (s_dquote
             ++ Py.replace newline (s_backslash ++ "n")
                  (Py.replace dquote (s_backslash ++ s_dquote)
                     (Py.replace backslash (s_backslash ++ s_backslash) s))
             ++ s_dquote)).
  now rewrite value_replaces_escape.
Qed.

(** C5.  A boolean is rendered as the word true or false.  It is an
    instance of [int] as well, and what the integer branch would write for
    it, the numeral of its value, is not what is rendered: the boolean test
    comes first. *)
Theorem toml_value_bool_before_int {I : Interpreter} (b : bool) :
  _toml_value (PyBool b) = Returns (if b then "true" else "false")
  /\ exists n : Z,
       as_int (PyBool b) = Some n
       /\ (n = 1 \/ n = 0)%Z
       /\ Py.str_int n = Returns (Py.decimal_text n)
       /\ _toml_value (PyBool b) <> Py.str_int n.
Proof.
  assert (Hone : forall n : Z, (n = 1 \/ n = 0)%Z ->
                 Py.str_int n = Returns (Py.decimal_text n)).
  { intros n Hn. unfold Py.str_int, Py.digits_allowed.
    replace (Py.digits n) with 1 by (destruct Hn; subst n; reflexivity).
    destruct int_max_str_digits; reflexivity. }
  split; [reflexivity |].
  destruct b; eexists; (split; [reflexivity |]);
    (split; [auto |]); (rewrite Hone by auto); split;
    try reflexivity; discriminate.
Qed.

(** ** The renderer returns or raises *)

Lemma pyobj_nested_ind (P : pyobj -> Prop) :
  (forall b, P (PyBool b)) ->
  (forall n, P (PyInt n)) ->
  (forall r, P (PyFloat r)) ->
  (forall s, P (PyStr s)) ->
  (forall items, Forall P items -> P (PyList items)) ->
  (forall items, Forall (fun kv => P (snd kv)) items -> P (PyDict items)) ->
  (forall s, P (PyOther s)) ->
  forall v, P v.
Proof.
  intros Hbool Hint Hfloat Hstr Hlist Hdict Hother.
  fix IH 1. intros [b|n|r|s|items|items|s].
  - apply Hbool.
  - apply Hint.
  - apply Hfloat.
  - apply Hstr.
  - apply Hlist. induction items as [|x items IHitems]; constructor;
      [apply IH | exact IHitems].
  - apply Hdict. induction items as [|[k x] items IHitems]; constructor;
      [apply IH | exact IHitems].
  - apply Hother.
Qed.

Lemma collect_map_cases {A B} (f : A -> result B) (c : A -> bool)
    (g : A -> B) (exc : string) (l : list A) :
  Forall (fun x => f x = if c x then Returns (g x) else Raises exc) l ->
  Py.collect (map f l)
  = if forallb c l then Returns (map g l) else Raises exc.
Proof.
  induction 1 as [|x l Hx _ IH]; [reflexivity |].
  cbn [map Py.collect forallb]. rewrite Hx.
  destruct (c x); [| reflexivity].
  rewrite IH. now destruct (forallb c l).
Qed.

(** [_toml_value] returns the text of the value when [str] is asked for
    no integer past the limit, and raises [ValueError] otherwise. *)
Lemma _toml_value_cases {I : Interpreter} (v : pyobj) :
  _toml_value v
  = if ints_within_limit v then Returns (value_text v)
    else Raises "ValueError".
Proof.
  induction v as [b|n|r|s|items IH|items IH|s] using pyobj_nested_ind;
    try reflexivity.
  - cbn [_toml_value as_bool as_int as_float as_str ints_within_limit
         value_text].
    rewrite (collect_map_cases _ ints_within_limit value_text "ValueError")
      by exact IH.
    now destruct (forallb ints_within_limit items).
  - cbn [_toml_value as_bool as_int as_float as_str ints_within_limit
         value_text].
    rewrite (collect_map_cases _
               (fun kv : string * pyobj =>
                  let '(_, v) := kv in ints_within_limit v)
               (fun kv : string * pyobj =>
                  let '(k, v) := kv in _toml_key k ++ " = " ++ value_text v)
               "ValueError").
    + now destruct (forallb _ items).
    + eapply Forall_impl; [| exact IH].
      intros [k v] Hv. cbn [snd] in Hv. rewrite Hv.
      now destruct (ints_within_limit v).
Qed.

Lemma _toml_value_within_limit {I : Interpreter} (v : pyobj) :
  ints_within_limit v = true -> _toml_value v = Returns (value_text v).
Proof. intros H. now rewrite _toml_value_cases, H. Qed.

Lemma _toml_value_returns {I : Interpreter} (v : pyobj) (text : string) :
  _toml_value v = Returns text ->
  ints_within_limit v = true /\ text = value_text v.
Proof.
  rewrite _toml_value_cases.
  destruct (ints_within_limit v); [| discriminate].
  intros [= <-]. auto.
Qed.

Lemma ints_within_no_digit_limit (v : pyobj) :
  ints_within_limit (I := no_digit_limit) v = true.
Proof.
  induction v as [b|n|r|s|items IH|items IH|s] using pyobj_nested_ind;
    try reflexivity.
  - cbn [ints_within_limit]. apply forallb_forall.
    rewrite Forall_forall in IH. exact IH.
  - cbn [ints_within_limit]. apply forallb_forall.
    rewrite Forall_forall in IH. intros [k v] Hin. exact (IH _ Hin).
Qed.

Lemma _toml_value_no_digit_limit (v : pyobj) :
  _toml_value (I := no_digit_limit) v = Returns (value_text v).
Proof. apply _toml_value_within_limit, ints_within_no_digit_limit. Qed.

(** ** Dictionaries *)

Section DictFacts.
Context {V : Type}.
Implicit Types (d : list (string * V)) (k : string) (v : V).

Lemma dict_get_set_same k v d : Py.dict_get k (Py.dict_set k v d) = Some v.
Proof.
  induction d as [|[k' v'] d IH]; simpl.
  - now rewrite String.eqb_refl.
  - destruct (String.eqb_spec k k') as [->|Hne]; simpl.
    + now rewrite String.eqb_refl.
    + apply String.eqb_neq in Hne. now rewrite Hne.
Qed.

Lemma dict_set_set_same k v v' d :
  Py.dict_set k v' (Py.dict_set k v d) = Py.dict_set k v' d.
Proof.
  induction d as [|[k0 v0] d IH]; simpl.
  - now rewrite String.eqb_refl.
  - destruct (String.eqb_spec k k0) as [->|Hne]; simpl.
    + now rewrite String.eqb_refl.
    + apply String.eqb_neq in Hne. now rewrite Hne, IH.
Qed.

Lemma dict_get_None k d :
  Py.dict_get k d = None <-> ~ In k (Py.dict_keys d).
Proof.
  induction d as [|[k' v'] d IH]; simpl; [tauto |].
  destruct (String.eqb_spec k k') as [->|Hne].
  - split; [discriminate | intros H; exfalso; apply H; now left].
  - rewrite IH. split; intros H; [intros [E|I]; [congruence | auto] | auto].
Qed.

Lemma dict_get_In k v d : Py.dict_get k d = Some v -> In (k, v) d.
Proof.
  induction d as [|[k' v'] d IH]; simpl; [discriminate |].
  destruct (String.eqb_spec k k') as [->|Hne].
  - intros [= ->]. now left.
  - intros H. right. auto.
Qed.

Lemma dict_get_wf k v d : Py.wf d -> In (k, v) d -> Py.dict_get k d = Some v.
Proof.
  unfold Py.wf. induction d as [|[k' v'] d IH]; simpl; [tauto |].
  intros Hnd [E|I].
  - injection E as -> ->. now rewrite String.eqb_refl.
  - inversion Hnd as [|? ? Hnotin Hnd']; subst.
    destruct (String.eqb_spec k k') as [->|Hne]; [| auto].
    exfalso. apply Hnotin. change (In (fst (k', v)) (map fst d)).
    now apply in_map.
Qed.

Lemma dict_set_fresh k v d :
  ~ In k (Py.dict_keys d) -> Py.dict_set k v d = (d ++ [(k, v)])%list.
Proof.
  induction d as [|[k' v'] d IH]; simpl; [reflexivity |].
  intros H. destruct (String.eqb_spec k k') as [->|Hne].
  - exfalso. apply H. now left.
  - rewrite IH; [reflexivity | tauto].
Qed.

Lemma dict_keys_app d d' :
  Py.dict_keys (d ++ d')%list = (Py.dict_keys d ++ Py.dict_keys d')%list.
Proof. apply map_app. Qed.

(** A comprehension over items with distinct keys keeps, in order, the
    items that pass the test. *)
Lemma dict_comprehension_filter (keep : string -> V -> bool) d :
  Py.wf d ->
  Py.dict_comprehension keep d
  = filter (fun kv => keep (fst kv) (snd kv)) d.
Proof.
  unfold Py.dict_comprehension, Py.wf.
  enough (G : forall acc,
             NoDup (Py.dict_keys d) ->
             (forall k, In k (Py.dict_keys acc) -> ~ In k (Py.dict_keys d)) ->
             fold_left
               (fun acc kv => if keep (fst kv) (snd kv)
                              then Py.dict_set (fst kv) (snd kv) acc else acc)
               d acc
             = (acc ++ filter (fun kv => keep (fst kv) (snd kv)) d)%list).
  { intros Hnd. apply (G [] Hnd). intros k []. }
  induction d as [|[k v] d IH]; intros acc Hnd Hdisj; simpl.
  - now rewrite app_nil_r.
  - inversion Hnd as [|? ? Hnotin Hnd']; subst.
    destruct (keep k v).
    + rewrite IH; [| assumption |].
      * rewrite dict_set_fresh.
        -- now rewrite <- app_assoc.
        -- intros Hin. apply (Hdisj k Hin). now left.
      * intros k0 Hin. rewrite dict_set_fresh in Hin.
        -- rewrite dict_keys_app in Hin. apply in_app_or in Hin.
           destruct Hin as [Hin|[<-|[]]]; [| assumption].
           intros Hin'. apply (Hdisj k0 Hin). now right.
        -- intros Hin'. apply (Hdisj k Hin'). now left.
    + apply IH; [assumption |].
      intros k0 Hin Hin'. apply (Hdisj k0 Hin). now right.
Qed.

Lemma dict_comprehension_Forall (P : string * V -> Prop)
    (keep : string -> V -> bool) d :
  (forall k v, keep k v = true -> P (k, v)) ->
  Forall P (Py.dict_comprehension keep d).
Proof.
  intros Hkeep. unfold Py.dict_comprehension.
  enough (G : forall acc, Forall P acc ->
             Forall P (fold_left
               (fun acc kv => if keep (fst kv) (snd kv)
                              then Py.dict_set (fst kv) (snd kv) acc else acc)
               d acc)) by (apply G; constructor).
  induction d as [|[k v] d IH]; intros acc Hacc; simpl; [assumption |].
  apply IH. destruct (keep k v) eqn:E; [| assumption].
  clear IH. induction acc as [|[k' v'] acc IHa]; simpl.
  - constructor; [now apply Hkeep | constructor].
  - inversion Hacc; subst.
    destruct (String.eqb_spec k k') as [->|Hne].
    + constructor; [now apply Hkeep | assumption].
    + constructor; [assumption | now apply IHa].
Qed.
End DictFacts.

(** ** The filter *)

Lemma filter_filter {A} (f g : A -> bool) (l : list A) :
  filter f (filter g l) = filter (fun x => g x && f x) l.
Proof.
  induction l as [|x l IH]; simpl; [reflexivity |].
  destruct (g x); simpl; [destruct (f x) |]; now rewrite IH.
Qed.

Lemma filter_packages_filtered_set (data : dict) :
  Py.wf data -> filter_packages data = filtered_set data.
Proof.
  intros Hwf. unfold filter_packages, filtered_set, without_non_tables,
    without_reserved.
  rewrite filter_filter.
  now apply (dict_comprehension_filter
               (fun k v => negb (String.eqb k reserved_key)
                           && isinstance_dict v)).
Qed.

Lemma filter_packages_tables (data : dict) :
  Forall (fun kv => isinstance_dict (snd kv) = true) (filter_packages data).
Proof.
  apply (dict_comprehension_Forall
           (fun kv => isinstance_dict (snd kv) = true)).
  intros k v H. apply andb_true_iff in H. apply H.
Qed.

Lemma filtered_set_In (data : dict) (k : string) (v : pyobj) :
  In (k, v) (filtered_set data)
  <-> In (k, v) data /\ k <> reserved_key /\ isinstance_dict v = true.
Proof.
  unfold filtered_set, without_non_tables, without_reserved.
  rewrite !filter_In. simpl. rewrite negb_true_iff, String.eqb_neq. tauto.
Qed.

(** ** The section writer *)

Lemma set_file_set_file (file c c' : string) (w : world) :
  set_file file c' (set_file file c w) = set_file file c' w.
Proof. unfold set_file. simpl. now rewrite dict_set_set_same. Qed.

Lemma fh_write_set_file (fh : handle) (c text : string) (w : world) :
  fh_write fh text (set_file (fst fh) c w)
  = (Returned tt, set_file (fst fh) (c ++ text) w).
Proof.
  unfold fh_write, set_file. simpl.
  now rewrite dict_get_set_same, dict_set_set_same.
Qed.

Lemma fh_close_set_file (fh : handle) (c : string) (w : world) :
  fh_close fh (set_file (fst fh) c w)
  = if snd fh && negb (String.eqb c "")
    then (Uncaught "OSError", set_file (fst fh) "" w)
    else (Returned tt, set_file (fst fh) c w).
Proof.
  unfold fh_close, set_file. simpl. rewrite dict_get_set_same.
  destruct (snd fh && negb (String.eqb c "")); [| reflexivity].
  now rewrite dict_set_set_same.
Qed.

Lemma for_each_ext {A} (f g : A -> proc unit) (xs : list A) (w : world) :
  (forall x w', f x w' = g x w') -> for_each xs f w = for_each xs g w.
Proof.
  intros H. revert w. induction xs as [|x xs IH]; intros w; simpl;
    [reflexivity |].
  unfold bind. rewrite H. destruct (g x w) as [[[]|c|e] w']; auto.
Qed.

Lemma render_packages_cons (entry : string * pyobj) (packages : dict) :
  render_packages (entry :: packages)
  = render_section entry ++ render_packages packages.
Proof. reflexivity. Qed.

Lemma ints_within_limit_cons {I : Interpreter} (kv : string * pyobj)
    (items : dict) :
  ints_within_limit (PyDict (kv :: items))
  = ints_within_limit (snd kv) && ints_within_limit (PyDict items).
Proof. now destruct kv. Qed.

(** A pair is written as its line, unless the value cannot be rendered:
    then nothing is written for it. *)
Lemma write_pair_cases {I : Interpreter} (fh : handle)
    (kv : string * pyobj) (c : string) (w : world) :
  write_pair fh kv (set_file (fst fh) c w)
  = if ints_within_limit (snd kv)
    then (Returned tt, set_file (fst fh) (c ++ render_line kv) w)
    else (Uncaught "ValueError", set_file (fst fh) c w).
Proof.
  destruct kv as [key val]. unfold write_pair. cbn [snd].
  rewrite _toml_value_cases.
  destruct (ints_within_limit val); [| reflexivity].
  now rewrite fh_write_set_file.
Qed.

Lemma write_pairs_cases {I : Interpreter} (fh : handle) (items : dict) :
  forall (c : string) (w : world),
  exists t,
    for_each items (write_pair fh) (set_file (fst fh) c w)
    = (if ints_within_limit (PyDict items)
       then Returned tt else Uncaught "ValueError",
       set_file (fst fh) (c ++ t) w)
    /\ (ints_within_limit (PyDict items) = true
        -> t = concat_all (map render_line items)).
Proof.
  induction items as [|kv items IH]; intros c w.
  - exists "". rewrite str_app_nil_r. split; reflexivity.
  - rewrite ints_within_limit_cons. cbn [for_each]. unfold bind at 1.
    rewrite write_pair_cases.
    destruct (ints_within_limit (snd kv)).
    + destruct (IH (c ++ render_line kv) w) as (t & E & Ht).
      exists (render_line kv ++ t). rewrite E, str_app_assoc.
      split; [reflexivity |].
      intros Hw. cbn [map concat_all]. now rewrite (Ht Hw).
    + exists "". rewrite str_app_nil_r. split; [reflexivity | discriminate].
Qed.

Lemma write_section_cases {I : Interpreter} (fh : handle) (name : string)
    (items : dict) (c : string) (w : world) :
  exists t,
    write_section fh (name, PyDict items) (set_file (fst fh) c w)
    = (if ints_within_limit (PyDict items)
       then Returned tt else Uncaught "ValueError",
       set_file (fst fh) (c ++ t) w)
    /\ t <> ""
    /\ (ints_within_limit (PyDict items) = true
        -> t = render_section (name, PyDict items)).
Proof.
  unfold write_section, bind. rewrite fh_write_set_file.
  destruct (write_pairs_cases fh items
              (c ++ "[" ++ _toml_key name ++ "]" ++ s_newline) w)
    as (t & E & Ht).
  rewrite E.
  destruct (ints_within_limit (PyDict items)).
  - rewrite fh_write_set_file.
    exists (("[" ++ _toml_key name ++ "]" ++ s_newline) ++ t ++ s_newline).
    rewrite !str_app_assoc. split; [reflexivity |].
    split; [discriminate |].
    intros _. rewrite (Ht eq_refl). unfold render_section.
    cbn [fst snd table_items]. rewrite ?str_app_assoc. reflexivity.
  - exists (("[" ++ _toml_key name ++ "]" ++ s_newline) ++ t).
    rewrite !str_app_assoc. split; [reflexivity |].
    split; discriminate.
Qed.

Lemma packages_within_limit_cons {I : Interpreter} (entry : string * pyobj)
    (packages : dict) :
  packages_within_limit (entry :: packages)
  = ints_within_limit (snd entry) && packages_within_limit packages.
Proof. reflexivity. Qed.

(** The loop over the packages: it returns when every value can be
    rendered, with the sections written, and stops with [ValueError]
    otherwise; either way something was written, unless there is no
    package. *)
Lemma write_sections_cases {I : Interpreter} (fh : handle) (packages : dict) :
  Forall (fun kv => isinstance_dict (snd kv) = true) packages ->
  forall (c : string) (w : world),
  exists t,
    for_each packages (write_section fh) (set_file (fst fh) c w)
    = (if packages_within_limit packages
       then Returned tt else Uncaught "ValueError",
       set_file (fst fh) (c ++ t) w)
    /\ (packages <> [] -> t <> "")
    /\ (packages_within_limit packages = true
        -> t = render_packages packages).
Proof.
  induction 1 as [|[name table] packages Ht _ IH]; intros c w.
  - exists "". rewrite str_app_nil_r.
    split; [reflexivity | split; [congruence | reflexivity]].
  - cbn [snd] in Ht. destruct table; try discriminate Ht.
    rewrite packages_within_limit_cons. cbn [snd for_each].
    unfold bind at 1.
    destruct (write_section_cases fh name items c w) as (t1 & E1 & N1 & T1).
    rewrite E1.
    destruct (ints_within_limit (PyDict items)).
    + destruct (IH (c ++ t1) w) as (t2 & E2 & _ & T2).
      exists (t1 ++ t2). rewrite E2, str_app_assoc. cbn [andb].
      split; [reflexivity |]. split.
      * intros _ E. destruct t1; [now apply N1 | discriminate E].
      * intros Hw. rewrite render_packages_cons, (T1 eq_refl), (T2 Hw).
        reflexivity.
    + exists t1. cbn [andb].
      split; [reflexivity | split; [auto | discriminate]].
Qed.

Lemma open_w_opened (path file : string) (full : bool) (w : world) :
  fs_open w path = Opened file full ->
  open_w path w = (Returned (file, full), set_file file "" w).
Proof. intros H. unfold open_w. now rewrite H. Qed.

(** What [_write_packages] does with a Filtered Set, case by case. *)
Lemma _write_packages_cases {I : Interpreter} (packages : dict)
    (path : string) (w : world) :
  Forall (fun kv => isinstance_dict (snd kv) = true) packages ->
  match fs_open w path with
  | OpenFails exc => _write_packages packages path w = (Uncaught exc, w)
  | Opened file full =>
      exists t,
        (packages <> [] -> t <> "")
        /\ (packages_within_limit packages = true
            -> t = render_packages packages)
        /\ _write_packages packages path w
           = if full && negb (String.eqb t "")
             then (Uncaught "OSError", set_file file "" w)
             else (if packages_within_limit packages
                   then Returned tt else Uncaught "ValueError",
                   set_file file t w)
  end.
Proof.
  intros Htables. unfold _write_packages, with_open_w.
  destruct (fs_open w path) as [file full|exc] eqn:Hopen.
  - rewrite (open_w_opened _ _ _ _ Hopen).
    destruct (write_sections_cases (file, full) packages Htables "" w)
      as (t & E & N & T).
    cbn [fst] in E. change ("" ++ t) with t in E. rewrite E.
    exists t. split; [exact N | split; [exact T |]].
    pose proof (fh_close_set_file (file, full) t w) as Hc.
    cbn [fst snd] in Hc. cbv beta iota zeta. rewrite Hc.
    destruct (full && negb (String.eqb t "")); [reflexivity |].
    now destruct (packages_within_limit packages).
  - unfold open_w. now rewrite Hopen.
Qed.

(** When the file can be opened on a device with room and every value can
    be rendered, [_write_packages] leaves in the file the sections of the
    packages, one after the other, and nothing else changes. *)
Lemma _write_packages_writes {I : Interpreter} (packages : dict)
    (path file : string) (w : world) :
  fs_open w path = Opened file false ->
  Forall (fun kv => isinstance_dict (snd kv) = true) packages ->
  packages_within_limit packages = true ->
  _write_packages packages path w
  = (Returned tt, set_file file (render_packages packages) w).
Proof.
  intros Hopen Htables Hw.
  pose proof (_write_packages_cases packages path w Htables) as H.
  rewrite Hopen in H. destruct H as (t & _ & T & E).
  rewrite E, Hw, (T Hw). reflexivity.
Qed.

(** It returns in no other case, when there is a package to write. *)
Lemma _write_packages_returned {I : Interpreter} (packages : dict)
    (path : string) (w w' : world) (u : unit) :
  Forall (fun kv => isinstance_dict (snd kv) = true) packages ->
  packages <> [] ->
  _write_packages packages path w = (Returned u, w') ->
  exists file,
    fs_open w path = Opened file false
    /\ packages_within_limit packages = true.
Proof.
  intros Htables Hne Hrun.
  pose proof (_write_packages_cases packages path w Htables) as H.
  destruct (fs_open w path) as [file full|exc].
  - destruct H as (t & N & _ & E). rewrite E in Hrun.
    assert (Et : String.eqb t "" = false)
      by (apply String.eqb_neq; auto).
    rewrite Et, andb_true_r in Hrun.
    destruct full; [discriminate Hrun |].
    destruct (packages_within_limit packages); [| discriminate Hrun].
    exists file. auto.
  - rewrite H in Hrun. discriminate Hrun.
Qed.

(** Whatever happens, it touches one file at most and no stream, and it
    does not exit. *)
Lemma _write_packages_frame {I : Interpreter} (packages : dict)
    (path : string) (w : world) :
  Forall (fun kv => isinstance_dict (snd kv) = true) packages ->
  exists o w',
    _write_packages packages path w = (o, w')
    /\ (o = Returned tt \/ exists exc, o = Uncaught exc)
    /\ (w' = w \/ exists file c, w' = set_file file c w).
Proof.
  intros Htables.
  pose proof (_write_packages_cases packages path w Htables) as H.
  destruct (fs_open w path) as [file full|exc].
  - destruct H as (t & _ & _ & E). rewrite E.
    destruct (full && negb (String.eqb t "")).
    + do 2 eexists. split; [reflexivity |]. split; [right | right]; eauto.
    + do 2 eexists. split; [reflexivity |]. split; [| right; eauto].
      destruct (packages_within_limit packages); [left | right]; eauto.
  - rewrite H. do 2 eexists. split; [reflexivity |].
    split; [right; eauto | now left].
Qed.

Lemma wf_filter (f : string * pyobj -> bool) (data : dict) :
  Py.wf data -> Py.wf (filter f data).
Proof.
  unfold Py.wf, Py.dict_keys.
  induction data as [|[k v] data IH]; simpl; intros Hnd; [constructor |].
  inversion Hnd as [|? ? Hnotin Hnd']; subst.
  destruct (f (k, v)); simpl; [| auto].
  constructor; [| auto].
  intros Hin. apply Hnotin. apply in_map_iff in Hin.
  destruct Hin as [[k' v'] [E Hin]]. simpl in E. subst k'.
  apply filter_In in Hin. destruct Hin as [Hin _].
  change (In (fst (k, v')) (map fst data)). now apply in_map.
Qed.

Lemma filter_packages_nil (data : dict) :
  (forall k v, In (k, v) data ->
               k = reserved_key \/ isinstance_dict v = false) ->
  filter_packages data = [].
Proof.
  unfold filter_packages, Py.dict_comprehension.
  induction data as [|[k v] data IH]; intros H; simpl; [reflexivity |].
  destruct (H k v (or_introl eq_refl)) as [-> | Hv].
  - rewrite String.eqb_refl. simpl. apply IH. intros k' v' Hin.
    apply H. now right.
  - rewrite Hv, andb_false_r. apply IH. intros k' v' Hin.
    apply H. now right.
Qed.

(** A run whose input parses is decided by the Filtered Set. *)
Lemma prefix_app (p s : string) : String.prefix p (p ++ s) = true.
Proof.
  induction p as [|c p IH]; simpl; [now destruct s |].
  destruct (ascii_dec c c) as [_|Hne]; [exact IH | now elim Hne].
Qed.

Lemma non_table_notice_filter (data : dict) :
  filter is_non_table_warning
    (reserved_notice data ++ non_table_notice data
     ++ no_packages_notice data)%list
  = non_table_notice data.
Proof.
  rewrite !filter_app.
  replace (filter is_non_table_warning (reserved_notice data))
    with (@nil string)
    by (unfold reserved_notice;
        now destruct (Py.dict_contains reserved_key data)).
  replace (filter is_non_table_warning (no_packages_notice data))
    with (@nil string)
    by (unfold no_packages_notice; now destruct (filter_packages data)).
  rewrite app_nil_r. simpl. unfold non_table_notice.
  destruct (non_table_keys data) as [|k ks]; [reflexivity |].
  cbn [filter]. unfold is_non_table_warning, non_table_warning.
  now rewrite prefix_app.
Qed.

Section ScriptFacts.

Context {I : Interpreter}.

Variable tomllib_loads : string -> loads_result.

(** Up to the Filtered Set: the input is read and the warnings are
    printed. *)
Lemma main_parsed (argv0 outfile : string) (w : world) (data : dict) :
  tomllib_loads (stdin w) = Loaded data ->
  main tomllib_loads argv0 [outfile] w
  = (match filter_packages data with
     | [] => print_stderr no_packages_error ;; sys_exit 1
     | _ :: _ =>
         _write_packages (filter_packages data) outfile ;;
         print (Py.join " " (Py.dict_keys (filter_packages data)))
     end)
      (add_stderr (reserved_notice data ++ non_table_notice data)
         (consume_stdin w)).
Proof.
  intros Hloads. unfold main, bind at 1, stdin_read.
  rewrite Hloads. cbv zeta.
  set (k := match filter_packages data with [] => _ | _ :: _ => _ end).
  unfold reserved_notice, non_table_notice.
  destruct (Py.dict_contains reserved_key data);
    destruct (non_table_keys data) as [|key keys];
    unfold bind, print_stderr, ret, add_stderr, consume_stdin;
    cbn [stdin stdin_consumed stdout stderr files fs_open app];
    rewrite <- ?app_assoc, ?app_nil_r; reflexivity.
Qed.

(** Every run of [main], case by case. *)
Lemma main_cases (argv0 : string) (args : list string) (w : world) :
  let run := main tomllib_loads argv0 args w in
  match args with
  | [outfile] =>
      match tomllib_loads (stdin w) with
      | OtherError exc => run = (Uncaught exc, consume_stdin w)
      | DecodeError msg =>
          run = (SystemExit 1,
                 add_stderr [invalid_toml_error msg] (consume_stdin w))
      | Loaded data =>
          let w1 :=
            add_stderr (reserved_notice data ++ non_table_notice data)
              (consume_stdin w) in
          match filter_packages data with
          | [] => run = (SystemExit 1, add_stderr [no_packages_error] w1)
          | _ :: _ =>
              match fs_open w outfile with
              | OpenFails exc => run = (Uncaught exc, w1)
              | Opened file full =>
                  if negb full && packages_within_limit (filter_packages data)
                  then
                    run
                    = (Returned tt,
                       add_stdout
                         [Py.join " " (Py.dict_keys (filter_packages data))]
                         (set_file file
                            (render_packages (filter_packages data)) w1))
                  else exists exc c, run = (Uncaught exc, set_file file c w1)
              end
          end
      end
  | _ => run = (SystemExit 2, add_stderr [usage_message argv0] w)
  end.
Proof.
  intros run. subst run.
  destruct args as [|outfile [|a args]]; [reflexivity | | reflexivity].
  destruct (tomllib_loads (stdin w)) as [data|msg|exc] eqn:Hloads;
    [| unfold main, bind at 1, stdin_read; now rewrite Hloads ..].
  rewrite (main_parsed _ _ _ _ Hloads). cbv zeta.
  set (w1 := add_stderr _ _).
  pose proof (filter_packages_tables data) as Htables.
  destruct (filter_packages data) as [|p ps] eqn:Epk; [reflexivity |].
  pose proof (_write_packages_cases (p :: ps) outfile w1 Htables) as H.
  change (fs_open w1) with (fs_open w) in H.
  unfold bind.
  destruct (fs_open w outfile) as [file full|exc].
  - destruct H as (t & N & T & E). rewrite !E.
    assert (Et : String.eqb t "" = false)
      by (apply String.eqb_neq, N; discriminate).
    rewrite Et, andb_true_r.
    destruct full; cbn [negb andb]; cbv beta iota;
      [do 2 eexists; reflexivity |].
    destruct (packages_within_limit (p :: ps));
      [| do 2 eexists; reflexivity].
    now rewrite (T eq_refl).
  - now rewrite H.
Qed.

(** C1, as amended.  When the document has a top-level entry, other than
    the reserved key, whose value is a mapping, the Filtered Set is the
    document's entries without the reserved key and without the keys
    whose value is not a mapping, in the order of the document.  The run
    exits with status 0 exactly when the output path can be opened on a
    device with room and no integer of the Filtered Set is past the
    conversion limit; it has then written the sections of the Filtered
    Set to the output file and printed its names. *)
Theorem main_keeps_the_tables
    (argv0 outfile : string) (w : world) (data : dict) :
  tomllib_loads (stdin w) = Loaded data ->
  Py.wf data ->
  (exists k items, In (k, PyDict items) data /\ k <> reserved_key) ->
  let run := main tomllib_loads argv0 [outfile] w in
  filter_packages data = filtered_set data
  /\ (exit_status (fst run) = 0%Z
      <-> exists file,
            fs_open w outfile = Opened file false
            /\ packages_within_limit (filtered_set data) = true)
  /\ (forall file,
        fs_open w outfile = Opened file false ->
        packages_within_limit (filtered_set data) = true ->
        fst run = Returned tt
        /\ Py.dict_get file (files (snd run))
           = Some (render_packages (filtered_set data))
        /\ stdout (snd run)
           = (stdout w
              ++ [Py.join " " (Py.dict_keys (filtered_set data))])%list).
Proof.
  intros Hloads Hwf (k & items & Hin & Hk) run.
  pose proof (filter_packages_filtered_set data Hwf) as Hfs.
  split; [exact Hfs |].
  pose proof (main_cases argv0 [outfile] w) as H. cbv zeta in H.
  fold run in H. rewrite Hloads, Hfs in H.
  destruct (filtered_set data) as [|p ps] eqn:E.
  { exfalso.
    assert (Hmem : In (k, PyDict items) (filtered_set data))
      by (apply filtered_set_In; auto).
    rewrite E in Hmem. exact Hmem. }
  destruct (fs_open w outfile) as [file full|exc].
  - destruct full; cbn [negb andb] in H.
    + destruct H as (exc & c & ->). split.
      * split; [discriminate | intros (f & [=] & _)].
      * intros f [=].
    + destruct (packages_within_limit (p :: ps)).
      * rewrite H. cbn [fst snd exit_status]. split.
        -- split; [eauto | reflexivity].
        -- intros f [= <-] _. repeat split.
           unfold add_stdout, set_file. cbn [files].
           apply dict_get_set_same.
      * destruct H as (exc & c & ->). split.
        -- split; [discriminate | intros (f & _ & [=])].
        -- intros f _ [=].
  - rewrite H. split.
    + split; [discriminate | intros (f & [=] & _)].
    + intros f [=].
Qed.

(** C6.  When the input parses and every top-level entry is the reserved
    key or has a value that is not a mapping, the run ends with the error
    notice, spelled out here, as the last line on the error stream and
    with status 1; no file is written and nothing is printed to standard
    output. *)
Theorem main_no_packages
    (argv0 outfile : string) (w : world) (data : dict) :
  tomllib_loads (stdin w) = Loaded data ->
  (forall k v, In (k, v) data ->
               k = reserved_key \/ isinstance_dict v = false) ->
  let run := main tomllib_loads argv0 [outfile] w in
  filter_packages data = []
  /\ exit_status (fst run) = 1%Z
  /\ stderr (snd run)
     = (stderr w ++ (reserved_notice data ++ non_table_notice data)
        ++ ["::error::PACKAGES_CONFIG contains no package sections"])%list
  /\ files (snd run) = files w
  /\ stdout (snd run) = stdout w.
Proof.
  intros Hloads Hnone run.
  pose proof (filter_packages_nil data Hnone) as Hnil.
  split; [exact Hnil |].
  pose proof (main_cases argv0 [outfile] w) as H. cbv zeta in H.
  fold run in H. rewrite Hloads, Hnil in H. rewrite H.
  cbn. rewrite <- !app_assoc. auto.
Qed.

(** C7.  When the input is not valid TOML, the run ends with status 1 and
    one error notice that ends with the parser's diagnostic; no file is
    written and no summary line is printed. *)
Theorem main_invalid_toml
    (argv0 outfile : string) (w : world) (exc : string) :
  tomllib_loads (stdin w) = DecodeError exc ->
  let run := main tomllib_loads argv0 [outfile] w in
  exit_status (fst run) = 1%Z
  /\ stderr (snd run)
     = (stderr w
        ++ [("::error::PACKAGES_CONFIG is not valid TOML: " ++ exc)%string]
       )%list
  /\ files (snd run) = files w
  /\ stdout (snd run) = stdout w.
Proof.
  intros Hloads run.
  assert (E : run = (SystemExit 1,
                     add_stderr [invalid_toml_error exc] (consume_stdin w))).
  { unfold run, main, bind at 1, stdin_read. now rewrite Hloads. }
  rewrite E. cbn. auto.
Qed.

(** C8.  With no argument, or with two or more, the run writes the usage
    message to the error stream and exits with status 2; standard input
    is not read, nothing is printed and no file is written. *)
Theorem main_usage (argv0 : string) (args : list string) (w : world) :
  length args = 0 \/ 2 <= length args ->
  let run := main tomllib_loads argv0 args w in
  exit_status (fst run) = 2%Z
  /\ stderr (snd run)
     = (stderr w ++ [("Usage: " ++ argv0 ++ " <outfile>")%string])%list
  /\ stdin_consumed (snd run) = stdin_consumed w
  /\ stdout (snd run) = stdout w
  /\ files (snd run) = files w.
Proof.
  intros Hlen run. unfold run, main.
  destruct args as [|a [|b args]]; cbn in Hlen |- *;
    [auto | exfalso; lia | auto].
Qed.

(** What a run whose input parses adds to the error stream, whether or
    not the file is then written. *)
Lemma main_parsed_stderr (argv0 outfile : string) (w : world) (data : dict) :
  tomllib_loads (stdin w) = Loaded data ->
  stderr (snd (main tomllib_loads argv0 [outfile] w))
  = (stderr w ++ reserved_notice data ++ non_table_notice data
     ++ no_packages_notice data)%list.
Proof.
  intros Hloads.
  pose proof (main_cases argv0 [outfile] w) as H. cbv zeta in H.
  rewrite Hloads in H. unfold no_packages_notice.
  destruct (filter_packages data) as [|p ps].
  - rewrite H. cbn. now rewrite <- !app_assoc.
  - rewrite app_nil_r.
    destruct (fs_open w outfile) as [file full|exc];
      [destruct (negb full && packages_within_limit (p :: ps));
       [| destruct H as (exc & c & H)] |];
      rewrite H; reflexivity.
Qed.

(** When a run whose input parses ends with status 0. *)
Lemma main_parsed_status (argv0 outfile : string) (w : world) (data : dict) :
  tomllib_loads (stdin w) = Loaded data ->
  exit_status (fst (main tomllib_loads argv0 [outfile] w)) = 0%Z
  <-> filter_packages data <> []
      /\ exists file,
           fs_open w outfile = Opened file false
           /\ packages_within_limit (filter_packages data) = true.
Proof.
  intros Hloads.
  pose proof (main_cases argv0 [outfile] w) as H. cbv zeta in H.
  rewrite Hloads in H.
  destruct (filter_packages data) as [|p ps].
  - rewrite H. split; [discriminate | intros [Hne _]; now elim Hne].
  - destruct (fs_open w outfile) as [file full|exc].
    + destruct full; cbn [negb andb] in H.
      * destruct H as (exc & c & ->).
        split; [discriminate | intros (_ & f & [=] & _)].
      * destruct (packages_within_limit (p :: ps)).
        -- rewrite H. split; [| reflexivity].
           intros _. split; [discriminate | eauto].
        -- destruct H as (exc & c & ->).
           split; [discriminate | intros (_ & f & _ & [=])].
    + rewrite H. split; [discriminate | intros (_ & f & [=] & _)].
Qed.

(** C9.  The keys whose value is not a mapping, in the order of the
    document, are named in one warning, joined by a comma and a space;
    the run adds that warning to the error stream exactly once when there
    is such a key and not at all when there is none.  None of these keys
    is in the Filtered Set.  The warning is not fatal: with or without
    it, the run ends with status 0 exactly when the Filtered Set is not
    empty, the output path can be opened on a device with room and no
    integer of the Filtered Set is past the conversion limit. *)
Theorem main_non_table_warning
    (argv0 outfile : string) (w : world) (data : dict) :
  tomllib_loads (stdin w) = Loaded data ->
  Py.wf data ->
  let run := main tomllib_loads argv0 [outfile] w in
  let keys :=
    map fst (filter (fun kv => negb (isinstance_dict (snd kv))) data) in
  exists notices,
    stderr (snd run) = (stderr w ++ notices)%list
    /\ filter is_non_table_warning notices
       = match keys with
         | [] => []
         | _ :: _ =>
             ["::warning::Ignoring non-table top-level keys in "
              ++ "PACKAGES_CONFIG: " ++ Py.join ", " keys]
         end
    /\ (forall k, In k keys -> ~ In k (Py.dict_keys (filter_packages data)))
    /\ (exit_status (fst run) = 0%Z
        <-> filter_packages data <> []
            /\ exists file,
                 fs_open w outfile = Opened file false
                 /\ packages_within_limit (filter_packages data) = true).
Proof.
  intros Hloads Hwf run keys.
  exists (reserved_notice data ++ non_table_notice data
          ++ no_packages_notice data)%list.
  split; [| split; [| split]].
  - apply main_parsed_stderr, Hloads.
  - rewrite non_table_notice_filter. unfold non_table_notice.
    fold keys. change (non_table_keys data) with keys.
    destruct keys; reflexivity.
  - intros k Hk Hin. rewrite (filter_packages_filtered_set data Hwf) in Hin.
    apply in_map_iff in Hk. destruct Hk as [[k1 v1] [E1 H1]].
    apply in_map_iff in Hin. destruct Hin as [[k2 v2] [E2 H2]].
    simpl in E1, E2. subst k1 k2.
    apply filter_In in H1. destruct H1 as [H1 Hnd]. simpl in Hnd.
    apply filtered_set_In in H2. destruct H2 as (H2 & _ & Hd).
    pose proof (dict_get_wf _ _ _ Hwf H1) as G1.
    pose proof (dict_get_wf _ _ _ Hwf H2) as G2.
    rewrite G1 in G2. injection G2 as ->. rewrite Hd in Hnd. discriminate.
  - apply main_parsed_status, Hloads.
Qed.

(** C10.  When the reserved key is present with a value that is not a
    mapping, the run emits the reserved-entry warning and then the
    non-table warning, both spelled out here, and the second names the
    reserved key among its keys: two warnings for one key.  The Filtered
    Set is the one of the document without the reserved key. *)
Theorem main_reserved_scalar_two_warnings
    (argv0 outfile : string) (w : world) (data : dict) (v : pyobj) :
  tomllib_loads (stdin w) = Loaded data ->
  Py.wf data ->
  In ("__config__", v) data ->
  isinstance_dict v = false ->
  let run := main tomllib_loads argv0 [outfile] w in
  let keys :=
    map fst (filter (fun kv => negb (isinstance_dict (snd kv))) data) in
  (exists rest,
      stderr (snd run)
      = (stderr w
         ++ ("::warning::PACKAGES_CONFIG contains [__config__]; "
             ++ "ignoring (auto-generated)")%string
            :: ("::warning::Ignoring non-table top-level keys in "
                ++ "PACKAGES_CONFIG: " ++ Py.join ", " keys)%string
            :: rest)%list)
  /\ In "__config__" keys
  /\ filter_packages data
     = filter_packages
         (filter (fun kv => negb (String.eqb (fst kv) "__config__")) data).
Proof.
  intros Hloads Hwf Hin Hv run keys.
  assert (Hnt : In reserved_key (non_table_keys data)).
  { unfold non_table_keys. change reserved_key with (fst (reserved_key, v)).
    apply in_map. apply filter_In. split; [assumption |].
    simpl. now rewrite Hv. }
  split; [| split; [exact Hnt |]].
  - exists (no_packages_notice data).
    unfold run. rewrite (main_parsed_stderr _ _ _ _ Hloads).
    unfold reserved_notice, non_table_notice, Py.dict_contains.
    change "__config__" with reserved_key in Hin.
    rewrite (dict_get_wf _ _ _ Hwf Hin).
    change keys with (non_table_keys data).
    destruct (non_table_keys data) as [|k ks]; [destruct Hnt |].
    reflexivity.
  - change (filter _ data) with (without_reserved data).
    rewrite (filter_packages_filtered_set data Hwf).
    rewrite (filter_packages_filtered_set (without_reserved data))
      by (apply wf_filter; exact Hwf).
    unfold filtered_set. f_equal. unfold without_reserved.
    rewrite filter_filter. apply filter_ext. intros a.
    now rewrite andb_diag.
Qed.

End ScriptFacts.

(** ** The claims about [main] on the scenarios of the specification *)

Lemma unique_keys_NoDup (keys : list string) :
  unique_keys keys = true -> NoDup keys.
Proof.
  induction keys as [|k keys IH]; simpl; intros H; constructor.
  - apply andb_true_iff in H. destruct H as [H _].
    apply negb_true_iff in H. intros Hin.
    assert (E : existsb (String.eqb k) keys = true)
      by (apply existsb_exists; exists k; split;
          [assumption | apply String.eqb_refl]).
    congruence.
  - apply IH. apply andb_true_iff in H. apply H.
Qed.

Lemma unique_keys_wf (d : dict) :
  unique_keys (Py.dict_keys d) = true -> Py.wf d.
Proof. apply unique_keys_NoDup. Qed.

(** Scenario A: only the section of [foo] is written, [foo] is printed and
    the status is 0. *)
Lemma main_keeps_the_tables_witness :
  let run := main_default "validate" ["out.toml"] (start scenario_A) in
  exit_status (fst run) = 0%Z
  /\ Py.dict_get "out.toml" (files (snd run))
     = Some (lines ["[foo]";
                    "url = " ++ s_dquote ++ "http://a" ++ s_dquote; ""])
  /\ stdout (snd run) = ["foo"].
Proof.
  destruct (main_keeps_the_tables (I := cpython_default) loads_default
              "validate" "out.toml" (start scenario_A) data_A)
    as (_ & H0 & Hrun).
  - reflexivity.
  - apply unique_keys_wf. reflexivity.
  - exists "foo", [("url", PyStr "http://a")].
    split; [right; left; reflexivity | discriminate].
  - destruct (Hrun "out.toml" eq_refl eq_refl) as (_ & Hfile & Hout).
    split; [| split; [exact Hfile | exact Hout]].
    apply H0. exists "out.toml". split; reflexivity.
Defined.

(** C1, as stated, fails: a document with a table does not make the run
    end with status 0.  Scenario A ends with status 1 when the directory
    of the output path does not exist, and when the device of the output
    file is full; so does a document whose table holds an integer of more
    than 4300 digits, which [tomllib] reads from a hexadecimal literal,
    after its header was written. *)
Lemma table_without_status_0 :
  (loads_default scenario_A = Loaded data_A
   /\ In ("foo", PyDict [("url", PyStr "http://a")]) data_A
   /\ (let run :=
         main_default "validate" ["nodir/out.toml"]
           (start_on no_directory scenario_A) in
       fst run = Uncaught "FileNotFoundError"
       /\ exit_status (fst run) = 1%Z)
   /\ (let run :=
         main_default "validate" ["/dev/full"]
           (start_on full_device scenario_A) in
       fst run = Uncaught "OSError"
       /\ exit_status (fst run) = 1%Z))
  /\ (let run :=
        main (I := cpython_default) (fun _ => Loaded hex_packages)
          "validate" ["out.toml"] (start hex_document) in
      isinstance_dict (PyDict [("v", PyInt hex_number)]) = true
      /\ fst run = Uncaught "ValueError"
      /\ exit_status (fst run) = 1%Z
      /\ files (snd run) = [("out.toml", "[p]" ++ s_newline)]).
Proof.
  split.
  - vm_compute. repeat split. right; left; reflexivity.
  - vm_compute. repeat split.
Qed.

(** Scenario C: status 1, the error notice, no file. *)
Lemma main_no_packages_witness :
  let run := main_default "validate" ["out.toml"] (start scenario_C) in
  exit_status (fst run) = 1%Z
  /\ stderr (snd run)
     = ["::warning::PACKAGES_CONFIG contains [__config__]; "
        ++ "ignoring (auto-generated)";
        "::error::PACKAGES_CONFIG contains no package sections"]
  /\ files (snd run) = []
  /\ stdout (snd run) = [].
Proof.
  destruct (main_no_packages (I := cpython_default) loads_default
              "validate" "out.toml" (start scenario_C) data_C)
    as (_ & H1 & Herr & Hfiles & Hout).
  - reflexivity.
  - intros k v [E | []]. left. now injection E as <- _.
  - split; [exact H1 |].
    split; [exact Herr | split; [exact Hfiles | exact Hout]].
Defined.

(** Scenario D: status 1 and the diagnostic of the parser. *)
Lemma main_invalid_toml_witness :
  let run := main_default "validate" ["out.toml"] (start scenario_D) in
  exit_status (fst run) = 1%Z
  /\ stderr (snd run)
     = ["::error::PACKAGES_CONFIG is not valid TOML: Unterminated string"]
  /\ files (snd run) = []
  /\ stdout (snd run) = [].
Proof.
  exact (main_invalid_toml (I := cpython_default) loads_default
           "validate" "out.toml" (start scenario_D) "Unterminated string"
           eq_refl).
Defined.

(** Scenario E: no argument. *)
Lemma main_usage_witness :
  let run := main_default "validate" [] (start scenario_A) in
  exit_status (fst run) = 2%Z
  /\ stderr (snd run) = ["Usage: validate <outfile>"]
  /\ stdin_consumed (snd run) = false
  /\ stdout (snd run) = []
  /\ files (snd run) = [].
Proof.
  exact (main_usage (I := cpython_default) loads_default "validate" []
           (start scenario_A) (or_introl eq_refl)).
Defined.

(** Scenario B: one warning, naming [bare]; the status is 0. *)
Lemma main_non_table_warning_witness :
  let run := main_default "validate" ["out.toml"] (start scenario_B) in
  exists notices,
    stderr (snd run) = notices
    /\ filter is_non_table_warning notices
       = ["::warning::Ignoring non-table top-level keys in "
          ++ "PACKAGES_CONFIG: bare"]
    /\ (forall k, In k ["bare"] -> ~ In k ["pkg"])
    /\ (exit_status (fst run) = 0%Z
        <-> [("pkg", PyDict [("v", PyInt 2)])] <> []
            /\ exists file,
                 plain_files "out.toml" = Opened file false
                 /\ packages_within_limit (I := cpython_default)
                      [("pkg", PyDict [("v", PyInt 2)])] = true).
Proof.
  exact (main_non_table_warning (I := cpython_default) loads_default
           "validate" "out.toml" (start scenario_B) data_B
           eq_refl (unique_keys_wf data_B eq_refl)).
Defined.

(** The reserved key bound to a number: two warnings. *)
Lemma main_reserved_scalar_two_warnings_witness :
  let run :=
    main_default "validate" ["out.toml"] (start scenario_reserved_scalar) in
  (exists rest,
      stderr (snd run)
      = ("::warning::PACKAGES_CONFIG contains [__config__]; "
         ++ "ignoring (auto-generated)")
        :: ("::warning::Ignoring non-table top-level keys in "
            ++ "PACKAGES_CONFIG: __config__")
        :: rest)
  /\ In "__config__" ["__config__"]
  /\ [("pkg", PyDict [("v", PyInt 2)])]
     = filter_packages [("pkg", PyDict [("v", PyInt 2)])].
Proof.
  exact (main_reserved_scalar_two_warnings (I := cpython_default)
           loads_default "validate" "out.toml"
           (start scenario_reserved_scalar) data_reserved_scalar
           (PyInt 1) eq_refl (unique_keys_wf data_reserved_scalar eq_refl)
           (or_introl eq_refl) eq_refl).
Defined.

(** ** Reading back what the serializer writes *)

Section ReadBack.

Context {I : Interpreter}.

Lemma string_forallb_app (p : ascii -> bool) (a b : string) :
  string_forallb p (a ++ b) = string_forallb p a && string_forallb p b.
Proof.
  induction a as [|c a IH]; simpl; [reflexivity |].
  now rewrite IH, andb_assoc.
Qed.

Lemma skip_chars_stop (p : ascii -> bool) (s : string) :
  next_char_in p s = false -> skip_chars p s = s.
Proof. destruct s as [|c s]; simpl; [reflexivity | now intros ->]. Qed.

Lemma skip_chars_app (p : ascii -> bool) (a rest : string) :
  string_forallb p a = true -> next_char_in p rest = false ->
  skip_chars p (a ++ rest) = rest.
Proof.
  intros Ha Hrest. induction a as [|c a IH]; simpl in *.
  - now apply skip_chars_stop.
  - apply andb_true_iff in Ha. destruct Ha as [-> Ha]. auto.
Qed.

Lemma take_chars_app (p : ascii -> bool) (a rest : string) :
  string_forallb p a = true -> next_char_in p rest = false ->
  take_chars p (a ++ rest) = a.
Proof.
  intros Ha Hrest. induction a as [|c a IH]; simpl in *.
  - destruct rest as [|c rest]; simpl in *; [reflexivity | now rewrite Hrest].
  - apply andb_true_iff in Ha. destruct Ha as [-> Ha]. now rewrite IH.
Qed.

(** *** Basic strings *)

Lemma parse_basic_str_plain_char (c : ascii) (rest result : string) :
  c <> dquote -> c <> backslash -> ILLEGAL_BASIC_STR_CHARS c = false ->
  parse_basic_str (String c rest) result
  = parse_basic_str rest (result ++ String c "").
Proof.
  intros Hq Hb Hill. simpl.
  apply Ascii.eqb_neq in Hq, Hb. now rewrite Hq, Hb, Hill.
Qed.

Lemma parse_basic_str_escape (e c : ascii) (rest result : string) :
  BASIC_STR_ESCAPE_REPLACEMENTS e = Some c ->
  parse_basic_str (String backslash (String e rest)) result
  = parse_basic_str rest (result ++ String c "").
Proof.
  intros He. cbn [parse_basic_str].
  change (Ascii.eqb backslash dquote) with false.
  change (Ascii.eqb backslash backslash) with true. cbv iota.
  destruct (Ascii.eqb e "u" || Ascii.eqb e "U") eqn:Eu.
  - exfalso. apply orb_true_iff in Eu.
    destruct Eu as [Eu|Eu]; apply Ascii.eqb_eq in Eu; subst e; discriminate.
  - now rewrite He.
Qed.

Lemma parse_basic_str_value_escaped (s : string) :
  clean_text s = true ->
  forall rest result,
    parse_basic_str (escape_with escape_value_char s ++ String dquote rest)
      result
    = Ok (result ++ s, rest).
Proof.
  induction s as [|c s IH]; intros Hs rest result.
  - simpl. change (Ascii.eqb dquote dquote) with true. cbv iota.
    now rewrite str_app_nil_r.
  - simpl in Hs. apply andb_true_iff in Hs. destruct Hs as [Hc Hs].
    change (escape_with escape_value_char (String c s))
      with (escape_value_char c ++ escape_with escape_value_char s).
    rewrite str_app_assoc.
    replace (result ++ String c s) with ((result ++ String c "") ++ s)
      by now rewrite str_app_assoc.
    unfold escape_value_char.
    destruct (Ascii.eqb_spec c backslash) as [->|Hb];
      [| destruct (Ascii.eqb_spec c dquote) as [->|Hq];
         [| destruct (Ascii.eqb_spec c newline) as [->|Hn]]].
    + change ((s_backslash ++ s_backslash) ++ ?x)
        with (String backslash (String backslash x)).
      rewrite (parse_basic_str_escape backslash backslash) by reflexivity.
      now apply IH.
    + change ((s_backslash ++ s_dquote) ++ ?x)
        with (String backslash (String dquote x)).
      rewrite (parse_basic_str_escape dquote dquote) by reflexivity.
      now apply IH.
    + change ((s_backslash ++ "n") ++ ?x)
        with (String backslash (String "n" x)).
      rewrite (parse_basic_str_escape "n" newline) by reflexivity.
      now apply IH.
    + change (String c "" ++ ?x) with (String c x).
      rewrite parse_basic_str_plain_char; [now apply IH | assumption.. |].
      apply orb_true_iff in Hc.
      destruct Hc as [Hc|Hc]; [now apply negb_true_iff | discriminate].
Qed.

Lemma parse_basic_str_key_escaped (key : string) :
  clean_key key = true ->
  forall rest result,
    parse_basic_str (escape_with escape_key_char key ++ String dquote rest)
      result
    = Ok (result ++ key, rest).
Proof.
  induction key as [|c s IH]; intros Hs rest result.
  - simpl. change (Ascii.eqb dquote dquote) with true. cbv iota.
    now rewrite str_app_nil_r.
  - simpl in Hs. apply andb_true_iff in Hs. destruct Hs as [Hc Hs].
    change (escape_with escape_key_char (String c s))
      with (escape_key_char c ++ escape_with escape_key_char s).
    rewrite str_app_assoc.
    replace (result ++ String c s) with ((result ++ String c "") ++ s)
      by now rewrite str_app_assoc.
    unfold escape_key_char.
    destruct (Ascii.eqb_spec c backslash) as [->|Hb];
      [| destruct (Ascii.eqb_spec c dquote) as [->|Hq]].
    + change ((s_backslash ++ s_backslash) ++ ?x)
        with (String backslash (String backslash x)).
      rewrite (parse_basic_str_escape backslash backslash) by reflexivity.
      now apply IH.
    + change ((s_backslash ++ s_dquote) ++ ?x)
        with (String backslash (String dquote x)).
      rewrite (parse_basic_str_escape dquote dquote) by reflexivity.
      now apply IH.
    + change (String c "" ++ ?x) with (String c x).
      rewrite parse_basic_str_plain_char; [now apply IH | assumption.. |].
      now apply negb_true_iff.
Qed.

(** *** Keys *)

Lemma skip_bare_key_chars_split (s : string) :
  exists pre,
    s = pre ++ skip_bare_key_chars s
    /\ string_forallb is_bare_key_char pre = true.
Proof.
  induction s as [|c s (pre & E & Hpre)]; simpl.
  - now exists "".
  - destruct (is_bare_key_char c) eqn:Hc.
    + exists (String c pre). simpl. now rewrite Hc, <- E.
    + now exists "".
Qed.

Lemma bare_match_clean (key : string) :
  _BARE_KEY_RE_match key = true -> clean_key key = true ->
  bare_key key = true.
Proof.
  destruct key as [|c rest]; [discriminate |].
  unfold _BARE_KEY_RE_match, bare_key. intros Hm Hclean.
  apply andb_true_iff in Hm. destruct Hm as [Hc Htail].
  simpl. rewrite Hc. simpl.
  destruct (skip_bare_key_chars_split rest) as (pre & E & Hpre).
  apply orb_true_iff in Htail.
  destruct Htail as [Ht|Ht]; apply String.eqb_eq in Ht; rewrite Ht in E.
  - rewrite str_app_nil_r in E. now subst pre.
  - exfalso. simpl in Hclean. apply andb_true_iff in Hclean.
    destruct Hclean as [_ Hrest]. rewrite E in Hrest.
    unfold clean_key in Hrest. rewrite string_forallb_app in Hrest.
    apply andb_true_iff in Hrest. destruct Hrest as [_ Hnl].
    discriminate.
Qed.

Lemma _toml_key_bare (key : string) :
  bare_key key = true -> _toml_key key = key.
Proof.
  unfold bare_key, _toml_key. destruct key as [|c rest]; [discriminate |].
  simpl. intros H. apply andb_true_iff in H. destruct H as [Hc Hrest].
  rewrite Hc. simpl.
  replace (skip_bare_key_chars rest) with ""; [reflexivity |].
  clear Hc. induction rest as [|d rest IH]; simpl in *; [reflexivity |].
  apply andb_true_iff in Hrest. destruct Hrest as [-> Hrest]. auto.
Qed.

Lemma skip_bare_key_chars_app (pre rest : string) :
  string_forallb is_bare_key_char pre = true ->
  skip_bare_key_chars (pre ++ rest) = skip_bare_key_chars rest.
Proof.
  induction pre as [|c pre IH]; cbn [string_forallb append]; [reflexivity |].
  intros H. apply andb_true_iff in H. destruct H as [Hc Hpre].
  cbn [skip_bare_key_chars]. rewrite Hc. auto.
Qed.

(** What [_BARE_KEY_RE] matches: the keys made of characters of the class,
    and those keys followed by one newline. *)
Lemma _BARE_KEY_RE_match_iff (key : string) :
  _BARE_KEY_RE_match key = true
  <-> bare_key key = true
      \/ exists b, bare_key b = true /\ key = b ++ s_newline.
Proof.
  split.
  - destruct key as [|c rest]; [discriminate |].
    unfold _BARE_KEY_RE_match. intros Hm.
    apply andb_true_iff in Hm. destruct Hm as [Hc Htail].
    destruct (skip_bare_key_chars_split rest) as (pre & E & Hpre).
    apply orb_true_iff in Htail.
    destruct Htail as [Ht|Ht]; apply String.eqb_eq in Ht; rewrite Ht in E.
    + left. rewrite str_app_nil_r in E. subst pre.
      unfold bare_key. cbn [string_forallb]. now rewrite Hc, Hpre.
    + right. exists (String c pre). split; [| now rewrite E].
      unfold bare_key. cbn [string_forallb]. now rewrite Hc, Hpre.
  - intros [Hb | (b & Hb & ->)]; unfold bare_key in Hb;
      apply andb_true_iff in Hb; destruct Hb as [Hne Hb].
    + destruct key as [|c rest]; [discriminate |].
      cbn [string_forallb] in Hb. apply andb_true_iff in Hb.
      destruct Hb as [Hc Hrest]. unfold _BARE_KEY_RE_match. rewrite Hc.
      rewrite <- (str_app_nil_r rest).
      now rewrite (skip_bare_key_chars_app rest "" Hrest).
    + destruct b as [|c rest]; [discriminate |].
      cbn [string_forallb] in Hb. apply andb_true_iff in Hb.
      destruct Hb as [Hc Hrest]. cbn [append].
      unfold _BARE_KEY_RE_match. rewrite Hc.
      now rewrite (skip_bare_key_chars_app rest s_newline Hrest).
Qed.

Lemma _toml_key_quoted (key : string) :
  _BARE_KEY_RE_match key = false ->
  _toml_key key
  = String dquote (escape_with escape_key_char key ++ s_dquote).
Proof.
  intros H. unfold _toml_key. rewrite H, key_replaces_escape. reflexivity.
Qed.

Lemma _toml_key_initial (key : string) :
  clean_key key = true ->
  exists c s, _toml_key key = String c s /\ key_initial c = true.
Proof.
  intros Hclean. destruct (_BARE_KEY_RE_match key) eqn:Hm.
  - pose proof (bare_match_clean key Hm Hclean) as Hb.
    rewrite (_toml_key_bare key Hb).
    destruct key as [|c rest]; [discriminate |].
    exists c, rest. split; [reflexivity |].
    unfold bare_key in Hb. simpl in Hb. apply andb_true_iff in Hb.
    unfold key_initial. destruct Hb as [-> _]. reflexivity.
  - rewrite (_toml_key_quoted key Hm). eexists _, _. split; reflexivity.
Qed.

Lemma key_initial_facts (c : ascii) :
  key_initial c = true ->
  KEY_INITIAL_CHARS c = true /\ TOML_WS c = false
  /\ Ascii.eqb c newline = false /\ Ascii.eqb c "[" = false
  /\ Ascii.eqb "[" c = false.
Proof.
  destruct c as [[] [] [] [] [] [] [] []]; vm_compute; intros H;
    try discriminate H; repeat split.
Qed.

Lemma parse_key_part__toml_key (key rest : string) :
  clean_key key = true ->
  next_char_in BARE_KEY_CHARS rest = false ->
  parse_key_part (_toml_key key ++ rest) = Ok (key, rest).
Proof.
  intros Hclean Hrest. unfold parse_key_part.
  destruct (_BARE_KEY_RE_match key) eqn:Hm.
  - pose proof (bare_match_clean key Hm Hclean) as Hb.
    rewrite (_toml_key_bare key Hb).
    unfold bare_key in Hb. apply andb_true_iff in Hb. destruct Hb as [Hne Hb].
    destruct key as [|c k]; [discriminate |].
    assert (Hc : BARE_KEY_CHARS c = true)
      by (simpl in Hb; apply andb_true_iff in Hb; apply Hb).
    rewrite (take_chars_app BARE_KEY_CHARS _ _ Hb Hrest).
    rewrite (skip_chars_app BARE_KEY_CHARS _ _ Hb Hrest).
    cbn [next_char_in append]. now rewrite Hc.
  - rewrite (_toml_key_quoted key Hm).
    change (String dquote (escape_with escape_key_char key ++ s_dquote)
            ++ rest)
      with (String dquote
              ((escape_with escape_key_char key ++ s_dquote) ++ rest)).
    rewrite str_app_assoc.
    change (s_dquote ++ rest) with (String dquote rest).
    cbn [next_char_in].
    change (BARE_KEY_CHARS dquote) with false.
    change (Ascii.eqb "'" dquote) with false.
    change (Ascii.eqb dquote dquote) with true. cbv iota.
    unfold parse_one_line_basic_str.
    now rewrite parse_basic_str_key_escaped.
Qed.

Lemma parse_key__toml_key (key rest : string) :
  clean_key key = true ->
  next_char_in BARE_KEY_CHARS rest = false ->
  next_char_in (Ascii.eqb ".") (skip_chars TOML_WS rest) = false ->
  parse_key (_toml_key key ++ rest) = Ok ([key], skip_chars TOML_WS rest).
Proof.
  intros Hclean Hrest Hdot. unfold parse_key.
  rewrite parse_key_part__toml_key by assumption.
  cbn [pbind]. now rewrite Hdot.
Qed.

(** *** Integers *)

Lemma ends_value_facts (rest : string) :
  ends_value rest = true ->
  next_char_in is_digit rest = false
  /\ next_char_in (fun c => Ascii.eqb c "-" || Ascii.eqb c ":") rest = false
  /\ next_char_in
       (fun c => Ascii.eqb c "x" || Ascii.eqb c "b" || Ascii.eqb c "o"
                 || Ascii.eqb c "." || Ascii.eqb c "e" || Ascii.eqb c "E")
       rest = false
  /\ next_char_in
       (fun c => Ascii.eqb c "_" || Ascii.eqb c "." || Ascii.eqb c "e"
                 || Ascii.eqb c "E") rest = false
  /\ next_char_in TOML_WS_AND_NEWLINE rest
     = next_char_in (fun c => Ascii.eqb c newline) rest
  /\ next_char_in TOML_WS rest = false
  /\ next_char_in (Ascii.eqb "#") rest = false.
Proof.
  destruct rest as [|c rest]; [now repeat split |].
  destruct c as [[] [] [] [] [] [] [] []]; vm_compute; intros H;
    try discriminate H; repeat split.
Qed.

Lemma string_of_uint_digits (d : uint) :
  string_forallb is_digit (NilEmpty.string_of_uint d) = true.
Proof. induction d; simpl; auto. Qed.

Lemma to_uint_head (p : positive) :
  exists c s,
    NilEmpty.string_of_uint (Pos.to_uint p) = String c s
    /\ is_digit c = true /\ Ascii.eqb c "0" = false.
Proof.
  assert (Hnorm : unorm (Pos.to_uint p) = Pos.to_uint p).
  { rewrite <- (DecimalPos.Unsigned.to_of (Pos.to_uint p)).
    now rewrite DecimalPos.Unsigned.of_to. }
  pose proof (DecimalPos.Unsigned.to_uint_nonzero p) as Hnz.
  assert (Hhead : nzhead (Pos.to_uint p) = Pos.to_uint p).
  { unfold unorm in Hnorm.
    destruct (nzhead (Pos.to_uint p)) eqn:E; try exact Hnorm.
    congruence. }
  pose proof (DecimalFacts.nzhead_nonzero (Pos.to_uint p)) as Hd0.
  rewrite Hhead in Hd0.
  pose proof (DecimalPos.Unsigned.to_uint_nonnil p) as Hnil.
  destruct (Pos.to_uint p) as [|d|d|d|d|d|d|d|d|d|d];
    try (eexists _, _; split; [reflexivity | split; reflexivity]).
  - congruence.
  - exfalso. now apply (Hd0 d).
Qed.

Lemma int_of_digits_to_uint (p : positive) :
  int_of_digits (NilEmpty.string_of_uint (Pos.to_uint p)) = Z.pos p.
Proof.
  unfold int_of_digits. rewrite NilEmpty.usu. unfold Z.of_uint.
  now rewrite DecimalPos.Unsigned.of_to.
Qed.

Lemma decimal_text_cases (n : Z) :
  match n with
  | Z0 => Py.decimal_text n = "0"
  | Z.pos p => Py.decimal_text n = NilEmpty.string_of_uint (Pos.to_uint p)
  | Z.neg p =>
      Py.decimal_text n = String "-" (NilEmpty.string_of_uint (Pos.to_uint p))
  end.
Proof.
  destruct n as [|p|p]; [reflexivity | |];
    unfold Py.decimal_text; simpl;
    pose proof (DecimalPos.Unsigned.to_uint_nonnil p) as Hnil;
    unfold NilZero.string_of_uint;
    destruct (Pos.to_uint p); congruence.
Qed.

Lemma digit_not_sign (c : ascii) :
  is_digit c = true -> Ascii.eqb c "-" = false /\ Ascii.eqb c "+" = false.
Proof.
  destruct c as [[] [] [] [] [] [] [] []]; vm_compute; intros H;
    try discriminate H; now split.
Qed.

Lemma int_of_text_to_uint (negative : bool) (p : positive) :
  Py.digits_allowed (Py.digits (Z.pos p)) = true ->
  int_of_text negative (NilEmpty.string_of_uint (Pos.to_uint p))
  = Ok (if negative then Z.neg p else Z.pos p).
Proof.
  intros Hlim. unfold int_of_text.
  unfold Py.digits in Hlim. cbn [Z.abs] in Hlim.
  pose proof (decimal_text_cases (Z.pos p)) as Hp. cbv beta iota in Hp.
  rewrite Hp in Hlim. rewrite Hlim, int_of_digits_to_uint.
  now destruct negative.
Qed.

Lemma parse_number_decimal_text (n : Z) (rest : string) :
  Py.digits_allowed (Py.digits n) = true ->
  ends_value rest = true ->
  parse_number (Py.decimal_text n ++ rest) = Ok (PyInt n, rest).
Proof.
  intros Hlim Hend.
  destruct (ends_value_facts rest Hend)
    as (Hdig & Hdate & Hzero & Hfloat & _).
  pose proof (decimal_text_cases n) as Hn.
  destruct n as [|p|p]; rewrite Hn.
  - destruct (digit_not_sign "0" eq_refl) as [Hm Hp].
    unfold parse_number.
    change ("0" ++ rest) with (String "0" rest). cbv iota beta.
    rewrite Hm, Hp. cbv iota beta.
    pose proof (take_chars_app is_digit "0" rest eq_refl Hdig) as Ht.
    pose proof (skip_chars_app is_digit "0" rest eq_refl Hdig) as Hs.
    change ("0" ++ rest) with (String "0" rest) in Ht, Hs.
    rewrite Ht, Hs. cbv iota beta.
    change (Ascii.eqb "0" "0") with true. cbv iota.
    rewrite Hdate, Hzero. reflexivity.
  - destruct (to_uint_head p) as (c & s & E & Hc & Hc0).
    pose proof (string_of_uint_digits (Pos.to_uint p)) as Hall.
    pose proof (int_of_text_to_uint false p Hlim) as Hval.
    rewrite E in *. destruct (digit_not_sign c Hc) as [Hm Hp].
    unfold parse_number.
    change (String c s ++ rest) with (String c (s ++ rest)). cbv iota beta.
    rewrite Hm, Hp. cbv iota beta.
    pose proof (take_chars_app is_digit _ rest Hall Hdig) as Ht.
    pose proof (skip_chars_app is_digit _ rest Hall Hdig) as Hs.
    change (String c s ++ rest) with (String c (s ++ rest)) in Ht, Hs.
    rewrite Ht, Hs. cbv iota beta.
    rewrite Hdate, Hc0, Hfloat, Hval. reflexivity.
  - destruct (to_uint_head p) as (c & s & E & Hc & Hc0).
    pose proof (string_of_uint_digits (Pos.to_uint p)) as Hall.
    pose proof (int_of_text_to_uint true p Hlim) as Hval.
    rewrite E in *.
    unfold parse_number.
    change (String "-" (String c s) ++ rest)
      with (String "-" (String c s ++ rest)).
    cbv iota beta. change (Ascii.eqb "-" "-") with true. cbv iota beta.
    pose proof (take_chars_app is_digit _ rest Hall Hdig) as Ht.
    pose proof (skip_chars_app is_digit _ rest Hall Hdig) as Hs.
    rewrite Ht, Hs.
    change (String c s ++ rest) with (String c (s ++ rest)). cbv iota beta.
    change (negb true) with false. cbv iota beta.
    rewrite Hc0, Hfloat, Hval. reflexivity.
Qed.

Lemma parse_value_number (fuel : nat) (c : ascii) (s : string) :
  is_digit c || Ascii.eqb c "-" = true ->
  parse_value (S fuel) (String c s) = parse_number (String c s).
Proof.
  destruct c as [[] [] [] [] [] [] [] []]; vm_compute is_digit;
    intros H; try discriminate H; reflexivity.
Qed.

Lemma decimal_text_initial (n : Z) :
  exists c s, Py.decimal_text n = String c s
              /\ is_digit c || Ascii.eqb c "-" = true.
Proof.
  pose proof (decimal_text_cases n) as Hn.
  destruct n as [|p|p]; rewrite Hn.
  - now eexists _, _.
  - destruct (to_uint_head p) as (c & s & E & Hc & _).
    exists c, s. now rewrite E, Hc.
  - now eexists _, _.
Qed.

(** *** Values *)

Lemma value_text_list (items : list pyobj) :
  value_text (PyList items)
  = String "[" (Py.join ", " (map value_text items) ++ "]").
Proof. reflexivity. Qed.

Lemma value_text_dict (items : dict) :
  value_text (PyDict items)
  = String "{" (Py.join ", " (map render_pair items) ++ "}").
Proof. reflexivity. Qed.

Lemma value_text_str (s : string) :
  value_text (PyStr s)
  = String dquote (escape_with escape_value_char s ++ s_dquote).
Proof.
  change (value_text (PyStr s))
    with (s_dquote
          ++ Py.replace newline (s_backslash ++ "n")
               (Py.replace dquote (s_backslash ++ s_dquote)
                  (Py.replace backslash (s_backslash ++ s_backslash) s))
          ++ s_dquote).
  now rewrite value_replaces_escape.
Qed.

Lemma value_text_initial (v : pyobj) :
  clean_value v = true ->
  exists c s, value_text v = String c s /\ value_initial c = true.
Proof.
  destruct v as [b|n|r|s|items|items|s]; intros Hv; try discriminate Hv.
  - destruct b; now eexists _, _.
  - destruct (decimal_text_initial n) as (c & s & E & Hc).
    exists c, s. split; [exact E |]. unfold value_initial.
    apply orb_true_iff in Hc. destruct Hc as [-> | ->]; [reflexivity |].
    now rewrite orb_true_r.
  - rewrite value_text_str. now eexists _, _.
  - rewrite value_text_list. now eexists _, _.
  - rewrite value_text_dict. now eexists _, _.
Qed.

Lemma value_initial_facts (c : ascii) :
  value_initial c = true ->
  TOML_WS_AND_NEWLINE c = false /\ TOML_WS c = false
  /\ Ascii.eqb "#" c = false /\ Ascii.eqb c "]" = false
  /\ Ascii.eqb c "}" = false /\ Ascii.eqb c "," = false.
Proof.
  destruct c as [[] [] [] [] [] [] [] []]; vm_compute; intros H;
    try discriminate H; repeat split.
Qed.

Lemma skip_comments_and_array_ws_stop (s : string) :
  next_char_in TOML_WS_AND_NEWLINE s = false ->
  next_char_in (Ascii.eqb "#") s = false ->
  skip_comments_and_array_ws s = Ok s.
Proof.
  intros Hws Hc. unfold skip_comments_and_array_ws.
  now rewrite (skip_chars_stop _ _ Hws), Hc.
Qed.

Lemma prefix_cons (a c : ascii) (p s : string) :
  String.prefix (String a p) (String c s)
  = Ascii.eqb a c && String.prefix p s.
Proof.
  simpl. destruct (ascii_dec a c) as [->|Hne].
  - now rewrite Ascii.eqb_refl.
  - apply Ascii.eqb_neq in Hne. now rewrite Hne.
Qed.

(** One step of each function of the parser. *)
Lemma parse_value_S (fuel : nat) (char : ascii) (rest : string) :
  parse_value (S fuel) (String char rest)
  = let src := String char rest in
    if Ascii.eqb char dquote then
      if startswith three_quotes src then OutOfModel
      else pbind (parse_one_line_basic_str src)
             (fun x => let '(s, src) := x in Ok (PyStr s, src))
    else if Ascii.eqb char "'" then OutOfModel
    else if startswith "true" src then Ok (PyBool true, drop 4 src)
    else if startswith "false" src then Ok (PyBool false, drop 5 src)
    else if Ascii.eqb char "[" then
      pbind (skip_comments_and_array_ws rest)
        (fun src =>
           match after_char "]" src with
           | Some rest => Ok (PyList [], rest)
           | None => parse_array_loop fuel src []
           end)
    else if Ascii.eqb char "{" then
      let src := skip_chars TOML_WS rest in
      match after_char "}" src with
      | Some rest => Ok (PyDict [], rest)
      | None => parse_inline_table_loop fuel src [] []
      end
    else parse_number src.
Proof. reflexivity. Qed.

Lemma parse_array_loop_S (fuel : nat) (src : string) (array : list pyobj) :
  parse_array_loop (S fuel) src array
  = pbind (parse_value fuel src)
      (fun x =>
         let '(val, src) := x in
         let array := (array ++ [val])%list in
         pbind (skip_comments_and_array_ws src)
           (fun src =>
              match after_char "]" src with
              | Some rest => Ok (PyList array, rest)
              | None =>
                  match after_char "," src with
                  | None => TOMLDecodeError "Unclosed array"
                  | Some rest =>
                      pbind (skip_comments_and_array_ws rest)
                        (fun src =>
                           match after_char "]" src with
                           | Some rest => Ok (PyList array, rest)
                           | None => parse_array_loop fuel src array
                           end)
                  end
              end)).
Proof. reflexivity. Qed.

Lemma parse_inline_table_loop_S (fuel : nat) (src : string)
    (nested_dict : dict) (flags : Flags) :
  parse_inline_table_loop (S fuel) src nested_dict flags
  = pbind (parse_key_value_pair (parse_value fuel) src)
      (fun x =>
         let '(key, value, src) := x in
         let key_parent := removelast key in
         let key_stem := last key EmptyString in
         if flags_is_ flags key FROZEN
         then TOMLDecodeError "Cannot mutate immutable namespace"
         else
           pbind
             (with_nest key_parent
                (fun nest =>
                   if Py.dict_contains key_stem nest
                   then TOMLDecodeError "Duplicate inline table key"
                   else Ok (Py.dict_set key_stem value nest))
                nested_dict)
             (fun nested_dict =>
                let src := skip_chars TOML_WS src in
                match after_char "}" src with
                | Some rest => Ok (PyDict nested_dict, rest)
                | None =>
                    match after_char "," src with
                    | None => TOMLDecodeError "Unclosed inline table"
                    | Some rest =>
                        let flags :=
                          if is_dict_or_list value
                          then flags_set key FROZEN true flags else flags in
                        let src := skip_chars TOML_WS rest in
                        parse_inline_table_loop fuel src nested_dict flags
                    end
                end)).
Proof. reflexivity. Qed.

Lemma parse_value_bool (fuel : nat) (b : bool) (rest : string) :
  parse_value (S fuel) (value_text (PyBool b) ++ rest) = Ok (PyBool b, rest).
Proof.
  destruct b.
  - change (value_text (PyBool true) ++ rest)
      with (String "t" ("rue" ++ rest)).
    rewrite parse_value_S. cbv zeta.
    change (Ascii.eqb "t" dquote) with false.
    change (Ascii.eqb "t" "'") with false. cbv iota.
    change (String "t" ("rue" ++ rest)) with ("true" ++ rest).
    unfold startswith. now rewrite prefix_app.
  - change (value_text (PyBool false) ++ rest)
      with (String "f" ("alse" ++ rest)).
    rewrite parse_value_S. cbv zeta.
    change (Ascii.eqb "f" dquote) with false.
    change (Ascii.eqb "f" "'") with false. cbv iota.
    unfold startswith at 1. rewrite prefix_cons.
    change (Ascii.eqb "t" "f") with false. cbn [andb].
    change (String "f" ("alse" ++ rest)) with ("false" ++ rest).
    unfold startswith. now rewrite prefix_app.
Qed.

Lemma parse_value_int (fuel : nat) (n : Z) (rest : string) :
  Py.digits_allowed (Py.digits n) = true ->
  ends_value rest = true ->
  parse_value (S fuel) (value_text (PyInt n) ++ rest) = Ok (PyInt n, rest).
Proof.
  intros Hlim Hend. change (value_text (PyInt n)) with (Py.decimal_text n).
  destruct (decimal_text_initial n) as (c & s & E & Hc).
  rewrite <- (parse_number_decimal_text n rest Hlim Hend). rewrite E.
  change (String c s ++ rest) with (String c (s ++ rest)).
  now apply parse_value_number.
Qed.

Lemma escape_value_char_head (c : ascii) :
  exists c' t,
    escape_value_char c = String c' t /\ Ascii.eqb dquote c' = false.
Proof.
  unfold escape_value_char.
  destruct (Ascii.eqb_spec c backslash); [now eexists _, _ |].
  destruct (Ascii.eqb_spec c dquote) as [|Hq]; [now eexists _, _ |].
  destruct (Ascii.eqb_spec c newline); [now eexists _, _ |].
  exists c, "". split; [reflexivity |].
  apply Ascii.eqb_neq. congruence.
Qed.

Lemma ends_value_not_dquote (c : ascii) (rest : string) :
  ends_value (String c rest) = true -> Ascii.eqb dquote c = false.
Proof.
  destruct c as [[] [] [] [] [] [] [] []]; vm_compute; intros H;
    try discriminate H; reflexivity.
Qed.

Lemma not_three_quotes (s rest : string) :
  ends_value rest = true ->
  startswith three_quotes
    (String dquote (escape_with escape_value_char s ++ String dquote rest))
  = false.
Proof.
  intros Hend. unfold startswith, three_quotes.
  rewrite prefix_cons. change (Ascii.eqb dquote dquote) with true.
  cbn [andb]. destruct s as [|c s].
  - cbn [escape_with append]. rewrite prefix_cons.
    change (Ascii.eqb dquote dquote) with true. cbn [andb].
    destruct rest as [|c rest]; [reflexivity |].
    rewrite prefix_cons, (ends_value_not_dquote c rest Hend). reflexivity.
  - cbn [escape_with].
    destruct (escape_value_char_head c) as (c' & t & -> & Hc').
    change ((String c' t ++ ?x) ++ ?y) with (String c' ((t ++ x) ++ y)).
    now rewrite prefix_cons, Hc'.
Qed.

Lemma parse_value_str (fuel : nat) (s rest : string) :
  clean_text s = true -> ends_value rest = true ->
  parse_value (S fuel) (value_text (PyStr s) ++ rest) = Ok (PyStr s, rest).
Proof.
  intros Hs Hend. rewrite value_text_str.
  change (String dquote (escape_with escape_value_char s ++ s_dquote) ++ rest)
    with (String dquote
            ((escape_with escape_value_char s ++ s_dquote) ++ rest)).
  rewrite str_app_assoc. change (s_dquote ++ rest) with (String dquote rest).
  rewrite parse_value_S. cbv zeta.
  change (Ascii.eqb dquote dquote) with true. cbv iota.
  rewrite (not_three_quotes s rest Hend).
  unfold parse_one_line_basic_str.
  now rewrite (parse_basic_str_value_escaped s Hs).
Qed.

(** *** Arrays *)

Lemma join_cons2 (sep x y : string) (rest : list string) :
  Py.join sep (x :: y :: rest) = x ++ sep ++ Py.join sep (y :: rest).
Proof. reflexivity. Qed.

Lemma join_initial {A} (render : A -> string) (p : ascii -> bool)
    (x : A) (xs : list A) :
  (exists c s, render x = String c s /\ p c = true) ->
  exists c s, Py.join ", " (map render (x :: xs)) = String c s /\ p c = true.
Proof.
  intros (c & s & E & Hc). destruct xs as [|y ys].
  - exists c, s. now split.
  - cbn [map]. rewrite join_cons2, E. now eexists _, _.
Qed.

Lemma parse_array_loop_items (items : list pyobj) :
  Forall (fun x => clean_value x = true /\ reads_back x) items ->
  items <> [] ->
  forall fuel rest array,
    S (String.length (Py.join ", " (map value_text items))) < fuel ->
    parse_array_loop fuel
      (Py.join ", " (map value_text items) ++ String "]" rest) array
    = Ok (PyList (array ++ items), rest).
Proof.
  induction items as [|x xs IH]; intros Hall Hne fuel rest array Hfuel;
    [congruence |].
  inversion Hall as [|? ? [Hx Hback] Hxs]; subst.
  destruct fuel as [|fuel]; [lia |].
  rewrite parse_array_loop_S.
  destruct xs as [|y ys].
  - cbn [map Py.join] in *.
    rewrite Hback by (try reflexivity; lia). cbn [pbind].
    rewrite skip_comments_and_array_ws_stop by reflexivity.
    reflexivity.
  - cbn [map] in *. rewrite join_cons2 in *.
    rewrite !str_app_assoc.
    rewrite !str_length_app in Hfuel. cbn [String.length] in Hfuel.
    rewrite Hback by (try reflexivity; lia). cbn [pbind].
    change (", " ++ ?x) with (String "," (String " " x)).
    rewrite skip_comments_and_array_ws_stop by reflexivity.
    cbn [pbind after_char].
    change (Ascii.eqb "," "]") with false.
    change (Ascii.eqb "," ",") with true. cbv iota.
    inversion Hxs as [|? ? [Hy _] _]; subst.
    destruct (join_initial value_text value_initial y ys
                (value_text_initial y Hy)) as (c & s & E & Hc).
    cbn [map] in E.
    destruct (value_initial_facts c Hc) as (Hws & _ & Hhash & Hrb & _).
    unfold skip_comments_and_array_ws. cbn [skip_chars].
    change (TOML_WS_AND_NEWLINE " ") with true. cbv iota.
    rewrite E.
    change (String c s ++ ?x) with (String c (s ++ x)).
    cbn [skip_chars]. rewrite Hws. cbn [next_char_in]. rewrite Hhash.
    cbn [pbind after_char]. rewrite Hrb.
    change (String c (s ++ ?x)) with (String c s ++ x). rewrite <- E.
    rewrite (IH Hxs) by (try discriminate; lia).
    now rewrite <- List.app_assoc.
Qed.

(** *** Key and value pairs, inline tables *)

Lemma parse_key_value_pair_line
    (pv : string -> parsed (pyobj * string)) (k : string) (v : pyobj)
    (tail : string) :
  clean_key k = true -> clean_value v = true ->
  pv (value_text v ++ tail) = Ok (v, tail) ->
  parse_key_value_pair pv (_toml_key k ++ " = " ++ value_text v ++ tail)
  = Ok ([k], v, tail).
Proof.
  intros Hk Hv Hpv. unfold parse_key_value_pair.
  change (" = " ++ ?x) with (String " " (String "=" (String " " x))).
  rewrite parse_key__toml_key by (assumption || reflexivity).
  cbn [pbind skip_chars]. change (TOML_WS " ") with true.
  change (TOML_WS "=") with false. cbv iota.
  cbn [after_char]. change (Ascii.eqb "=" "=") with true. cbv iota.
  cbn [skip_chars]. change (TOML_WS " ") with true. cbv iota.
  destruct (value_text_initial v Hv) as (c & s & E & Hc).
  destruct (value_initial_facts c Hc) as (_ & Hws & _).
  rewrite skip_chars_stop
    by (rewrite E; cbn [append next_char_in]; exact Hws).
  now rewrite Hpv.
Qed.

Lemma inline_flags_fresh (flags : Flags) (nested : dict) (k : string) :
  inline_flags_ok flags nested -> ~ In k (Py.dict_keys nested) ->
  flags_is_ flags [k] FROZEN = false.
Proof.
  intros Hok Hk. unfold flags_is_.
  induction Hok as [|e flags (k' & -> & Hin) _ IH]; [reflexivity |].
  cbn [existsb]. rewrite IH, orb_false_r.
  cbn [flag_eqb key_eqb proper_prefix andb].
  assert (Hne : String.eqb k' k = false)
    by (apply String.eqb_neq; congruence).
  now rewrite Hne.
Qed.

Lemma inline_flags_step (flags : Flags) (nested : dict) (k : string)
    (v : pyobj) :
  inline_flags_ok flags nested ->
  inline_flags_ok
    (if is_dict_or_list v then flags_set [k] FROZEN true flags else flags)
    (nested ++ [(k, v)])%list.
Proof.
  intros Hok.
  assert (Hold : inline_flags_ok flags (nested ++ [(k, v)])%list).
  { unfold inline_flags_ok in *. eapply Forall_impl; [| exact Hok].
    intros e (k' & -> & Hin). exists k'. split; [reflexivity |].
    rewrite dict_keys_app. apply in_or_app. now left. }
  destruct (is_dict_or_list v); [| exact Hold].
  constructor; [| exact Hold].
  exists k. split; [reflexivity |].
  rewrite dict_keys_app. apply in_or_app. right. now left.
Qed.

Lemma key_initial_more (c : ascii) :
  key_initial c = true ->
  Ascii.eqb c "}" = false /\ Ascii.eqb c "]" = false.
Proof.
  destruct c as [[] [] [] [] [] [] [] []]; vm_compute; intros H;
    try discriminate H; repeat split.
Qed.

Lemma render_pair_initial (k : string) (v : pyobj) :
  clean_key k = true ->
  exists c s, render_pair (k, v) = String c s /\ key_initial c = true.
Proof.
  intros Hk. destruct (_toml_key_initial k Hk) as (c & s & E & Hc).
  unfold render_pair. rewrite E. now eexists _, _.
Qed.

Lemma parse_inline_table_loop_items (items : dict) :
  Forall (fun kv => clean_key (fst kv) = true
                    /\ clean_value (snd kv) = true
                    /\ reads_back (snd kv)) items ->
  items <> [] ->
  forall fuel rest nested flags,
    NoDup (Py.dict_keys nested ++ Py.dict_keys items) ->
    inline_flags_ok flags nested ->
    S (String.length (Py.join ", " (map render_pair items))) < fuel ->
    parse_inline_table_loop fuel
      (Py.join ", " (map render_pair items) ++ String "}" rest) nested flags
    = Ok (PyDict (nested ++ items), rest).
Proof.
  induction items as [|[k v] xs IH];
    intros Hall Hne fuel rest nested flags Hnd Hflags Hfuel; [congruence |].
  inversion Hall as [|? ? (Hk & Hv & Hback) Hxs]; subst.
  cbn [fst snd] in Hk, Hv, Hback.
  destruct fuel as [|fuel]; [lia |].
  assert (Hfresh : ~ In k (Py.dict_keys nested)).
  { cbn [Py.dict_keys map fst] in Hnd. apply NoDup_remove_2 in Hnd.
    intros Hin. apply Hnd. apply in_or_app. now left. }
  assert (Hget : Py.dict_contains k nested = false).
  { unfold Py.dict_contains. apply dict_get_None in Hfresh.
    now rewrite Hfresh. }
  rewrite parse_inline_table_loop_S.
  destruct xs as [|[k' v'] ys].
  - cbn [map Py.join] in *. unfold render_pair in *.
    rewrite !str_app_assoc.
    rewrite !str_length_app in Hfuel.
    rewrite parse_key_value_pair_line
      by first [assumption | apply Hback; [reflexivity | lia]].
    cbn [pbind removelast last with_nest].
    rewrite (inline_flags_fresh flags nested k Hflags Hfresh), Hget.
    cbn [pbind skip_chars]. change (TOML_WS "}") with false. cbv iota.
    cbn [after_char]. change (Ascii.eqb "}" "}") with true. cbv iota.
    now rewrite dict_set_fresh.
  - cbn [map] in *. rewrite join_cons2 in *.
    unfold render_pair at 1. unfold render_pair at 1 in Hfuel.
    rewrite !str_app_assoc.
    rewrite !str_length_app in Hfuel. cbn [String.length] in Hfuel.
    change (", " ++ ?x) with (String "," (String " " x)).
    rewrite parse_key_value_pair_line
      by first [assumption | apply Hback; [reflexivity | lia]].
    cbn [pbind removelast last with_nest].
    rewrite (inline_flags_fresh flags nested k Hflags Hfresh), Hget.
    cbn [pbind skip_chars]. change (TOML_WS ",") with false. cbv iota.
    cbn [after_char]. change (Ascii.eqb "," "}") with false.
    change (Ascii.eqb "," ",") with true. cbv iota.
    cbn [skip_chars]. change (TOML_WS " ") with true. cbv iota.
    inversion Hxs as [|? ? (Hk' & _) _]; subst. cbn [fst] in Hk'.
    destruct (join_initial render_pair key_initial (k', v') ys
                (render_pair_initial k' v' Hk')) as (c & s & E & Hc).
    cbn [map] in E.
    destruct (key_initial_facts c Hc) as (_ & Hws & _).
    rewrite skip_chars_stop
      by (rewrite E; cbn [append next_char_in]; exact Hws).
    rewrite dict_set_fresh by assumption.
    rewrite (IH Hxs); [now rewrite <- List.app_assoc | discriminate | |
                       now apply inline_flags_step | lia].
    rewrite dict_keys_app, <- List.app_assoc. exact Hnd.
Qed.

(** Every clean value whose integers are within the conversion limit is
    read back from its text. *)
Lemma parse_value_value_text (v : pyobj) :
  clean_value v = true -> ints_within_limit v = true -> reads_back v.
Proof.
  induction v as [b|n|r|s|items IH|items IH|s] using pyobj_nested_ind;
    intros Hv Hw fuel rest Hend Hfuel; try discriminate Hv;
    (destruct fuel as [|fuel]; [lia |]).
  - apply parse_value_bool.
  - now apply parse_value_int.
  - now apply parse_value_str.
  - cbn [clean_value] in Hv. cbn [ints_within_limit] in Hw.
    assert (Hall : Forall (fun x => clean_value x = true /\ reads_back x)
                     items).
    { rewrite forallb_forall in Hv, Hw. rewrite Forall_forall in *.
      intros x Hx. split; [now apply Hv | apply (IH x Hx); auto]. }
    rewrite value_text_list in *.
    cbn [String.length] in Hfuel. rewrite str_length_app in Hfuel.
    cbn [String.length] in Hfuel.
    change (String "[" (?x ++ "]") ++ rest)
      with (String "[" ((x ++ "]") ++ rest)).
    rewrite str_app_assoc. change ("]" ++ rest) with (String "]" rest).
    rewrite parse_value_S. cbv zeta.
    change (Ascii.eqb "[" dquote) with false.
    change (Ascii.eqb "[" "'") with false. cbv iota.
    unfold startswith. rewrite !prefix_cons.
    change (Ascii.eqb "t" "[") with false.
    change (Ascii.eqb "f" "[") with false. cbn [andb].
    change (Ascii.eqb "[" "[") with true. cbv iota.
    destruct items as [|x xs].
    + reflexivity.
    + inversion Hall as [|? ? [Hx _] _]; subst.
      destruct (join_initial value_text value_initial x xs
                  (value_text_initial x Hx)) as (c & s & E & Hc).
      destruct (value_initial_facts c Hc) as (Hws & _ & Hhash & Hrb & _).
      rewrite skip_comments_and_array_ws_stop
        by (rewrite E; cbn [append next_char_in]; assumption).
      cbn [pbind]. rewrite E at 1.
      change (String c s ++ ?x) with (String c (s ++ x)).
      cbn [after_char]. rewrite Hrb.
      rewrite (parse_array_loop_items (x :: xs) Hall)
        by (try discriminate; lia).
      reflexivity.
  - cbn [clean_value] in Hv. apply andb_true_iff in Hv.
    destruct Hv as [Huniq Hv]. cbn [ints_within_limit] in Hw.
    assert (Hall : Forall (fun kv => clean_key (fst kv) = true
                                     /\ clean_value (snd kv) = true
                                     /\ reads_back (snd kv)) items).
    { rewrite forallb_forall in Hv, Hw. rewrite Forall_forall in *.
      intros [k x] Hx. specialize (Hv _ Hx). specialize (Hw _ Hx).
      cbn beta iota in Hv, Hw.
      apply andb_true_iff in Hv. destruct Hv as [Hk Hcv].
      split; [exact Hk | split; [exact Hcv | now apply (IH _ Hx)]]. }
    rewrite value_text_dict in *.
    cbn [String.length] in Hfuel. rewrite str_length_app in Hfuel.
    cbn [String.length] in Hfuel.
    change (String "{" (?x ++ "}") ++ rest)
      with (String "{" ((x ++ "}") ++ rest)).
    rewrite str_app_assoc. change ("}" ++ rest) with (String "}" rest).
    rewrite parse_value_S. cbv zeta.
    change (Ascii.eqb "{" dquote) with false.
    change (Ascii.eqb "{" "'") with false. cbv iota.
    unfold startswith. rewrite !prefix_cons.
    change (Ascii.eqb "t" "{") with false.
    change (Ascii.eqb "f" "{") with false. cbn [andb].
    change (Ascii.eqb "{" "[") with false.
    change (Ascii.eqb "{" "{") with true. cbv iota.
    destruct items as [|[k x] xs].
    + reflexivity.
    + inversion Hall as [|? ? (Hk & _) _]; subst. cbn [fst] in Hk.
      destruct (join_initial render_pair key_initial (k, x) xs
                  (render_pair_initial k x Hk)) as (c & s & E & Hc).
      destruct (key_initial_facts c Hc) as (_ & Hws & _).
      destruct (key_initial_more c Hc) as (Hrb & _).
      rewrite skip_chars_stop
        by (rewrite E; cbn [append next_char_in]; assumption).
      rewrite E at 1.
      change (String c s ++ ?x) with (String c (s ++ x)).
      cbn [after_char]. rewrite Hrb.
      rewrite (parse_inline_table_loop_items ((k, x) :: xs) Hall);
        [reflexivity | discriminate | | constructor | lia].
      now apply unique_keys_NoDup.
Qed.

(** *** Statements *)

Lemma dict_get_app_last {V} (d : list (string * V)) (k : string) (v : V) :
  ~ In k (Py.dict_keys d) -> Py.dict_get k (d ++ [(k, v)])%list = Some v.
Proof.
  induction d as [|[k' v'] d IH]; simpl; intros H.
  - now rewrite String.eqb_refl.
  - destruct (String.eqb_spec k k') as [->|Hne]; [| apply IH; tauto].
    exfalso. apply H. now left.
Qed.

Lemma dict_set_app_last {V} (d : list (string * V)) (k : string) (v v' : V) :
  ~ In k (Py.dict_keys d) ->
  Py.dict_set k v' (d ++ [(k, v)])%list = (d ++ [(k, v')])%list.
Proof.
  induction d as [|[k0 v0] d IH]; simpl; intros H.
  - now rewrite String.eqb_refl.
  - destruct (String.eqb_spec k k0) as [->|Hne].
    + exfalso. apply H. now left.
    + rewrite IH; [reflexivity | tauto].
Qed.

Lemma top_flags_not_frozen (flags : Flags) (data : dict) (name : string) :
  top_flags_ok flags data -> flags_is_ flags [name] FROZEN = false.
Proof.
  intros Hok. unfold flags_is_.
  induction Hok as [|e flags (k & _ & [-> | (k2 & ->)]) _ IH];
    [reflexivity | |]; cbn [existsb]; rewrite IH, orb_false_r.
  - reflexivity.
  - cbn [flag_eqb key_eqb proper_prefix andb]. now rewrite !andb_false_r.
Qed.

Lemma top_flags_not_explicit (flags : Flags) (data : dict) (name : string) :
  top_flags_ok flags data -> ~ In name (Py.dict_keys data) ->
  flags_is_ flags [name] EXPLICIT_NEST = false.
Proof.
  intros Hok Hfresh. unfold flags_is_.
  induction Hok as [|e flags (k & Hin & [-> | (k2 & ->)]) _ IH];
    [reflexivity | |]; cbn [existsb]; rewrite IH, orb_false_r.
  - cbn [flag_eqb key_eqb proper_prefix andb].
    assert (Hne : String.eqb k name = false)
      by (apply String.eqb_neq; congruence).
    now rewrite Hne.
  - reflexivity.
Qed.

Lemma top_flags_mono (flags : Flags) (data data' : dict) :
  (forall k, In k (Py.dict_keys data) -> In k (Py.dict_keys data')) ->
  top_flags_ok flags data -> top_flags_ok flags data'.
Proof.
  intros Hsub Hok. unfold top_flags_ok in *.
  eapply Forall_impl; [| exact Hok].
  intros e (k & Hin & He). exists k. auto.
Qed.

Lemma create_dict_rule_header (name tail : string) (done : dict)
    (flags : Flags) :
  clean_key name = true ->
  ~ In name (Py.dict_keys done) ->
  top_flags_ok flags done ->
  create_dict_rule (String "[" (_toml_key name ++ String "]" tail))
    (mkOutput done flags)
  = Ok (tail, [name],
        mkOutput (done ++ [(name, PyDict [])])%list
          (flags_set [name] EXPLICIT_NEST false flags)).
Proof.
  intros Hk Hfresh Hflags. unfold create_dict_rule. cbn [drop].
  destruct (_toml_key_initial name Hk) as (c & s & E & Hc).
  destruct (key_initial_facts c Hc) as (_ & Hws & _).
  rewrite skip_chars_stop
    by (rewrite E; cbn [append next_char_in]; exact Hws).
  rewrite parse_key__toml_key by (assumption || reflexivity).
  cbn [pbind skip_chars]. change (TOML_WS "]") with false. cbv iota.
  cbn [Tomllib.flags Tomllib.data].
  rewrite (top_flags_not_explicit flags done name Hflags Hfresh).
  rewrite (top_flags_not_frozen flags done name Hflags).
  cbn [orb with_nest].
  apply dict_get_None in Hfresh as Hget. rewrite Hget. cbn [pbind].
  rewrite dict_set_fresh by assumption.
  cbn [after_char]. change (Ascii.eqb "]" "]") with true. reflexivity.
Qed.

Lemma key_value_rule_line
    (pv : string -> parsed (pyobj * string)) (name k : string) (v : pyobj)
    (tail : string) (done acc : dict) (flags : Flags) :
  clean_key k = true -> clean_value v = true -> pv_reads pv v ->
  ~ In name (Py.dict_keys done) ->
  ~ In k (Py.dict_keys acc) ->
  top_flags_ok flags (done ++ [(name, PyDict acc)])%list ->
  exists flags',
    top_flags_ok flags' (done ++ [(name, PyDict (acc ++ [(k, v)]))])%list
    /\ key_value_rule pv (render_line (k, v) ++ tail)
         (mkOutput (done ++ [(name, PyDict acc)])%list flags) [name]
       = Ok (String newline tail,
             mkOutput (done ++ [(name, PyDict (acc ++ [(k, v)]))])%list flags').
Proof.
  intros Hk Hv Hpv Hname Hfresh Hflags.
  exists (if is_dict_or_list v
          then flags_set [name; k] FROZEN true flags else flags).
  assert (Hkeys : forall d d' : pyobj,
             Py.dict_keys (done ++ [(name, d)])%list
             = Py.dict_keys (done ++ [(name, d')])%list).
  { intros d d'. now rewrite !dict_keys_app. }
  split.
  - assert (Hold : top_flags_ok flags
                     (done ++ [(name, PyDict (acc ++ [(k, v)]))])%list).
    { eapply top_flags_mono; [| exact Hflags].
      intros k0. now rewrite (Hkeys (PyDict acc) (PyDict (acc ++ [(k, v)]))). }
    destruct (is_dict_or_list v); [| exact Hold].
    constructor; [| exact Hold].
    exists name. split; [| right; now exists k].
    rewrite dict_keys_app. apply in_or_app. right. now left.
  - unfold key_value_rule, render_line. cbn [fst snd].
    rewrite !str_app_assoc.
    change (s_newline ++ tail) with (String newline tail).
    rewrite parse_key_value_pair_line
      by first [assumption | now apply Hpv].
    cbn [pbind removelast last Tomllib.flags Tomllib.data].
    change ([name] ++ [])%list with [name].
    change ([name] ++ [k])%list with [name; k].
    rewrite (top_flags_not_frozen flags _ name Hflags).
    cbn [with_nest]. rewrite (dict_get_app_last done name _ Hname).
    cbn [with_nest].
    assert (Hget : Py.dict_contains k acc = false).
    { unfold Py.dict_contains. apply dict_get_None in Hfresh.
      now rewrite Hfresh. }
    rewrite Hget. cbn [pbind].
    rewrite (dict_set_fresh k v acc Hfresh).
    rewrite (dict_set_app_last done name _ _ Hname).
    reflexivity.
Qed.

Lemma loads_loop_S (fuel : nat) (pv : string -> parsed (pyobj * string))
    (src : string) (out : Output) (header : Key) :
  loads_loop (S fuel) pv src out header
  = let src := skip_chars TOML_WS src in
    match src with
    | EmptyString => Ok (data out)
    | String char rest =>
        if Ascii.eqb char newline then loads_loop fuel pv rest out header
        else
          pbind
            (if KEY_INITIAL_CHARS char then
               pbind (key_value_rule pv src out header)
                 (fun x => let '(src, out) := x in
                           Ok (skip_chars TOML_WS src, out, header))
             else if Ascii.eqb char "[" then
               if next_char_in (Ascii.eqb "[") rest then OutOfModel
               else
                 pbind (create_dict_rule src out)
                   (fun x => let '(src, header, out) := x in
                             Ok (skip_chars TOML_WS src, out, header))
             else if Ascii.eqb char "#" then OutOfModel
             else TOMLDecodeError "Invalid statement")
            (fun x =>
               let '(src, out, header) := x in
               match src with
               | EmptyString => Ok (data out)
               | String char rest =>
                   if Ascii.eqb char "#" then OutOfModel
                   else if Ascii.eqb char newline
                   then loads_loop fuel pv rest out header
                   else
                     TOMLDecodeError
                       "Expected newline or end of document after a statement"
               end)
    end.
Proof. reflexivity. Qed.

(** The lines of a table, one turn of the loop each. *)
Lemma loads_loop_lines (pv : string -> parsed (pyobj * string))
    (name : string) (done : dict) (items : dict) :
  Forall (fun kv => clean_key (fst kv) = true
                    /\ clean_value (snd kv) = true
                    /\ pv_reads pv (snd kv)) items ->
  ~ In name (Py.dict_keys done) ->
  forall (acc : dict) (flags : Flags) (fuel : nat) (tail : string),
    NoDup (Py.dict_keys acc ++ Py.dict_keys items) ->
    top_flags_ok flags (done ++ [(name, PyDict acc)])%list ->
    exists flags',
      top_flags_ok flags' (done ++ [(name, PyDict (acc ++ items))])%list
      /\ loads_loop (length items + fuel) pv
           (concat_all (map render_line items) ++ tail)
           (mkOutput (done ++ [(name, PyDict acc)])%list flags) [name]
         = loads_loop fuel pv tail
             (mkOutput (done ++ [(name, PyDict (acc ++ items))])%list flags')
             [name].
Proof.
  intros Hall Hname.
  induction items as [|[k v] items IH]; intros acc flags fuel tail Hnd Hflags.
  - exists flags. rewrite List.app_nil_r. now split.
  - inversion Hall as [|? ? (Hk & Hv & Hpv) Hrest]; subst.
    cbn [fst snd] in Hk, Hv, Hpv.
    assert (Hfresh : ~ In k (Py.dict_keys acc)).
    { cbn [Py.dict_keys map fst] in Hnd. apply NoDup_remove_2 in Hnd.
      intros Hin. apply Hnd. apply in_or_app. now left. }
    destruct (key_value_rule_line pv name k v
                (concat_all (map render_line items) ++ tail)
                done acc flags Hk Hv Hpv Hname Hfresh Hflags)
      as (flags1 & Hflags1 & Hrule).
    destruct (IH Hrest (acc ++ [(k, v)])%list flags1 fuel tail)
      as (flags' & Hflags' & Hloop).
    { rewrite dict_keys_app, <- List.app_assoc. exact Hnd. }
    { exact Hflags1. }
    exists flags'. rewrite <- List.app_assoc in Hflags', Hloop.
    change ([(k, v)] ++ items)%list with ((k, v) :: items) in Hflags', Hloop.
    split; [exact Hflags' |]. rewrite <- Hloop.
    cbn [length plus map concat_all]. rewrite str_app_assoc.
    rewrite loads_loop_S. cbv zeta.
    destruct (_toml_key_initial k Hk) as (c & s & E & Hc).
    destruct (key_initial_facts c Hc) as (Hinit & Hws & Hnl & _).
    assert (Eline : exists s',
               render_line (k, v)
               ++ concat_all (map render_line items) ++ tail
               = String c s').
    { unfold render_line. cbn [fst snd]. rewrite E. now eexists. }
    destruct Eline as (s' & Eline).
    rewrite skip_chars_stop by (rewrite Eline; exact Hws).
    rewrite Eline at 1. cbv iota. rewrite Hnl, Hinit.
    rewrite Hrule. cbn [pbind skip_chars].
    change (TOML_WS newline) with false. cbv iota.
    change (Ascii.eqb newline "#") with false.
    change (Ascii.eqb newline newline) with true. reflexivity.
Qed.

Lemma loads_loop_section (pv : string -> parsed (pyobj * string))
    (name : string) (items done : dict) (flags : Flags) (header : Key)
    (fuel : nat) (tail : string) :
  clean_key name = true ->
  unique_keys (map fst items) = true ->
  Forall (fun kv => clean_key (fst kv) = true
                    /\ clean_value (snd kv) = true
                    /\ pv_reads pv (snd kv)) items ->
  ~ In name (Py.dict_keys done) ->
  top_flags_ok flags done ->
  exists flags',
    top_flags_ok flags' (done ++ [(name, PyDict items)])%list
    /\ loads_loop (S (S (length items)) + fuel) pv
         (render_section (name, PyDict items) ++ tail)
         (mkOutput done flags) header
       = loads_loop fuel pv tail
           (mkOutput (done ++ [(name, PyDict items)])%list flags') [name].
Proof.
  intros Hk Huniq Hall Hname Hflags.
  destruct (loads_loop_lines pv name done items Hall Hname []
              (flags_set [name] EXPLICIT_NEST false flags)
              (S fuel) (String newline tail))
    as (flags' & Hflags' & Hlines).
  { now apply unique_keys_NoDup. }
  { constructor.
    - exists name. split; [| now left].
      rewrite dict_keys_app. apply in_or_app. right. now left.
    - eapply top_flags_mono; [| exact Hflags].
      intros k0 Hin. rewrite dict_keys_app. apply in_or_app. now left. }
  exists flags'. split; [exact Hflags' |].
  unfold render_section. cbn [fst snd table_items].
  rewrite !str_app_assoc.
  change ("[" ++ ?x) with (String "[" x).
  change ("]" ++ ?x) with (String "]" x).
  repeat change (s_newline ++ ?x) with (String newline x).
  cbn [plus]. rewrite loads_loop_S. cbv zeta. cbn [skip_chars].
  change (TOML_WS "[") with false. cbv iota.
  change (Ascii.eqb "[" newline) with false.
  change (KEY_INITIAL_CHARS "[") with false.
  change (Ascii.eqb "[" "[") with true. cbv iota.
  destruct (_toml_key_initial name Hk) as (c & s & E & Hc).
  destruct (key_initial_facts c Hc) as (_ & _ & _ & _ & Hbr).
  replace (next_char_in (Ascii.eqb "[")
             (_toml_key name
              ++ String "]"
                   (String newline
                      (concat_all (map render_line items)
                       ++ String newline tail))))
    with false by (rewrite E; cbn [append next_char_in]; now rewrite Hbr).
  cbv iota.
  rewrite create_dict_rule_header by assumption.
  cbn [pbind skip_chars]. change (TOML_WS newline) with false. cbv iota.
  change (Ascii.eqb newline "#") with false.
  change (Ascii.eqb newline newline) with true. cbv iota.
  replace (S (length items + fuel)) with (length items + S fuel) by lia.
  rewrite Hlines.
  rewrite loads_loop_S. cbv zeta. cbn [skip_chars].
  change (TOML_WS newline) with false. cbv iota.
  change (Ascii.eqb newline newline) with true. reflexivity.
Qed.

Lemma turns_cons (entry : string * pyobj) (packages : dict) :
  turns (entry :: packages)
  = S (S (length (table_items (snd entry)))) + turns packages.
Proof. reflexivity. Qed.

Lemma loads_loop_packages (pv : string -> parsed (pyobj * string))
    (packages : dict) :
  Forall (entry_reads pv) packages ->
  forall (done : dict) (flags : Flags) (header : Key) (fuel : nat)
         (tail : string),
    NoDup (Py.dict_keys done ++ Py.dict_keys packages) ->
    top_flags_ok flags done ->
    exists flags' header',
      loads_loop (turns packages + fuel) pv
        (render_packages packages ++ tail) (mkOutput done flags) header
      = loads_loop fuel pv tail
          (mkOutput (done ++ packages)%list flags') header'.
Proof.
  induction packages as [|[name table] packages IH];
    intros Hall done flags header fuel tail Hnd Hflags.
  - exists flags, header. now rewrite List.app_nil_r.
  - inversion Hall as [|? ? (Hk & items & Et & Huniq & Hitems) Hrest]; subst.
    cbn [fst snd] in Hk, Et. subst table.
    assert (Hfresh : ~ In name (Py.dict_keys done)).
    { cbn [Py.dict_keys map fst] in Hnd. apply NoDup_remove_2 in Hnd.
      intros Hin. apply Hnd. apply in_or_app. now left. }
    destruct (loads_loop_section pv name items done flags header
                (turns packages + fuel) (render_packages packages ++ tail)
                Hk Huniq Hitems Hfresh Hflags)
      as (flags1 & Hflags1 & Hsec).
    destruct (IH Hrest (done ++ [(name, PyDict items)])%list flags1 [name]
                fuel tail) as (flags' & header' & Hloop).
    { rewrite dict_keys_app, <- List.app_assoc. exact Hnd. }
    { exact Hflags1. }
    exists flags', header'. rewrite <- List.app_assoc in Hloop.
    change ([(name, PyDict items)] ++ packages)%list
      with ((name, PyDict items) :: packages) in Hloop.
    rewrite <- Hloop, <- Hsec.
    rewrite render_packages_cons, str_app_assoc.
    rewrite turns_cons. cbn [snd table_items].
    now rewrite Nat.add_assoc.
Qed.

(** *** The text has no carriage return *)

Lemma replace_crlf_no_cr (s : string) : no_cr s = true -> replace_crlf s = s.
Proof.
  induction s as [|c s IH]; [reflexivity |].
  unfold no_cr. cbn [string_forallb]. intros H.
  apply andb_true_iff in H. destruct H as [Hc Hs].
  apply negb_true_iff in Hc. cbn [replace_crlf]. rewrite Hc. cbn [andb].
  rewrite (IH Hs). now destruct s.
Qed.

Lemma string_forallb_impl (p q : ascii -> bool) (s : string) :
  (forall c, p c = true -> q c = true) ->
  string_forallb p s = true -> string_forallb q s = true.
Proof.
  intros Hpq. induction s as [|c s IH]; cbn [string_forallb]; [auto |].
  intros H. apply andb_true_iff in H. destruct H as [Hc Hs].
  now rewrite (Hpq c Hc), (IH Hs).
Qed.

Lemma no_cr_app (a b : string) : no_cr (a ++ b) = no_cr a && no_cr b.
Proof. apply string_forallb_app. Qed.

Lemma no_cr_escape_with (esc : ascii -> string) (s : string) :
  string_forallb (fun c => no_cr (esc c)) s = true ->
  no_cr (escape_with esc s) = true.
Proof.
  induction s as [|c s IH]; cbn [string_forallb escape_with]; [auto |].
  intros H. apply andb_true_iff in H. destruct H as [Hc Hs].
  now rewrite no_cr_app, Hc, (IH Hs).
Qed.

Lemma not_illegal_escapes (c : ascii) :
  negb (ILLEGAL_BASIC_STR_CHARS c) || Ascii.eqb c newline = true ->
  no_cr (escape_value_char c) = true /\ no_cr (escape_key_char c) = true
  /\ negb (Ascii.eqb c carriage_return) = true.
Proof.
  destruct c as [[] [] [] [] [] [] [] []]; vm_compute; intros H;
    try discriminate H; repeat split.
Qed.

Lemma no_cr_clean_key (key : string) :
  clean_key key = true -> no_cr (_toml_key key) = true.
Proof.
  intros Hclean.
  assert (Hc : forall c, negb (ILLEGAL_BASIC_STR_CHARS c) = true ->
                         negb (ILLEGAL_BASIC_STR_CHARS c)
                         || Ascii.eqb c newline = true)
    by (intros c ->; reflexivity).
  destruct (_BARE_KEY_RE_match key) eqn:Hm.
  - rewrite (_toml_key_bare key (bare_match_clean key Hm Hclean)).
    revert Hclean. apply string_forallb_impl.
    intros c H. now apply not_illegal_escapes, Hc.
  - rewrite (_toml_key_quoted key Hm).
    change (String dquote ?x) with (s_dquote ++ x).
    rewrite !no_cr_app, no_cr_escape_with; [reflexivity |].
    revert Hclean. apply string_forallb_impl.
    intros c H. now apply not_illegal_escapes, Hc.
Qed.

Lemma digit_not_cr (c : ascii) :
  is_digit c = true -> negb (Ascii.eqb c carriage_return) = true.
Proof.
  destruct c as [[] [] [] [] [] [] [] []]; vm_compute; intros H;
    try discriminate H; reflexivity.
Qed.

Lemma no_cr_decimal_text (n : Z) : no_cr (Py.decimal_text n) = true.
Proof.
  pose proof (decimal_text_cases n) as Hn.
  assert (Hd : forall d, no_cr (NilEmpty.string_of_uint d) = true).
  { intros d. generalize (string_of_uint_digits d).
    apply string_forallb_impl, digit_not_cr. }
  destruct n as [|p|p]; rewrite Hn; [reflexivity | apply Hd |].
  change (String "-" ?x) with ("-" ++ x). now rewrite no_cr_app, Hd.
Qed.

Lemma no_cr_join {A} (render : A -> string) (xs : list A) :
  Forall (fun x => no_cr (render x) = true) xs ->
  no_cr (Py.join ", " (map render xs)) = true.
Proof.
  induction xs as [|x [|y ys] IH]; intros H; [reflexivity | |].
  - now inversion H.
  - inversion H as [|? ? Hx Hrest]; subst. cbn [map] in *.
    rewrite join_cons2, !no_cr_app, Hx, (IH Hrest). reflexivity.
Qed.

Lemma no_cr_value_text (v : pyobj) :
  clean_value v = true -> no_cr (value_text v) = true.
Proof.
  induction v as [b|n|r|s|items IH|items IH|s] using pyobj_nested_ind;
    intros Hv; try discriminate Hv.
  - now destruct b.
  - apply no_cr_decimal_text.
  - rewrite value_text_str.
    change (String dquote ?x) with (s_dquote ++ x).
    rewrite !no_cr_app, no_cr_escape_with; [reflexivity |].
    revert Hv. apply string_forallb_impl.
    intros c H. now apply not_illegal_escapes.
  - rewrite value_text_list. change (String "[" ?x) with ("[" ++ x).
    rewrite !no_cr_app, no_cr_join; [reflexivity |].
    cbn [clean_value] in Hv. rewrite forallb_forall in Hv.
    rewrite Forall_forall in *. intros x Hx. apply (IH x Hx), Hv, Hx.
  - rewrite value_text_dict. change (String "{" ?x) with ("{" ++ x).
    rewrite !no_cr_app, no_cr_join; [reflexivity |].
    cbn [clean_value] in Hv. apply andb_true_iff in Hv.
    destruct Hv as [_ Hv]. rewrite forallb_forall in Hv.
    rewrite Forall_forall in *. intros [k x] Hx.
    specialize (Hv _ Hx). cbn beta iota in Hv.
    apply andb_true_iff in Hv. destruct Hv as [Hk Hcv].
    pose proof (IH _ Hx Hcv) as Hx'. cbn [snd] in Hx'.
    unfold render_pair. now rewrite !no_cr_app, (no_cr_clean_key k Hk), Hx'.
Qed.

Lemma no_cr_concat_all {A} (render : A -> string) (xs : list A) :
  Forall (fun x => no_cr (render x) = true) xs ->
  no_cr (concat_all (map render xs)) = true.
Proof.
  induction 1 as [|x xs Hx _ IH]; [reflexivity |].
  cbn [map concat_all]. now rewrite no_cr_app, Hx, IH.
Qed.

(** What [clean_packages] says of each entry. *)
Lemma clean_packages_entries (packages : dict) :
  clean_packages packages = true ->
  NoDup (Py.dict_keys packages)
  /\ Forall (fun entry =>
               clean_key (fst entry) = true
               /\ exists items,
                    snd entry = PyDict items
                    /\ unique_keys (map fst items) = true
                    /\ Forall (fun kv => clean_key (fst kv) = true
                                         /\ clean_value (snd kv) = true)
                         items) packages.
Proof.
  unfold clean_packages. intros H. apply andb_true_iff in H.
  destruct H as [Huniq Hall]. split; [now apply unique_keys_NoDup |].
  rewrite forallb_forall in Hall. rewrite Forall_forall.
  intros [name table] Hin. specialize (Hall _ Hin). cbn [fst snd] in *.
  apply andb_true_iff in Hall. destruct Hall as [Hall Hclean].
  apply andb_true_iff in Hall. destruct Hall as [Hk Hdict].
  split; [exact Hk |]. destruct table; try discriminate Hdict.
  exists items. cbn [clean_value] in Hclean.
  apply andb_true_iff in Hclean. destruct Hclean as [Hu Hitems].
  split; [reflexivity | split; [exact Hu |]].
  rewrite forallb_forall in Hitems. rewrite Forall_forall.
  intros [k v] Hkv. specialize (Hitems _ Hkv). cbn beta iota in Hitems.
  now apply andb_true_iff in Hitems.
Qed.

Lemma no_cr_render_packages (packages : dict) :
  clean_packages packages = true -> no_cr (render_packages packages) = true.
Proof.
  intros H. destruct (clean_packages_entries packages H) as [_ Hall].
  unfold render_packages. apply no_cr_concat_all.
  eapply Forall_impl; [| exact Hall].
  intros [name table] (Hk & items & Et & _ & Hitems).
  cbn [fst snd] in Hk, Et. subst table.
  unfold render_section. cbn [fst snd table_items].
  rewrite !no_cr_app, (no_cr_clean_key name Hk), no_cr_concat_all;
    [reflexivity |].
  eapply Forall_impl; [| exact Hitems].
  intros [k v] [Hkk Hv]. unfold render_line. cbn [fst snd] in *.
  now rewrite !no_cr_app, (no_cr_clean_key k Hkk), (no_cr_value_text v Hv).
Qed.

(** *** Lengths *)

Lemma concat_all_length_In (x : string) (xs : list string) :
  In x xs -> String.length x <= String.length (concat_all xs).
Proof.
  induction xs as [|y ys IH]; [intros [] |].
  cbn [concat_all]. rewrite str_length_app. intros [->|Hin]; [lia |].
  specialize (IH Hin). lia.
Qed.

Lemma concat_all_length_lines (items : dict) :
  length items <= String.length (concat_all (map render_line items)).
Proof.
  induction items as [|kv items IH]; [apply Nat.le_refl |].
  cbn [map concat_all length]. rewrite str_length_app.
  unfold render_line at 1. rewrite !str_length_app.
  cbn [String.length s_newline]. lia.
Qed.

Lemma render_section_length (entry : string * pyobj) :
  S (S (length (table_items (snd entry))))
  <= String.length (render_section entry).
Proof.
  unfold render_section. rewrite !str_length_app.
  pose proof (concat_all_length_lines (table_items (snd entry))).
  cbn [String.length s_newline]. lia.
Qed.

Lemma turns_length (packages : dict) :
  turns packages <= String.length (render_packages packages).
Proof.
  induction packages as [|entry packages IH]; [apply Nat.le_refl |].
  rewrite turns_cons, render_packages_cons, str_length_app.
  pose proof (render_section_length entry). lia.
Qed.

Lemma value_length_in_packages (packages : dict) (name k : string)
    (items : dict) (v : pyobj) :
  In (name, PyDict items) packages -> In (k, v) items ->
  String.length (value_text v) <= String.length (render_packages packages).
Proof.
  intros Hentry Hkv.
  apply Nat.le_trans with (String.length (render_line (k, v))).
  { unfold render_line. cbn [fst snd]. rewrite !str_length_app. lia. }
  apply Nat.le_trans
    with (String.length (render_section (name, PyDict items))).
  { unfold render_section. cbn [fst snd table_items].
    rewrite !str_length_app.
    pose proof (concat_all_length_In (render_line (k, v))
                  (map render_line items) (in_map _ _ _ Hkv)). lia. }
  apply concat_all_length_In. unfold render_packages.
  now apply (in_map render_section).
Qed.

(** *** The round trip *)

Lemma packages_within_limit_In (packages items : dict) (name k : string)
    (v : pyobj) :
  packages_within_limit packages = true ->
  In (name, PyDict items) packages -> In (k, v) items ->
  ints_within_limit v = true.
Proof.
  unfold packages_within_limit. rewrite forallb_forall.
  intros Hall Hentry Hkv. specialize (Hall _ Hentry).
  cbn [snd ints_within_limit] in Hall. rewrite forallb_forall in Hall.
  exact (Hall _ Hkv).
Qed.

(** The text of a clean Filtered Set whose integers are within the
    conversion limit is parsed to that Filtered Set. *)
Lemma loads_render_packages (packages : dict) :
  clean_packages packages = true ->
  packages_within_limit packages = true ->
  loads (render_packages packages) = Ok packages.
Proof.
  intros Hclean Hlim.
  destruct (clean_packages_entries packages Hclean) as [Hnd Hall].
  unfold loads.
  rewrite (replace_crlf_no_cr _ (no_cr_render_packages packages Hclean)).
  cbv zeta.
  set (text := render_packages packages).
  set (pv := parse_value (S (String.length text))).
  assert (Hreads : Forall (entry_reads pv) packages).
  { rewrite Forall_forall in *. intros [name table] Hin.
    destruct (Hall _ Hin) as (Hk & items & Et & Hu & Hitems).
    cbn [fst snd] in *. subst table.
    split; [exact Hk |]. exists items.
    split; [reflexivity | split; [exact Hu |]].
    rewrite Forall_forall in *. intros [k v] Hkv.
    destruct (Hitems _ Hkv) as [Hkk Hv]. cbn [fst snd] in *.
    split; [exact Hkk | split; [exact Hv |]].
    intros rest Hend.
    apply (parse_value_value_text v Hv
             (packages_within_limit_In _ _ _ _ _ Hlim Hin Hkv));
      [exact Hend |].
    pose proof (value_length_in_packages packages name k items v Hin Hkv).
    fold text in H. lia. }
  pose proof (turns_length packages) as Hturns. fold text in Hturns.
  destruct (loads_loop_packages pv packages Hreads [] [] []
              (S (String.length text - turns packages)) "")
    as (flags' & header' & Hloop); [exact Hnd | constructor |].
  rewrite str_app_nil_r in Hloop. fold text in Hloop.
  replace (turns packages + S (String.length text - turns packages))
    with (S (String.length text)) in Hloop by lia.
  rewrite Hloop. reflexivity.
Qed.

End ReadBack.

(** C2.  A string that holds a backspace comes from a well-formed
    document, which spells it with an escape; the run writes it between
    the quotes as it is, and the parser refuses the file the run wrote. *)
Theorem backspace_not_read_back :
  let run := main_default "validate" ["out.toml"] (start backspace_document) in
  Tomllib.loads (I := cpython_default) backspace_document
  = Tomllib.Ok backspace_packages
  /\ forallb (fun kv => serializable (snd kv)) backspace_packages = true
  /\ fst run = Returned tt
  /\ Py.dict_get "out.toml" (files (snd run))
     = Some (lines ["[p]";
                    "k = " ++ s_dquote ++ String "008"%char "" ++ s_dquote;
                    ""])
  /\ Tomllib.loads (I := cpython_default)
       (lines ["[p]";
               "k = " ++ s_dquote ++ String "008"%char "" ++ s_dquote; ""])
     = Tomllib.TOMLDecodeError "Illegal character".
Proof. vm_compute. repeat split. Qed.

(** C3.  The key made of the letter a and a newline is one a document can
    hold; it is not made of letters, digits, underscores and hyphens only,
    and [_toml_key] still gives it back unquoted, because [$] in
    [_BARE_KEY_RE] also matches before a final newline.  The header
    written for it then spans two lines and the parser refuses it. *)
Theorem toml_key_trailing_newline {I : Interpreter} :
  Tomllib.loads newline_key_document = Tomllib.Ok [(newline_key, PyDict [])]
  /\ bare_key newline_key = false
  /\ _toml_key newline_key = newline_key
  /\ Tomllib.loads (render_packages [(newline_key, PyDict [])])
     = Tomllib.TOMLDecodeError
         "Expected ']' at the end of a table declaration".
Proof. repeat split; vm_compute; reflexivity. Qed.

(** ** Further properties of the serializer *)

Lemma escape_with_length (esc : ascii -> string) (s : string) :
  (forall c, 1 <= String.length (esc c)) ->
  String.length s <= String.length (escape_with esc s).
Proof.
  intros Hesc. induction s as [|c s IH]; [apply Nat.le_refl |].
  cbn [escape_with String.length]. rewrite str_length_app.
  specialize (Hesc c). lia.
Qed.

Lemma escape_key_char_length (c : ascii) :
  1 <= String.length (escape_key_char c).
Proof.
  unfold escape_key_char.
  destruct (Ascii.eqb c backslash); [cbn; lia |].
  destruct (Ascii.eqb c dquote); cbn; lia.
Qed.

(** X1.  [_toml_key] gives a key back unchanged exactly when the key is
    made of letters, digits, underscores and hyphens, or is such a key
    followed by one newline; every other key comes out between double
    quotes, each backslash and double quote in it escaped and nothing
    else changed. *)
Theorem toml_key_unquoted_iff (key : string) :
  (_toml_key key = key
   <-> bare_key key = true
       \/ exists b, bare_key b = true /\ key = b ++ s_newline)
  /\ (_toml_key key = key
      \/ _toml_key key
         = s_dquote ++ escape_with escape_key_char key ++ s_dquote).
Proof.
  rewrite <- _BARE_KEY_RE_match_iff.
  destruct (_BARE_KEY_RE_match key) eqn:Hm.
  - assert (E : _toml_key key = key) by (unfold _toml_key; now rewrite Hm).
    split; [split; auto | now left].
  - pose proof (_toml_key_quoted key Hm) as E.
    split; [| now right].
    split; [| discriminate].
    intros Heq. exfalso. rewrite E in Heq.
    apply (f_equal String.length) in Heq.
    cbn [String.length] in Heq. rewrite str_length_app in Heq.
    pose proof (escape_with_length escape_key_char key
                  escape_key_char_length).
    cbn [String.length s_dquote] in Heq. lia.
Qed.

(** *** Escaping loses nothing *)

Lemma unescape_value_escape (s : string) :
  unescape_with decode_value (escape_with escape_value_char s) = s.
Proof.
  induction s as [|c s IH]; [reflexivity |].
  cbn [escape_with]. unfold escape_value_char at 1.
  destruct (Ascii.eqb_spec c backslash) as [->|Hb];
    [| destruct (Ascii.eqb_spec c dquote) as [->|Hq];
       [| destruct (Ascii.eqb_spec c newline) as [->|Hn]]].
  - change ((s_backslash ++ s_backslash) ++ ?x)
      with (String backslash (String backslash x)).
    cbn [unescape_with]. change (Ascii.eqb backslash backslash) with true.
    cbv iota. now rewrite IH.
  - change ((s_backslash ++ s_dquote) ++ ?x)
      with (String backslash (String dquote x)).
    cbn [unescape_with]. change (Ascii.eqb backslash backslash) with true.
    cbv iota. now rewrite IH.
  - change ((s_backslash ++ "n") ++ ?x)
      with (String backslash (String "n" x)).
    cbn [unescape_with]. change (Ascii.eqb backslash backslash) with true.
    cbv iota. now rewrite IH.
  - change (String c "" ++ ?x) with (String c x).
    cbn [unescape_with]. apply Ascii.eqb_neq in Hb. rewrite Hb.
    now rewrite IH.
Qed.

Lemma unescape_key_escape (s : string) :
  unescape_with decode_key (escape_with escape_key_char s) = s.
Proof.
  induction s as [|c s IH]; [reflexivity |].
  cbn [escape_with]. unfold escape_key_char at 1.
  destruct (Ascii.eqb_spec c backslash) as [->|Hb];
    [| destruct (Ascii.eqb_spec c dquote) as [->|Hq]].
  - change ((s_backslash ++ s_backslash) ++ ?x)
      with (String backslash (String backslash x)).
    cbn [unescape_with]. change (Ascii.eqb backslash backslash) with true.
    cbv iota. now rewrite IH.
  - change ((s_backslash ++ s_dquote) ++ ?x)
      with (String backslash (String dquote x)).
    cbn [unescape_with]. change (Ascii.eqb backslash backslash) with true.
    cbv iota. now rewrite IH.
  - change (String c "" ++ ?x) with (String c x).
    cbn [unescape_with]. apply Ascii.eqb_neq in Hb. rewrite Hb.
    now rewrite IH.
Qed.

Lemma str_app_inv_tail (a b t : string) : a ++ t = b ++ t -> a = b.
Proof.
  revert b. induction a as [|x a IH]; intros [|y b] H.
  - reflexivity.
  - exfalso. apply (f_equal String.length) in H.
    cbn [append String.length] in H. rewrite str_length_app in H. lia.
  - exfalso. apply (f_equal String.length) in H.
    cbn [append String.length] in H. rewrite str_length_app in H. lia.
  - cbn [append] in H. injection H as -> H. f_equal. now apply IH.
Qed.

Lemma escape_value_injective (s1 s2 : string) :
  escape_with escape_value_char s1 = escape_with escape_value_char s2 ->
  s1 = s2.
Proof.
  intros H. apply (f_equal (unescape_with decode_value)) in H.
  now rewrite !unescape_value_escape in H.
Qed.

Lemma escape_key_injective (s1 s2 : string) :
  escape_with escape_key_char s1 = escape_with escape_key_char s2 ->
  s1 = s2.
Proof.
  intros H. apply (f_equal (unescape_with decode_key)) in H.
  now rewrite !unescape_key_escape in H.
Qed.

(** X2.  Two different keys are never rendered alike, whatever characters
    they hold. *)
Theorem toml_key_injective (k1 k2 : string) :
  _toml_key k1 = _toml_key k2 -> k1 = k2.
Proof.
  assert (Hmixed : forall a b,
             _BARE_KEY_RE_match a = true -> _BARE_KEY_RE_match b = false ->
             _toml_key a = _toml_key b -> False).
  { intros a b Ha Hb. rewrite (_toml_key_quoted b Hb).
    unfold _toml_key. rewrite Ha.
    destruct a as [|c a]; [discriminate |].
    unfold _BARE_KEY_RE_match in Ha. apply andb_true_iff in Ha.
    destruct Ha as [Hc _]. intros [= -> _]. discriminate Hc. }
  destruct (_BARE_KEY_RE_match k1) eqn:H1;
    destruct (_BARE_KEY_RE_match k2) eqn:H2; intros Heq.
  - unfold _toml_key in Heq. now rewrite H1, H2 in Heq.
  - exfalso. exact (Hmixed k1 k2 H1 H2 Heq).
  - exfalso. exact (Hmixed k2 k1 H2 H1 (eq_sym Heq)).
  - rewrite (_toml_key_quoted k1 H1), (_toml_key_quoted k2 H2) in Heq.
    injection Heq as Heq. apply str_app_inv_tail in Heq.
    now apply escape_key_injective.
Qed.

Lemma toml_key_injective_witness :
  _toml_key "a b" = _toml_key "a b" /\ "a b" = "a b".
Proof.
  split; [reflexivity |]. apply (toml_key_injective "a b" "a b"). reflexivity.
Defined.

(** X3.  Two different text strings are never rendered alike, whatever
    characters they hold: the three replacements can be undone. *)
Theorem toml_value_str_injective {I : Interpreter} (s1 s2 : string) :
  _toml_value (PyStr s1) = _toml_value (PyStr s2) -> s1 = s2.
Proof.
  rewrite !_toml_value_within_limit by reflexivity.
  rewrite !value_text_str. intros Heq. injection Heq as Heq.
  apply str_app_inv_tail in Heq. now apply escape_value_injective.
Qed.

Lemma toml_value_str_injective_witness :
  _toml_value (I := cpython_default) (PyStr "x\y")
  = _toml_value (I := cpython_default) (PyStr "x\y")
  /\ "x\y" = "x\y".
Proof.
  split; [reflexivity |].
  apply (toml_value_str_injective (I := cpython_default) "x\y" "x\y").
  reflexivity.
Defined.

(** X4.  A key that holds no control character other than a tab is read
    back by the parser from what [_toml_key] writes, bare or quoted,
    whatever follows it that is not a character of a bare key. *)
Theorem toml_key_read_back (key rest : string) :
  clean_key key = true ->
  next_char_in BARE_KEY_CHARS rest = false ->
  parse_key_part (_toml_key key ++ rest) = Ok (key, rest).
Proof. apply parse_key_part__toml_key. Qed.

Lemma toml_key_read_back_witness :
  parse_key_part (_toml_key ("a " ++ s_dquote ++ "b" ++ s_backslash) ++ "]")
  = Ok ("a " ++ s_dquote ++ "b" ++ s_backslash, "]").
Proof.
  apply (toml_key_read_back ("a " ++ s_dquote ++ "b" ++ s_backslash) "]");
    reflexivity.
Defined.

(** X5.  For a value built from booleans, integers, strings, lists and
    mappings, nested at most [max_nesting] deep, with no control character
    left unescaped and no integer past the conversion limit,
    [_toml_value] returns a text, and the parser reads the value back from
    it, given any fuel above the length of that text and any text after it
    that starts with a newline, a comma or a closing bracket or brace. *)
Theorem toml_value_read_back {I : Interpreter} (v : pyobj) :
  clean_value v = true ->
  ints_within_limit v = true ->
  nesting v <= max_nesting ->
  exists text,
    _toml_value v = Returns text
    /\ forall fuel rest,
         ends_value rest = true ->
         String.length text < fuel ->
         parse_value fuel (text ++ rest) = Ok (v, rest).
Proof.
  intros Hv Hw _. exists (value_text v).
  split; [now apply _toml_value_within_limit |].
  intros fuel rest. now apply parse_value_value_text.
Qed.

Lemma toml_value_read_back_witness :
  let v := PyList [PyInt (-7); PyStr s_newline;
                   PyDict [("k", PyList []); ("", PyBool false)]] in
  exists text,
    _toml_value (I := cpython_default) v = Returns text
    /\ forall fuel rest,
         ends_value rest = true ->
         String.length text < fuel ->
         parse_value (I := cpython_default) fuel (text ++ rest)
         = Ok (v, rest).
Proof.
  apply (toml_value_read_back (I := cpython_default)
           (PyList [PyInt (-7); PyStr s_newline;
                    PyDict [("k", PyList []); ("", PyBool false)]]));
    [reflexivity | reflexivity | vm_compute; lia].
Defined.

(** *** One line per value *)

Lemma no_newline_app (a b : string) :
  no_newline (a ++ b) = no_newline a && no_newline b.
Proof. apply string_forallb_app. Qed.

Lemma no_newline_escape_value (s : string) :
  no_newline (escape_with escape_value_char s) = true.
Proof.
  induction s as [|c s IH]; [reflexivity |].
  cbn [escape_with]. rewrite no_newline_app, IH, andb_true_r.
  unfold escape_value_char.
  destruct (Ascii.eqb_spec c backslash); [reflexivity |].
  destruct (Ascii.eqb_spec c dquote); [reflexivity |].
  destruct (Ascii.eqb_spec c newline) as [|Hn]; [reflexivity |].
  unfold no_newline. cbn [string_forallb].
  apply Ascii.eqb_neq in Hn. now rewrite Hn.
Qed.

Lemma no_newline_escape_key (s : string) :
  no_newline s = true -> no_newline (escape_with escape_key_char s) = true.
Proof.
  induction s as [|c s IH]; [reflexivity |].
  unfold no_newline at 1. cbn [string_forallb escape_with]. intros H.
  apply andb_true_iff in H. destruct H as [Hc Hs].
  rewrite no_newline_app, (IH Hs), andb_true_r.
  unfold escape_key_char.
  destruct (Ascii.eqb_spec c backslash); [reflexivity |].
  destruct (Ascii.eqb_spec c dquote); [reflexivity |].
  unfold no_newline. cbn [string_forallb]. now rewrite Hc.
Qed.

Lemma no_newline__toml_key (key : string) :
  no_newline key = true -> no_newline (_toml_key key) = true.
Proof.
  intros H. destruct (_BARE_KEY_RE_match key) eqn:Hm.
  - unfold _toml_key. now rewrite Hm.
  - rewrite (_toml_key_quoted key Hm).
    change (String dquote ?x) with (s_dquote ++ x).
    now rewrite !no_newline_app, (no_newline_escape_key key H).
Qed.

Lemma digit_not_newline (c : ascii) :
  is_digit c = true -> negb (Ascii.eqb c newline) = true.
Proof.
  destruct c as [[] [] [] [] [] [] [] []]; vm_compute; intros H;
    try discriminate H; reflexivity.
Qed.

Lemma no_newline_decimal_text (n : Z) : no_newline (Py.decimal_text n) = true.
Proof.
  pose proof (decimal_text_cases n) as Hn.
  assert (Hd : forall d, no_newline (NilEmpty.string_of_uint d) = true).
  { intros d. generalize (string_of_uint_digits d).
    apply string_forallb_impl, digit_not_newline. }
  destruct n as [|p|p]; rewrite Hn; [reflexivity | apply Hd |].
  change (String "-" ?x) with ("-" ++ x). now rewrite no_newline_app, Hd.
Qed.

Lemma no_newline_join {A} (render : A -> string) (xs : list A) :
  Forall (fun x => no_newline (render x) = true) xs ->
  no_newline (Py.join ", " (map render xs)) = true.
Proof.
  induction xs as [|x [|y ys] IH]; intros H; [reflexivity | |].
  - now inversion H.
  - inversion H as [|? ? Hx Hrest]; subst. cbn [map] in *.
    rewrite join_cons2, !no_newline_app, Hx, (IH Hrest). reflexivity.
Qed.

Lemma value_text_one_line (v : pyobj) :
  one_line_keys v = true -> no_newline (value_text v) = true.
Proof.
  induction v as [b|n|r|s|items IH|items IH|s] using pyobj_nested_ind;
    intros Hv.
  - now destruct b.
  - apply no_newline_decimal_text.
  - exact Hv.
  - rewrite value_text_str. change (String dquote ?x) with (s_dquote ++ x).
    now rewrite !no_newline_app, no_newline_escape_value.
  - rewrite value_text_list. change (String "[" ?x) with ("[" ++ x).
    rewrite !no_newline_app, no_newline_join; [reflexivity |].
    cbn [one_line_keys] in Hv. rewrite forallb_forall in Hv.
    rewrite Forall_forall in *. intros x Hx. apply (IH x Hx), Hv, Hx.
  - rewrite value_text_dict. change (String "{" ?x) with ("{" ++ x).
    rewrite !no_newline_app, no_newline_join; [reflexivity |].
    cbn [one_line_keys] in Hv. rewrite forallb_forall in Hv.
    rewrite Forall_forall in *. intros [k x] Hx.
    specialize (Hv _ Hx). cbn beta iota in Hv.
    apply andb_true_iff in Hv. destruct Hv as [Hk Hcv].
    pose proof (IH _ Hx Hcv) as Hx'. cbn [snd] in Hx'.
    unfold render_pair.
    now rewrite !no_newline_app, (no_newline__toml_key k Hk), Hx'.
  - exact Hv.
Qed.

(** X6.  The text [_toml_value] returns for a value holds no newline,
    unless a key of a mapping inside the value, or the text of a float or
    of an object of another class, holds one: a newline inside a string
    is always escaped.  With a key that holds no newline either, the text
    written for the pair, up to the newline that ends its line, holds
    none. *)
Theorem toml_value_one_line {I : Interpreter} (v : pyobj) (text : string) :
  _toml_value v = Returns text ->
  one_line_keys v = true ->
  no_newline text = true
  /\ forall key,
       no_newline key = true ->
       no_newline (_toml_key key ++ " = " ++ text) = true.
Proof.
  intros Hret Hv. apply _toml_value_returns in Hret.
  destruct Hret as [_ ->].
  pose proof (value_text_one_line v Hv) as Ht.
  split; [exact Ht |].
  intros key Hk. now rewrite !no_newline_app, (no_newline__toml_key key Hk), Ht.
Qed.

Lemma toml_value_one_line_witness :
  let v := PyList [PyStr ("two" ++ s_newline ++ "lines");
                   PyDict [("k", PyStr s_newline)]] in
  let text := value_text v in
  no_newline text = true
  /\ forall key,
       no_newline key = true ->
       no_newline (_toml_key key ++ " = " ++ text) = true.
Proof.
  apply (toml_value_one_line (I := cpython_default)
           (PyList [PyStr ("two" ++ s_newline ++ "lines");
                    PyDict [("k", PyStr s_newline)]])
           (value_text
              (PyList [PyStr ("two" ++ s_newline ++ "lines");
                       PyDict [("k", PyStr s_newline)]])));
    reflexivity.
Defined.

(** ** Further properties of the filter and of the run *)

Lemma dict_set_In {V} (k : string) (v : V) (d : list (string * V))
    (kv : string * V) :
  In kv (Py.dict_set k v d) -> kv = (k, v) \/ In kv d.
Proof.
  induction d as [|[k' v'] d IH]; cbn [Py.dict_set].
  - intros [<-|[]]. now left.
  - destruct (String.eqb_spec k k') as [->|Hne].
    + intros [<-|Hin]; [now left | right; now right].
    + intros [<-|Hin]; [right; now left |].
      destruct (IH Hin) as [->|Hd]; [now left | right; now right].
Qed.

Lemma dict_set_keys {V} (k : string) (v : V) (d : list (string * V))
    (k0 : string) :
  In k0 (Py.dict_keys d) -> In k0 (Py.dict_keys (Py.dict_set k v d)).
Proof.
  induction d as [|[k' v'] d IH]; cbn [Py.dict_set Py.dict_keys map fst];
    [intros [] |].
  destruct (String.eqb_spec k k') as [->|Hne]; [auto |].
  intros [<-|Hin]; [now left | right; now apply IH].
Qed.

Lemma dict_get_set_other {V} (k k' : string) (v : V)
    (d : list (string * V)) :
  k' <> k -> Py.dict_get k' (Py.dict_set k v d) = Py.dict_get k' d.
Proof.
  intros Hne. induction d as [|[k0 v0] d IH]; cbn [Py.dict_set Py.dict_get].
  - apply String.eqb_neq in Hne. now rewrite Hne.
  - destruct (String.eqb_spec k k0) as [->|Hk]; cbn [Py.dict_get].
    + apply String.eqb_neq in Hne. now rewrite Hne.
    + now rewrite IH.
Qed.

Lemma dict_comprehension_In {V} (keep : string -> V -> bool)
    (d : list (string * V)) (kv : string * V) :
  In kv (Py.dict_comprehension keep d) ->
  In kv d /\ keep (fst kv) (snd kv) = true.
Proof.
  unfold Py.dict_comprehension.
  enough (G : forall items acc,
             (forall x, In x items -> In x d) ->
             (forall x, In x acc ->
                        In x d /\ keep (fst x) (snd x) = true) ->
             In kv (fold_left
                      (fun acc kv => if keep (fst kv) (snd kv)
                                     then Py.dict_set (fst kv) (snd kv) acc
                                     else acc) items acc) ->
             In kv d /\ keep (fst kv) (snd kv) = true)
    by (apply (G d []); [auto | intros x []]).
  induction items as [|[k v] items IH]; intros acc Hsub Hacc; cbn [fold_left].
  - apply Hacc.
  - apply IH; [intros x Hx; apply Hsub; now right |].
    cbn [fst snd]. destruct (keep k v) eqn:E; [| exact Hacc].
    intros x Hx. destruct (dict_set_In k v acc x Hx) as [->|Hin].
    + split; [apply Hsub; now left | exact E].
    + now apply Hacc.
Qed.

(** X7.  Whatever the document, with or without repeated keys, every entry
    of the Filtered Set is an entry of the document, its key is not the
    reserved key and its value is a mapping: the filter invents nothing
    and lets no other entry through. *)
Theorem filter_packages_sound (data : dict) :
  Forall (fun kv => In kv data
                    /\ fst kv <> reserved_key
                    /\ isinstance_dict (snd kv) = true)
    (filter_packages data).
Proof.
  apply Forall_forall. intros kv Hin.
  apply dict_comprehension_In in Hin. destruct Hin as [Hin Hkeep].
  apply andb_true_iff in Hkeep. destruct Hkeep as [Hk Hv].
  apply negb_true_iff, String.eqb_neq in Hk. auto.
Qed.

(** Each key of the document is kept in the Filtered Set, or is among the
    keys the non-table warning names, or is the reserved key, for which
    the reserved-entry warning is due. *)
Lemma dropped_key_cases (data : dict) (k : string) :
  In k (Py.dict_keys data) ->
  In k (Py.dict_keys (filter_packages data))
  \/ In k (non_table_keys data)
  \/ (k = reserved_key /\ reserved_notice data = [reserved_warning]).
Proof.
  intros Hk. apply in_map_iff in Hk. destruct Hk as [[k' v] [E Hin]].
  cbn [fst] in E. subst k'.
  destruct (String.eqb_spec k reserved_key) as [->|Hne].
  - destruct (isinstance_dict v) eqn:Hv.
    + right. right. split; [reflexivity |].
      unfold reserved_notice, Py.dict_contains.
      destruct (Py.dict_get reserved_key data) eqn:G; [reflexivity |].
      exfalso. apply dict_get_None in G. apply G.
      change reserved_key with (fst (reserved_key, v)). now apply in_map.
    + right. left. unfold non_table_keys.
      change reserved_key with (fst (reserved_key, v)). apply in_map.
      apply filter_In. split; [exact Hin |]. cbn [snd]. now rewrite Hv.
  - destruct (isinstance_dict v) eqn:Hv.
    + left. unfold filter_packages, Py.dict_comprehension.
      assert (G : forall items acc,
                 In (k, v) items \/ In k (Py.dict_keys acc) ->
                 In k (Py.dict_keys
                         (fold_left
                            (fun acc kv =>
                               if negb (String.eqb (fst kv) reserved_key)
                                  && isinstance_dict (snd kv)
                               then Py.dict_set (fst kv) (snd kv) acc
                               else acc) items acc))).
      { induction items as [|[k0 v0] items IH]; intros acc H;
          cbn [fold_left].
        - destruct H as [[]|H]; exact H.
        - apply IH. cbn [fst snd]. destruct H as [[E|H]|H].
          + injection E as -> ->. right.
            apply String.eqb_neq in Hne. rewrite Hne, Hv. cbn [negb andb].
            clear. induction acc as [|[k1 v1] acc IHa];
              cbn [Py.dict_set Py.dict_keys map fst]; [now left |].
            destruct (String.eqb_spec k k1) as [->|]; [now left |].
            right. exact IHa.
          + now left.
          + right.
            destruct (negb (String.eqb k0 reserved_key)
                      && isinstance_dict v0); [| exact H].
            now apply dict_set_keys. }
      apply G. now left.
    + right. left. unfold non_table_keys.
      change k with (fst (k, v)). apply in_map.
      apply filter_In. split; [exact Hin |]. cbn [snd]. now rewrite Hv.
Qed.

Lemma for_each_app {A} (xs ys : list A) (body : A -> proc unit) (w : world) :
  for_each (xs ++ ys) body w
  = bind (for_each xs body) (fun _ => for_each ys body) w.
Proof.
  revert w. induction xs as [|x xs IH]; intros w; cbn [for_each List.app].
  - reflexivity.
  - unfold bind. destruct (body x w) as [[[]|c|e] w1]; try reflexivity.
    rewrite IH. reflexivity.
Qed.


Lemma write_section_non_mapping {I : Interpreter} (fh : handle)
    (name : string) (table : pyobj) (c : string) (w : world) :
  isinstance_dict table = false ->
  write_section fh (name, table) (set_file (fst fh) c w)
  = (Uncaught "AttributeError",
     set_file (fst fh) (c ++ "[" ++ _toml_key name ++ "]" ++ s_newline) w).
Proof.
  intros Htable. unfold write_section, bind. rewrite fh_write_set_file.
  destruct table; try discriminate Htable; reflexivity.
Qed.

(** X9.  [_write_packages] touches one file only.  Given tables that are
    mappings nested at most [max_nesting] deep, with no integer past the
    conversion limit, and a path that opens on a device with room, it
    returns; the file the path names then holds the sections and nothing
    of what it held before, every other file is as it was, and nothing
    was printed. *)
Theorem _write_packages_one_file {I : Interpreter}
    (packages : dict) (path file other : string) (w : world) :
  Forall (fun kv => isinstance_dict (snd kv) = true) packages ->
  packages_within_limit packages = true ->
  packages_nesting packages <= max_nesting ->
  fs_open w path = Opened file false ->
  other <> file ->
  let run := _write_packages packages path w in
  fst run = Returned tt
  /\ Py.dict_get file (files (snd run)) = Some (render_packages packages)
  /\ Py.dict_get other (files (snd run)) = Py.dict_get other (files w)
  /\ stdout (snd run) = stdout w
  /\ stderr (snd run) = stderr w.
Proof.
  intros Htables Hlim _ Hopen Hother run. unfold run.
  rewrite (_write_packages_writes packages path file w Hopen Htables Hlim).
  cbn [fst snd set_file files stdout stderr].
  split; [reflexivity |].
  split; [apply dict_get_set_same |].
  split; [now apply dict_get_set_other | split; reflexivity].
Qed.

Lemma _write_packages_one_file_witness :
  let w := mkWorld "" false [] [] [("out.toml", "old"); ("b", "kept")]
             plain_files in
  let run :=
    _write_packages (I := cpython_default) sample_packages "./out.toml" w in
  fst run = Returned tt
  /\ Py.dict_get "./out.toml" (files (snd run))
     = Some (render_packages sample_packages)
  /\ Py.dict_get "b" (files (snd run)) = Some "kept"
  /\ stdout (snd run) = []
  /\ stderr (snd run) = [].
Proof.
  apply (_write_packages_one_file (I := cpython_default) sample_packages
           "./out.toml" "./out.toml" "b"
           (mkWorld "" false [] [] [("out.toml", "old"); ("b", "kept")]
              plain_files)).
  - repeat constructor.
  - reflexivity.
  - vm_compute. lia.
  - reflexivity.
  - discriminate.
Defined.

(** X10.  Given a table that is not a mapping, after tables that are
    mappings nested at most [max_nesting] deep with no integer past the
    conversion limit, [_write_packages] stops at that entry.  On a device
    with room the exception is [AttributeError], and what was written
    before stays in the file: the sections of the entries before it and
    the header of the entry itself.  On a full device it is the [OSError]
    of [close], and the file is empty. *)
Theorem _write_packages_non_mapping {I : Interpreter}
    (before after : dict) (name : string) (table : pyobj)
    (path file : string) (full : bool) (w : world) :
  Forall (fun kv => isinstance_dict (snd kv) = true) before ->
  packages_within_limit before = true ->
  packages_nesting before <= max_nesting ->
  isinstance_dict table = false ->
  fs_open w path = Opened file full ->
  _write_packages (before ++ (name, table) :: after)%list path w
  = if full then (Uncaught "OSError", set_file file "" w)
    else (Uncaught "AttributeError",
          set_file file
            (render_packages before
             ++ "[" ++ _toml_key name ++ "]" ++ s_newline) w).
Proof.
  intros Hbefore Hlim _ Htable Hopen. unfold _write_packages, with_open_w.
  rewrite (open_w_opened _ _ _ _ Hopen).
  rewrite for_each_app. unfold bind at 1.
  destruct (write_sections_cases (file, full) before Hbefore "" w)
    as (t & E & _ & T).
  cbn [fst] in E. change ("" ++ t) with t in E.
  rewrite E, Hlim, (T Hlim). cbn [for_each]. unfold bind at 1.
  pose proof (write_section_non_mapping (file, full) name table
                (render_packages before) w Htable) as Hs.
  cbn [fst] in Hs. rewrite Hs. cbv beta iota zeta.
  pose proof (fh_close_set_file (file, full)
                (render_packages before
                 ++ "[" ++ _toml_key name ++ "]" ++ s_newline) w) as Hc.
  cbn [fst snd] in Hc. rewrite Hc.
  assert (Ht : String.eqb (render_packages before
                           ++ "[" ++ _toml_key name ++ "]" ++ s_newline) ""
               = false).
  { apply String.eqb_neq. intros Hnil.
    apply (f_equal String.length) in Hnil.
    rewrite str_length_app in Hnil. cbn [String.length append] in Hnil.
    lia. }
  rewrite Ht, andb_true_r. now destruct full.
Qed.

Lemma _write_packages_non_mapping_witness :
  _write_packages (I := cpython_default)
    [("a", PyDict []); ("b", PyInt 1); ("c", PyDict [])]
    "out.toml" (start "")
  = (Uncaught "AttributeError",
     set_file "out.toml" (lines ["[a]"; ""; "[b]"]) (start "")).
Proof.
  apply (_write_packages_non_mapping (I := cpython_default)
           [("a", PyDict [])] [("c", PyDict [])]
           "b" (PyInt 1) "out.toml" "out.toml" false (start "")).
  - repeat constructor.
  - reflexivity.
  - vm_compute. lia.
  - reflexivity.
  - reflexivity.
Defined.

Section RunFacts.

Context {I : Interpreter}.

Variable tomllib_loads : string -> loads_result.

(** X8.  No top-level key is dropped in silence.  When the input parses,
    each key of the document is kept in the Filtered Set, or the run has
    printed to the error stream the non-table warning, spelled out here,
    with that key among the keys it names, or the key is the reserved key
    and the run has printed the reserved-entry warning, spelled out
    here. *)
Theorem every_dropped_key_is_reported
    (argv0 outfile : string) (w : world) (data : dict) (k : string) :
  tomllib_loads (stdin w) = Loaded data ->
  In k (Py.dict_keys data) ->
  let run := main tomllib_loads argv0 [outfile] w in
  exists notices,
    stderr (snd run) = (stderr w ++ notices)%list
    /\ (In k (Py.dict_keys (filter_packages data))
        \/ (exists keys,
              In k keys
              /\ In ("::warning::Ignoring non-table top-level keys in "
                     ++ "PACKAGES_CONFIG: " ++ Py.join ", " keys) notices)
        \/ (k = "__config__"
            /\ In ("::warning::PACKAGES_CONFIG contains [__config__]; "
                   ++ "ignoring (auto-generated)") notices)).
Proof.
  intros Hloads Hk run.
  exists (reserved_notice data ++ non_table_notice data
          ++ no_packages_notice data)%list.
  split; [apply main_parsed_stderr, Hloads |].
  destruct (dropped_key_cases data k Hk) as [Hkept | [Hnt | [-> Hres]]].
  - now left.
  - right. left. exists (non_table_keys data). split; [exact Hnt |].
    apply in_or_app. right. apply in_or_app. left.
    unfold non_table_notice.
    destruct (non_table_keys data) as [|k0 ks]; [destruct Hnt |].
    now left.
  - right. right. split; [reflexivity |].
    apply in_or_app. left. rewrite Hres. now left.
Qed.

(** X11.  The status of a run is 0, 1 or 2.  It is 2 exactly when the
    number of arguments is not one.  It is 0 exactly when there is one
    argument, the input parses, the Filtered Set is not empty, the output
    path opens on a device with room and no integer of the Filtered Set
    is past the conversion limit. *)
Theorem main_exit_status (argv0 : string) (args : list string) (w : world) :
  let run := main tomllib_loads argv0 args w in
  (exit_status (fst run) = 0 \/ exit_status (fst run) = 1
   \/ exit_status (fst run) = 2)%Z
  /\ (exit_status (fst run) = 2%Z <-> length args <> 1)
  /\ (exit_status (fst run) = 0%Z
      <-> exists outfile data file,
            args = [outfile]
            /\ tomllib_loads (stdin w) = Loaded data
            /\ filter_packages data <> []
            /\ fs_open w outfile = Opened file false
            /\ packages_within_limit (filter_packages data) = true).
Proof.
  intros run.
  pose proof (main_cases tomllib_loads argv0 args w) as H.
  cbv zeta in H. fold run in H.
  destruct args as [|outfile [|a args]].
  - rewrite H. cbn [fst exit_status length].
    split; [auto |]. split; [split; [discriminate | reflexivity] |].
    split; [discriminate | intros (o & d & f & [=] & _)].
  - cbn [length].
    assert (H12 : (exit_status (fst run) = 0 \/ exit_status (fst run) = 1
                   \/ exit_status (fst run) = 2)%Z
                  /\ (exit_status (fst run) = 2%Z <-> 1 <> 1)).
    { assert (G : exit_status (fst run) = 0%Z \/ exit_status (fst run) = 1%Z).
      { destruct (tomllib_loads (stdin w)) as [data|msg|exc];
          [destruct (filter_packages data);
           [| destruct (fs_open w outfile) as [file full|exc];
              [destruct (negb full && packages_within_limit _);
               [| destruct H as (exc & c & H)] |]] | |];
          rewrite H; cbn; auto. }
      split; [tauto |].
      split; [| intros Hne; now elim Hne].
      intros E. destruct G as [G|G]; rewrite G in E; discriminate E. }
    destruct H12 as [H012 H2].
    split; [exact H012 |]. split; [exact H2 |].
    destruct (tomllib_loads (stdin w)) as [data|msg|exc] eqn:Hloads.
    + pose proof (main_parsed_status tomllib_loads argv0 outfile w data
                    Hloads) as H0. fold run in H0.
      rewrite H0. split.
      * intros (Hne & file & Hopen & Hlim).
        exists outfile, data, file. auto.
      * intros (o & d & file & [= <-] & [= <-] & Hne & Hopen & Hlim).
        eauto.
    + rewrite H. cbn [fst exit_status].
      split; [discriminate | intros (o & d & f & _ & [=] & _)].
    + rewrite H. cbn [fst exit_status].
      split; [discriminate | intros (o & d & f & _ & [=] & _)].
  - rewrite H. cbn [fst exit_status length].
    split; [auto |]. split; [split; [intros _; lia | reflexivity] |].
    split; [discriminate | intros (o & d & f & [=] & _)].
Qed.

(** X12.  A run that does not end with status 0 has printed nothing to
    standard output.  When it ends by [sys.exit], it has written no file;
    in every case it has changed one file at most, the one the output
    path names. *)
Theorem main_failure_writes_nothing
    (argv0 : string) (args : list string) (w : world) :
  let run := main tomllib_loads argv0 args w in
  exit_status (fst run) <> 0%Z ->
  stdout (snd run) = stdout w
  /\ (forall code, fst run = SystemExit code -> files (snd run) = files w)
  /\ (files (snd run) = files w
      \/ exists outfile file full content,
           args = [outfile]
           /\ fs_open w outfile = Opened file full
           /\ files (snd run) = Py.dict_set file content (files w)).
Proof.
  intros run.
  pose proof (main_cases tomllib_loads argv0 args w) as H.
  cbv zeta in H. fold run in H.
  destruct args as [|outfile [|a args]];
    [rewrite H; cbn; auto | | rewrite H; cbn; auto].
  destruct (tomllib_loads (stdin w)) as [data|msg|exc];
    [| rewrite H; cbn; auto ..].
  destruct (filter_packages data) as [|p ps]; [rewrite H; cbn; auto |].
  destruct (fs_open w outfile) as [file full|exc] eqn:Hopen;
    [| rewrite H; cbn; split; [| split]; auto; intros code [=]].
  destruct (negb full && packages_within_limit (p :: ps)).
  - rewrite H. cbn [fst exit_status]. intros Hst. now elim Hst.
  - destruct H as (exc & c & ->). intros _. cbn.
    split; [reflexivity |]. split; [intros code [=] |].
    right. exists outfile, file, full, c. auto.
Qed.

(** X13.  Standard input is read exactly when one argument is given, and
    the script prints to the error stream at most three times in a run:
    the two warnings and the error it ends with.  (One text can span
    several lines, when a key holds a newline; the traceback of an
    exception nobody caught is printed by the interpreter, not by the
    script.) *)
Theorem main_reads_and_reports
    (argv0 : string) (args : list string) (w : world) :
  let run := main tomllib_loads argv0 args w in
  stdin_consumed w = false ->
  (stdin_consumed (snd run) = true <-> length args = 1)
  /\ exists notices,
       stderr (snd run) = (stderr w ++ notices)%list
       /\ length notices <= 3.
Proof.
  intros run Hfresh.
  assert (Hn : forall data,
             length (reserved_notice data ++ non_table_notice data) <= 2).
  { intros data. rewrite length_app.
    unfold reserved_notice, non_table_notice.
    destruct (Py.dict_contains reserved_key data);
      destruct (non_table_keys data); cbn; lia. }
  pose proof (main_cases tomllib_loads argv0 args w) as H.
  cbv zeta in H. fold run in H.
  destruct args as [|outfile [|a args]].
  - rewrite H. cbn. rewrite Hfresh.
    split; [split; discriminate |].
    eexists. split; [reflexivity | cbn; lia].
  - destruct (tomllib_loads (stdin w)) as [data|msg|exc] eqn:Hloads.
    + split.
      * split; [reflexivity | intros _].
        destruct (filter_packages data) as [|p ps];
          [| destruct (fs_open w outfile) as [file full|exc];
             [destruct (negb full && packages_within_limit (p :: ps));
              [| destruct H as (exc & c & H)] |]];
          rewrite H; reflexivity.
      * exists (reserved_notice data ++ non_table_notice data
                ++ no_packages_notice data)%list.
        split; [apply main_parsed_stderr, Hloads |].
        rewrite List.app_assoc, length_app. specialize (Hn data).
        unfold no_packages_notice.
        destruct (filter_packages data); cbn [length]; lia.
    + rewrite H. cbn. split; [tauto |].
      eexists. split; [reflexivity | cbn; lia].
    + rewrite H. cbn. split; [tauto |].
      exists []. split; [now rewrite app_nil_r | cbn; lia].
  - rewrite H. cbn. rewrite Hfresh.
    split; [split; [discriminate | intros [=]] |].
    eexists. split; [reflexivity | cbn; lia].
Qed.

End RunFacts.

Lemma every_dropped_key_is_reported_witness :
  let run := main_default "validate" ["out.toml"] (start scenario_B) in
  exists notices,
    stderr (snd run) = notices
    /\ (In "bare" (Py.dict_keys (filter_packages data_B))
        \/ (exists keys,
              In "bare" keys
              /\ In ("::warning::Ignoring non-table top-level keys in "
                     ++ "PACKAGES_CONFIG: " ++ Py.join ", " keys) notices)
        \/ ("bare" = "__config__"
            /\ In ("::warning::PACKAGES_CONFIG contains [__config__]; "
                   ++ "ignoring (auto-generated)") notices)).
Proof.
  apply (every_dropped_key_is_reported (I := cpython_default) loads_default
           "validate" "out.toml" (start scenario_B) data_B "bare").
  - reflexivity.
  - now left.
Defined.

Lemma main_failure_writes_nothing_witness :
  let run :=
    main (I := cpython_default) (fun _ => Loaded hex_packages)
      "validate" ["out.toml"] (start hex_document) in
  stdout (snd run) = []
  /\ (forall code, fst run = SystemExit code -> files (snd run) = [])
  /\ (files (snd run) = []
      \/ exists outfile file full content,
           ["out.toml"] = [outfile]
           /\ plain_files outfile = Opened file full
           /\ files (snd run) = Py.dict_set file content []).
Proof.
  apply (main_failure_writes_nothing (I := cpython_default)
           (fun _ => Loaded hex_packages)
           "validate" ["out.toml"] (start hex_document)).
  vm_compute. discriminate.
Defined.

Lemma main_reads_and_reports_witness :
  let run :=
    main_default "validate" ["out.toml"] (start scenario_reserved_scalar) in
  (stdin_consumed (snd run) = true <-> 1 = 1)
  /\ exists notices,
       stderr (snd run) = notices /\ length notices <= 3.
Proof.
  apply (main_reads_and_reports (I := cpython_default) loads_default
           "validate" ["out.toml"] (start scenario_reserved_scalar)).
  reflexivity.
Defined.

Lemma filter_all {A} (f : A -> bool) (l : list A) :
  Forall (fun x => f x = true) l -> filter f l = l.
Proof.
  induction 1 as [|x l Hx _ IH]; [reflexivity |].
  cbn [filter]. now rewrite Hx, IH.
Qed.

Lemma filter_none {A} (f : A -> bool) (l : list A) :
  Forall (fun x => f x = false) l -> filter f l = [].
Proof.
  induction 1 as [|x l Hx _ IH]; [reflexivity |].
  cbn [filter]. now rewrite Hx, IH.
Qed.

Lemma packages_within_no_digit_limit (packages : dict) :
  packages_within_limit (I := no_digit_limit) packages = true.
Proof.
  apply forallb_forall. intros kv _. apply ints_within_no_digit_limit.
Qed.

Lemma clean_packages_tables (packages : dict) :
  clean_packages packages = true ->
  Forall (fun kv => isinstance_dict (snd kv) = true) packages.
Proof.
  intros Hclean.
  destruct (clean_packages_entries packages Hclean) as [_ Hall].
  eapply Forall_impl; [| exact Hall].
  intros entry (_ & items & -> & _). reflexivity.
Qed.

(** X14.  The file a run writes is a fixed point of the script.  Take a
    clean Filtered Set, not empty and without the reserved key, nested at
    most [max_nesting] deep and with no integer past the conversion limit;
    give its sections as input to a run whose output path opens on a
    device with room and whose parser answers on that text as the
    embedded one does.  The run returns, prints no warning, writes a file
    equal to its input and prints the names of the Filtered Set. *)
Theorem main_output_is_fixed_point {I : Interpreter}
    (tomllib_loads : string -> loads_result)
    (argv0 outfile file : string) (packages : dict) (w : world) :
  clean_packages packages = true ->
  packages_within_limit packages = true ->
  packages_nesting packages <= max_nesting ->
  packages <> [] ->
  ~ In reserved_key (Py.dict_keys packages) ->
  stdin w = render_packages packages ->
  fs_open w outfile = Opened file false ->
  (forall r, loads_result_of (Tomllib.loads (stdin w)) = Some r ->
             tomllib_loads (stdin w) = r) ->
  let run := main tomllib_loads argv0 [outfile] w in
  fst run = Returned tt
  /\ stderr (snd run) = stderr w
  /\ Py.dict_get file (files (snd run)) = Some (stdin w)
  /\ stdout (snd run)
     = (stdout w ++ [Py.join " " (Py.dict_keys packages)])%list.
Proof.
  intros Hclean Hlim _ Hne Hres Hin Hopen Hagree run.
  destruct (clean_packages_entries packages Hclean) as [Hnd Hall].
  assert (Hloads : tomllib_loads (stdin w) = Loaded packages).
  { apply Hagree. now rewrite Hin, (loads_render_packages _ Hclean Hlim). }
  pose proof (clean_packages_tables packages Hclean) as Hdicts.
  assert (Hfilter : filter_packages packages = packages).
  { rewrite (filter_packages_filtered_set packages Hnd).
    unfold filtered_set, without_non_tables, without_reserved.
    rewrite filter_filter. apply filter_all.
    rewrite Forall_forall in *. intros [k v] Hkv.
    specialize (Hdicts _ Hkv). cbn [fst snd] in *. rewrite Hdicts.
    assert (Hk : k <> reserved_key).
    { intros ->. apply Hres. change reserved_key with (fst (reserved_key, v)).
      now apply in_map. }
    apply String.eqb_neq in Hk. now rewrite Hk. }
  assert (Hnt : non_table_notice packages = []).
  { unfold non_table_notice, non_table_keys.
    rewrite filter_none; [reflexivity |].
    eapply Forall_impl; [| exact Hdicts]. intros kv ->. reflexivity. }
  assert (Hrn : reserved_notice packages = []).
  { unfold reserved_notice, Py.dict_contains.
    apply dict_get_None in Hres. now rewrite Hres. }
  pose proof (main_cases tomllib_loads argv0 [outfile] w) as H.
  cbv zeta in H. fold run in H.
  rewrite Hloads, Hfilter, Hnt, Hrn, Hopen, Hlim in H.
  destruct packages as [|p ps]; [congruence |].
  cbn [negb andb] in H. rewrite H.
  cbn [fst snd add_stdout add_stderr set_file consume_stdin
         stdin stdout stderr files List.app].
  rewrite List.app_nil_r, Hin.
  split; [reflexivity | split; [reflexivity |]].
  split; [apply dict_get_set_same | reflexivity].
Qed.

Lemma main_output_is_fixed_point_witness :
  let w := start (render_packages sample_packages) in
  let run := main_default "validate" ["out.toml"] w in
  fst run = Returned tt
  /\ stderr (snd run) = []
  /\ Py.dict_get "out.toml" (files (snd run))
     = Some (render_packages sample_packages)
  /\ stdout (snd run) = [Py.join " " (Py.dict_keys sample_packages)].
Proof.
  apply (main_output_is_fixed_point (I := cpython_default) loads_default
           "validate" "out.toml" "out.toml" sample_packages
           (start (render_packages sample_packages)));
    [reflexivity | reflexivity | vm_compute; lia | discriminate | |
     reflexivity | reflexivity |].
  - intros [H|[H|[]]]; discriminate H.
  - vm_compute. now intros r [= <-].
Defined.

(** X15.  Two different clean Filtered Sets are never written as the same
    file: the text of the sections determines the names, the keys, the
    values and their order. *)
Theorem render_packages_injective (p1 p2 : dict) :
  clean_packages p1 = true -> clean_packages p2 = true ->
  render_packages p1 = render_packages p2 -> p1 = p2.
Proof.
  intros H1 H2 Heq.
  pose proof (loads_render_packages (I := no_digit_limit) p1 H1
                (packages_within_no_digit_limit p1)) as L1.
  pose proof (loads_render_packages (I := no_digit_limit) p2 H2
                (packages_within_no_digit_limit p2)) as L2.
  rewrite Heq in L1. rewrite L1 in L2. now injection L2.
Qed.

Lemma render_packages_injective_witness :
  render_packages sample_packages = render_packages sample_packages
  /\ sample_packages = sample_packages.
Proof.
  split; [reflexivity |].
  apply (render_packages_injective sample_packages sample_packages);
    reflexivity.
Defined.


